(** * A metal-oxide (MOX) gas sensor: the model of [mox.py] and its properties

    The development embeds [pegasus/simulator/logic/sensors/mox.py] (class
    [MOX]) shallowly.  Python integers are [Z].  In the model of the sensor
    as a whole, Python and NumPy floating point numbers are idealised as the
    real numbers [R]: rounding, infinities and NaN are not modelled there,
    and what is proved of it is a statement about the exact arithmetic the
    code approximates.  The two places where the code decides by comparing
    or flooring rounded numbers, the range test of the loop over the
    filaments and the voxel lookup of the visibility check, are embedded a
    second time on binary64 numbers (module [Double]), and what depends on
    the rounding is proved there.  Python exceptions are values of
    [outcome]; a method of the sensor is a function from the sensor object to
    the mutated object paired with an outcome, so that what a method has
    already written survives the exception it raises later, as in Python.

    The calibration tables ([R0], [tau_value], [sensitivity_air],
    [sensitivity_lineloglog]) are imported by [mox.py] from
    [gas_sensor_utils], a module this development does not embed: they are
    a parameter ([Calibration]) of the model.  The rate limiting decorator
    [Sensor.update_at_rate] and the debug drawing of the filaments are
    outside the model: [update] is the body of the method, one call per
    tick. *)

From Stdlib Require Import Reals ZArith List Bool Lra Lia Zfloor Permutation.
From Stdlib Require String Ascii DecimalString DecimalNat.
From Stdlib Require Floats.
Import ListNotations.

Open Scope R_scope.

(** ** Exceptions and the state-and-exception monad *)

Inductive exn : Set :=
| ValueError
| OverflowError
| ZeroDivisionError
| IndexError
| AttributeError
| FileNotFoundError
| MemoryError.

Inductive outcome (A : Type) : Type :=
| Ok (a : A)
| Raise (e : exn).

Arguments Ok {A} a.
Arguments Raise {A} e.

Definition obind {A B : Type} (o : outcome A) (k : A -> outcome B) : outcome B :=
  match o with
  | Ok a => k a
  | Raise e => Raise e
  end.

Declare Scope outcome_scope.
Delimit Scope outcome_scope with out.
Notation "x <- o ;; k" := (obind o (fun x => k))
  (at level 61, o at next level, right associativity) : outcome_scope.

(** ** Python and NumPy primitives *)

Module Py.

(** [math.floor] and [math.ceil]. *)
Definition math_floor (x : R) : Z := Zfloor x.
Definition math_ceil (x : R) : Z := Zceil x.

(** [int(x)] on a float truncates toward zero. *)
Definition int (x : R) : Z :=
  if Rle_dec 0 x then Zfloor x else Zceil x.

(** The integer a real number is, when it is one. *)
Definition as_integer (y : R) : option Z :=
  if Req_dec_T (IZR (Zfloor y)) y then Some (Zfloor y) else None.

(** [math.pow(x, y)]: defined for a positive base; at base zero it raises
    for a negative exponent; at a negative base it is defined for whole
    exponents only.  Over the reals no power is out of range: the
    [OverflowError] of a result beyond the doubles is not modelled. *)
Definition math_pow (x y : R) : outcome R :=
  if Rlt_dec 0 x then Ok (Rpower x y)
  else if Req_dec_T x 0 then
    if Rlt_dec 0 y then Ok 0
    else if Req_dec_T y 0 then Ok 1
    else Raise ValueError
  else
    match as_integer y with
    | Some n => Ok (powerRZ x n)
    | None => Raise ValueError
    end.

(** Python float division raises on a zero divisor. *)
Definition fdiv (a b : R) : outcome R :=
  if Req_dec_T b 0 then Raise ZeroDivisionError else Ok (a / b).

(** A NumPy scalar divided by zero is nan or an infinity, which
    [math.ceil] and [math.floor] refuse.  The quotient is the exact one;
    [Double.math_ceil] and [Double.math_floor] round the quotient the
    processor gives, and refuse one that overflowed. *)
Definition np_div_then (round : R -> Z) (a b : R) : outcome Z :=
  if Req_dec_T b 0 then
    if Req_dec_T a 0 then Raise ValueError else Raise OverflowError
  else Ok (round (a / b)).

(** One axis of a NumPy (or list) index: a negative index counts from the
    end of the axis, and anything outside [-n, n) is an [IndexError]. *)
Definition axis_index (n i : Z) : outcome Z :=
  if ((0 <=? i) && (i <? n))%Z then Ok i
  else if ((- n <=? i) && (i <? 0))%Z then Ok (i + n)%Z
  else Raise IndexError.

Definition getitem {A : Type} (l : list A) (i : Z) : outcome A :=
  (k <- axis_index (Z.of_nat (length l)) i ;;
   match nth_error l (Z.to_nat k) with
   | Some a => Ok a
   | None => Raise IndexError
   end)%out.

(** [np.arange(0, num)]. *)
Definition arange (num : Z) : list R :=
  map (fun k => IZR (Z.of_nat k)) (seq 0 (Z.to_nat num)).

Definition set_last (l : list R) (v : R) : list R :=
  match l with
  | [] => []
  | _ :: _ => removelast l ++ [v]
  end.

(** [np.linspace(start, stop, num)] with the default [endpoint=True]:
    [y = arange(0, num) * step + start] with [step = delta / (num - 1)],
    the last entry overwritten by [stop] when [num > 1]; for [num = 1] the
    result is [[start]].  Here an exact arithmetic progression;
    [Double.linspace] rounds each product and each sum. *)
Definition linspace (start stop : R) (num : Z) : outcome (list R) :=
  if (num <? 0)%Z then Raise ValueError
  else
    let div := (num - 1)%Z in
    let delta := stop - start in
    let y := arange num in
    let y := if (0 <? div)%Z
             then map (fun yi => yi * (delta / IZR div)) y
             else map (fun yi => yi * delta) y in
    let y := map (fun yi => yi + start) y in
    Ok (if (1 <? num)%Z then set_last y stop else y).

End Py.

(** ** Data model *)

(** A 3D point: [state.position], or [np.array([x, y, z])]. *)
Record Vec3 : Type := mkVec3 { c0 : R; c1 : R; c2 : R }.

Module Filament.
(** [Filament(id, x, y, z, sigma)]. *)
Record t : Type := make { id : R; x : R; y : R; z : R; sigma : R }.
End Filament.

(** The header of one iteration of the gas data. *)
Record Header : Type := mkHeader {
  filament_num_moles_of_gas : R;
  num_moles_all_gases_in_cm3 : R
}.

(** [env_spec]. *)
Record EnvSpec : Type := mkEnvSpec {
  env_min : Vec3;
  env_max : Vec3;
  num_cells : Vec3;
  cell_size : R
}.

(** The occupancy grid, indexed [z][x][y]. *)
Definition OccGrid : Type := list (list (list Z)).

(** The calibration tables of [gas_sensor_utils]. *)
Record Calibration : Type := mkCalibration {
  R0 : Z -> R;
  tau_value : Z -> Z -> Z -> R;
  sensitivity_air : Z -> R;
  sensitivity_lineloglog : Z -> Z -> Z -> R
}.

(** The gas data directory: the filament file and the header file of an
    iteration, when they exist. *)
Record GasData : Type := mkGasData {
  fil_file : Z -> option (list Filament.t);
  head_file : Z -> option Header
}.

(** The attributes of a sensor that no method writes after [__init__]. *)
Record Setup : Type := mkSetup {
  gas_data_dir : GasData;
  env_spec : EnvSpec;
  occ_grid : OccGrid;
  iter_start : Z;
  iter_stop : Z;
  updates_per_gas_iter : Z;
  sensor_model : Z;
  gas_type : Z
}.

(** The sensor object.  [previous_sensor_output] does not exist until the
    first reading sets it.  [loads] is a ghost trace: the iterations whose
    files [update] has asked [np.load] for, latest first. *)
Record MOX : Type := mkMOX {
  setup : Setup;
  filament_iter : Z;
  update_iter : Z;
  sensor_output : R;
  gas_conc : R;
  RS_R0 : R;
  first_reading : bool;
  previous_sensor_output : option R;
  time_tot : R;
  state : R * R * R;
  loads : list Z
}.

(** Attribute assignment, one function per attribute that a method writes. *)

Definition set_filament_iter (self : MOX) (v : Z) : MOX :=
  mkMOX (setup self) v (update_iter self) (sensor_output self) (gas_conc self)
        (RS_R0 self) (first_reading self) (previous_sensor_output self)
        (time_tot self) (state self) (loads self).

Definition set_update_iter (self : MOX) (v : Z) : MOX :=
  mkMOX (setup self) (filament_iter self) v (sensor_output self) (gas_conc self)
        (RS_R0 self) (first_reading self) (previous_sensor_output self)
        (time_tot self) (state self) (loads self).

Definition set_sensor_output (self : MOX) (v : R) : MOX :=
  mkMOX (setup self) (filament_iter self) (update_iter self) v (gas_conc self)
        (RS_R0 self) (first_reading self) (previous_sensor_output self)
        (time_tot self) (state self) (loads self).

Definition set_gas_conc (self : MOX) (v : R) : MOX :=
  mkMOX (setup self) (filament_iter self) (update_iter self) (sensor_output self) v
        (RS_R0 self) (first_reading self) (previous_sensor_output self)
        (time_tot self) (state self) (loads self).

Definition set_RS_R0 (self : MOX) (v : R) : MOX :=
  mkMOX (setup self) (filament_iter self) (update_iter self) (sensor_output self)
        (gas_conc self) v (first_reading self) (previous_sensor_output self)
        (time_tot self) (state self) (loads self).

Definition set_first_reading (self : MOX) (v : bool) : MOX :=
  mkMOX (setup self) (filament_iter self) (update_iter self) (sensor_output self)
        (gas_conc self) (RS_R0 self) v (previous_sensor_output self)
        (time_tot self) (state self) (loads self).

Definition set_previous_sensor_output (self : MOX) (v : R) : MOX :=
  mkMOX (setup self) (filament_iter self) (update_iter self) (sensor_output self)
        (gas_conc self) (RS_R0 self) (first_reading self) (Some v)
        (time_tot self) (state self) (loads self).

Definition set_time_tot (self : MOX) (v : R) : MOX :=
  mkMOX (setup self) (filament_iter self) (update_iter self) (sensor_output self)
        (gas_conc self) (RS_R0 self) (first_reading self) (previous_sensor_output self)
        v (state self) (loads self).

Definition set_state (self : MOX) (v : R * R * R) : MOX :=
  mkMOX (setup self) (filament_iter self) (update_iter self) (sensor_output self)
        (gas_conc self) (RS_R0 self) (first_reading self) (previous_sensor_output self)
        (time_tot self) v (loads self).

Definition log_load (self : MOX) (n : Z) : MOX :=
  mkMOX (setup self) (filament_iter self) (update_iter self) (sensor_output self)
        (gas_conc self) (RS_R0 self) (first_reading self) (previous_sensor_output self)
        (time_tot self) (state self) (n :: loads self).

(** A method: the object before, the object after, and what the call gave. *)
Definition M (A : Type) : Type := MOX -> MOX * outcome A.

Definition ret {A : Type} (a : A) : M A := fun self => (self, Ok a).

Definition bind {A B : Type} (m : M A) (k : A -> M B) : M B :=
  fun self =>
    match m self with
    | (self', Ok a) => k a self'
    | (self', Raise e) => (self', Raise e)
    end.

Definition assign (f : MOX -> MOX) : M unit := fun self => (f self, Ok tt).

Declare Scope method_scope.
Delimit Scope method_scope with M.
Notation "x <- m ;; k" := (bind m (fun x => k))
  (at level 61, m at next level, right associativity) : method_scope.
Notation "m ;;; k" := (bind m (fun _ => k))
  (at level 61, right associativity) : method_scope.

(** ** Construction and reset *)

(** The entries of the [config] dictionary that the model reads, with the
    defaults of [config.get]. *)
Record Config : Type := mkConfig {
  cfg_update_rate : R;
  cfg_gas_data_time_step : R;
  cfg_gas_data_start_iter : Z;
  cfg_gas_data_stop_iter : Z;
  cfg_sensor_model : Z;
  cfg_gas_type : Z
}.

Definition default_config : Config := mkConfig 4 (1 / 2) 0 0 0 0.

(** [MOX.__init__].  [dir] is the gas data directory found by the glob,
    [last_iter] the iteration number in the name of the last file of the
    sorted listing, [spec] and [grid] the environment specification and the
    occupancy grid read from the environment directory.  The product
    truncated for [updates_per_gas_iter] is the exact one; the code
    truncates the rounded product of the two doubles, which is the same
    number when the exact product is a whole number that a double holds
    (lemma [whole_multiple_rate]). *)
Definition __init__ (config : Config) (dir : GasData) (last_iter : Z)
    (spec : EnvSpec) (grid : OccGrid) : MOX :=
  let iter_start := cfg_gas_data_start_iter config in
  let iter_stop_input := cfg_gas_data_stop_iter config in
  let iter_stop := if (iter_stop_input =? 0)%Z then last_iter else iter_stop_input in
  let updates_per_gas_iter :=
    (Py.int (cfg_gas_data_time_step config * cfg_update_rate config) - 1)%Z in
  {| setup := {| gas_data_dir := dir; env_spec := spec; occ_grid := grid;
                 iter_start := iter_start; iter_stop := iter_stop;
                 updates_per_gas_iter := updates_per_gas_iter;
                 sensor_model := cfg_sensor_model config;
                 gas_type := cfg_gas_type config |};
     filament_iter := iter_start;
     update_iter := 0;
     sensor_output := 0;
     gas_conc := 0;
     RS_R0 := 0;
     first_reading := true;
     previous_sensor_output := None;
     time_tot := 0;
     state := (0, 0, 0);
     loads := [] |}.

(** [MOX.stop]: six assignments, in the order of the source. *)
Definition stop (self : MOX) : MOX :=
  let self := set_filament_iter self (iter_start (setup self)) in
  let self := set_sensor_output self 0 in
  let self := set_gas_conc self 0 in
  let self := set_RS_R0 self 0 in
  let self := set_first_reading self true in
  set_time_tot self 0.

(** ** The visibility check *)

(** [np.linalg.norm((start, end))]: the tuple becomes a 2x3 array, and the
    norm of a 2-D array is its Frobenius norm. *)
Definition np_linalg_norm (start end_ : Vec3) : R :=
  sqrt (c0 start ^ 2 + c1 start ^ 2 + c2 start ^ 2
        + c0 end_ ^ 2 + c1 end_ ^ 2 + c2 end_ ^ 2).

(** The number of samples [check_env_for_obstacle3D] takes. *)
Definition samples (spec : EnvSpec) (start end_ : Vec3) : outcome Z :=
  (n <- Py.np_div_then Py.math_ceil (np_linalg_norm start end_) (cell_size spec) ;;
   Ok (n + 1)%Z)%out.

(** [self._occ_grid[z_idx, x_idx, y_idx]]. *)
Definition grid_lookup (grid : OccGrid) (z_idx x_idx y_idx : Z) : outcome Z :=
  (plane <- Py.getitem grid z_idx ;;
   row <- Py.getitem plane x_idx ;;
   Py.getitem row y_idx)%out.

(** The voxel index of a coordinate on one axis: the floor of the exact
    quotient.  [Double.voxel_index] floors the rounded one. *)
Definition voxel_index (spec : EnvSpec) (coord origin : R) : outcome Z :=
  Py.np_div_then Py.math_floor (coord - origin) (cell_size spec).

(** The loop over the zipped sample points. *)
Fixpoint scan_samples (spec : EnvSpec) (grid : OccGrid)
    (points : list (R * (R * R))) : outcome bool :=
  match points with
  | [] => Ok true
  | (x, (y, z)) :: rest =>
      (x_idx <- voxel_index spec x (c0 (env_min spec)) ;;
       y_idx <- voxel_index spec y (c1 (env_min spec)) ;;
       z_idx <- voxel_index spec z (c2 (env_min spec)) ;;
       v <- grid_lookup grid z_idx x_idx y_idx ;;
       if (v =? 0)%Z then scan_samples spec grid rest else Ok false)%out
  end.

(** The three coordinate lists of [check_env_for_obstacle3D], zipped. *)
Definition sample_points (spec : EnvSpec) (start end_ : Vec3)
  : outcome (list (R * (R * R))) :=
  (n <- samples spec start end_ ;;
   x_points <- Py.linspace (c0 start) (c0 end_) n ;;
   y_points <- Py.linspace (c1 start) (c1 end_) n ;;
   z_points <- Py.linspace (c2 start) (c2 end_) n ;;
   Ok (combine x_points (combine y_points z_points)))%out.

(** [MOX.check_env_for_obstacle3D]. *)
Definition check_env_for_obstacle3D (self : MOX) (start end_ : Vec3) : outcome bool :=
  (points <- sample_points (env_spec (setup self)) start end_ ;;
   scan_samples (env_spec (setup self)) (occ_grid (setup self)) points)%out.

(** ** The concentration of one filament *)

(** [MOX.concentration_from_filament], in exact arithmetic: the
    exponential is positive however far the filament is, where [math.exp]
    underflows to zero.  [Double.concentration_from_filament] is the
    rounded computation. *)
Definition concentration_from_filament (loc : Vec3) (filament : Filament.t)
    (gas_data_head : Header) : R :=
  let distance_cm :=
    100 * sqrt ((c0 loc - Filament.x filament) ^ 2
                + (c1 loc - Filament.y filament) ^ 2
                + (c2 loc - Filament.z filament) ^ 2) in
  let num_moles_target_cm3 :=
    (filament_num_moles_of_gas gas_data_head
       / (sqrt (8 * PI ^ 3) * Filament.sigma filament ^ 3))
    * exp (- (distance_cm ^ 2) / (2 * Filament.sigma filament ^ 2)) in
  num_moles_target_cm3 / num_moles_all_gases_in_cm3 gas_data_head * 1000000.

(** The squared distance [dist_SQR] and the range limit [limit_distance] of
    the loop body of [update], and the filament centre the visibility check
    is given. *)
Definition dist_SQR (loc : Vec3) (filament : Filament.t) : R :=
  (c0 loc - Filament.x filament) ^ 2
  + (c1 loc - Filament.y filament) ^ 2
  + (c2 loc - Filament.z filament) ^ 2.

Definition limit_distance (filament : Filament.t) : R :=
  Filament.sigma filament * 5 / 100.

Definition position (filament : Filament.t) : Vec3 :=
  mkVec3 (Filament.x filament) (Filament.y filament) (Filament.z filament).

(** ** The sensor methods that read the calibration tables *)

Section Sensor.

Variable cal : Calibration.

(** Step 1 of the tracking branch of [simulate_mox_as_line_loglog]: the
    value of RS/R0 for the concentration, capped at the baseline, passed
    through [resistance_variation], and replaced by 0.01 when it is not
    positive. *)
Definition steady_RS_R0 (model gas : Z) (gas_concentration : R) : outcome R :=
  (rs <- (if Req_dec_T gas_concentration 0
          then Ok (sensitivity_air cal model)
          else (p <- Py.math_pow gas_concentration
                       (sensitivity_lineloglog cal model gas 1) ;;
                Ok (sensitivity_lineloglog cal model gas 0 * p))) ;;
   let rs := if Rgt_dec rs (sensitivity_air cal model)
             then sensitivity_air cal model else rs in
   let resistance_variation := sensitivity_air cal model - rs in
   let rs := sensitivity_air cal model - resistance_variation in
   let rs := if Rle_dec rs 0 then 1 / 100 else rs in
   Ok rs)%out.

(** Step 2: the time constant of the rise or of the decay. *)
Definition tau_for (model : Z) (rs previous : R) : R :=
  if Rlt_dec rs previous then tau_value cal model 0 0 else tau_value cal model 0 1.

(** [MOX.simulate_mox_as_line_loglog]. *)
Definition simulate_mox_as_line_loglog (dt gas_concentration : R) : M (R * R) :=
  fun self =>
    let model := sensor_model (setup self) in
    if first_reading self then
      let output := sensitivity_air cal model in
      let rs := output in
      let self := set_previous_sensor_output self output in
      let self := set_first_reading self false in
      (self, Ok (output * R0 cal model, rs))
    else
      match steady_RS_R0 model (gas_type (setup self)) gas_concentration with
      | Raise e => (self, Raise e)
      | Ok rs =>
          match previous_sensor_output self with
          | None => (self, Raise AttributeError)
          | Some previous =>
              let tau := tau_for model rs previous in
              match Py.fdiv dt (tau + dt) with
              | Raise e => (self, Raise e)
              | Ok alpha =>
                  let output := alpha * rs + (1 - alpha) * previous in
                  let self := set_previous_sensor_output self output in
                  (self, Ok (output * R0 cal model, rs))
              end
          end
      end.

(** The scheduler block of [update]: the three branches on
    [(filament_iter, update_iter)]. *)
Definition advance (self : MOX) : MOX :=
  if ((filament_iter self =? iter_stop (setup self))
      && (update_iter self =? updates_per_gas_iter (setup self)))%Z
  then
    let self := set_update_iter self 0 in
    set_filament_iter self (iter_start (setup self))
  else if negb (update_iter self =? updates_per_gas_iter (setup self))%Z
  then set_update_iter self (update_iter self + 1)
  else
    let self := set_update_iter self 0 in
    set_filament_iter self (filament_iter self + 1).

(** The two [np.load] calls of [update]. *)
Definition load_gas_data : M (list Filament.t * Header) :=
  fun self =>
    let self := log_load self (filament_iter self) in
    match fil_file (gas_data_dir (setup self)) (filament_iter self) with
    | None => (self, Raise FileNotFoundError)
    | Some gas_data =>
        match head_file (gas_data_dir (setup self)) (filament_iter self) with
        | None => (self, Raise FileNotFoundError)
        | Some gas_data_head => (self, Ok (gas_data, gas_data_head))
        end
    end.

(** The body of the loop over the filaments.  The range test compares the
    exact squares here, and the sum is the exact one; [Double.add_filament]
    compares and adds the rounded numbers. *)
Definition add_filament (loc : Vec3) (gas_data_head : Header)
    (filament : Filament.t) : M unit :=
  fun self =>
    if Rlt_dec (dist_SQR loc filament) (limit_distance filament ^ 2) then
      match check_env_for_obstacle3D self loc (position filament) with
      | Raise e => (self, Raise e)
      | Ok true =>
          (set_gas_conc self
             (gas_conc self
              + concentration_from_filament loc filament gas_data_head),
           Ok tt)
      | Ok false => (self, Ok tt)
      end
    else (self, Ok tt).

(** [for fil in gas_data: ...]. *)
Fixpoint for_filaments (loc : Vec3) (gas_data_head : Header)
    (gas_data : list Filament.t) : M unit :=
  match gas_data with
  | [] => ret tt
  | fil :: rest =>
      (add_filament loc gas_data_head fil ;;;
       for_filaments loc gas_data_head rest)%M
  end.

(** The part of [update] under [if self._update_iter == 0]: load the gas
    data of the iteration, zero the concentration and add up the
    filaments. *)
Definition refresh_concentration (loc : Vec3) : M unit :=
  fun self =>
    if (update_iter self =? 0)%Z then
      (data <- load_gas_data ;;
       assign (fun self => set_gas_conc self 0) ;;;
       for_filaments loc (snd data) (fst data))%M self
    else ret tt self.

(** The end of [update]: run the response model on the concentration held
    by the sensor, store its two results, rebuild [state], return it. *)
Definition emit_reading (dt : R) : M (R * R * R) :=
  fun self =>
    (reading <- simulate_mox_as_line_loglog dt (gas_conc self) ;;
     assign (fun self => set_RS_R0 (set_sensor_output self (fst reading))
                                   (snd reading)) ;;;
     assign (fun self => set_state self
                           (sensor_output self, gas_conc self, RS_R0 self)) ;;;
     (fun self => ret (state self) self))%M self.

(** [MOX.update], the body under the rate decorator.  [loc] is
    [state.position]. *)
Definition update (loc : Vec3) (dt : R) : M (R * R * R) :=
  (assign (fun self => set_time_tot self (time_tot self + dt)) ;;;
   assign advance ;;;
   refresh_concentration loc ;;;
   emit_reading dt)%M.

(** The sensor after a tick, whatever the tick gave. *)
Definition tick (self : MOX) (input : Vec3 * R) : MOX :=
  fst (update (fst input) (snd input) self).

(** The sensor after the ticks of a list of inputs. *)
Definition ticks (self : MOX) (inputs : list (Vec3 * R)) : MOX :=
  fold_left tick inputs self.

(** The sensors that ticks of [update] reach from [self0]. *)
Inductive reachable (self0 : MOX) : MOX -> Prop :=
| reach_init : reachable self0 self0
| reach_tick : forall self input,
    reachable self0 self -> reachable self0 (tick self input).

End Sensor.

(** ** Definitions used to state the properties *)

(** The pair of counters the scheduler steps. *)
Definition counters (self : MOX) : Z * Z := (filament_iter self, update_iter self).

(** The scheduler rule in the words of the specification, on the counters
    alone: wrap, else hold the data and count an update, else move to the
    next iteration. *)
Definition scheduler_rule (start stop per_iter : Z) (c : Z * Z) : Z * Z :=
  let '(f, u) := c in
  if ((f =? stop) && (u =? per_iter))%Z then (start, 0%Z)
  else if negb (u =? per_iter)%Z then (f, (u + 1)%Z)
  else ((f + 1)%Z, 0%Z).

(** The straight-line distance between two points, and the sample count the
    specification derives from it. *)
Definition euclidean_distance (a b : Vec3) : R :=
  sqrt ((c0 a - c0 b) ^ 2 + (c1 a - c1 b) ^ 2 + (c2 a - c2 b) ^ 2).

Definition specified_samples (spec : EnvSpec) (a b : Vec3) : Z :=
  (Py.math_ceil (euclidean_distance a b / cell_size spec) + 1)%Z.

(** The sensor after [n] calls of the response model with the same [dt] and
    the same concentration. *)
Fixpoint respond_n (cal : Calibration) (dt gas_concentration : R) (n : nat)
    (self : MOX) : MOX :=
  match n with
  | O => self
  | S k => fst (simulate_mox_as_line_loglog cal dt gas_concentration
                  (respond_n cal dt gas_concentration k self))
  end.

(** The sensors after each tick of a list of inputs. *)
Fixpoint trace (cal : Calibration) (self : MOX) (inputs : list (Vec3 * R))
  : list MOX :=
  match inputs with
  | [] => []
  | input :: rest => tick cal self input :: trace cal (tick cal self input) rest
  end.

(** Two sensors with the same schedule: setup, counters and load trace. *)
Definition same_schedule (a b : MOX) : Prop :=
  setup a = setup b /\ filament_iter a = filament_iter b
  /\ update_iter a = update_iter b /\ loads a = loads b.

(** The sensor on which [update] runs its load and its response model. *)
Definition advanced (self : MOX) (dt : R) : MOX :=
  advance (set_time_tot self (time_tot self + dt)).

(** The counters after each of [n] steps of the scheduler rule. *)
Fixpoint rule_trace (start stop per_iter : Z) (n : nat) (c : Z * Z)
  : list (Z * Z) :=
  match n with
  | O => []
  | S k => scheduler_rule start stop per_iter c
           :: rule_trace start stop per_iter k
                (scheduler_rule start stop per_iter c)
  end.

(** ** Concrete instances *)

Module Example.

(** A calibration table: baseline 1, base resistance 50000 ohm, the line
    [RS/R0 = conc ^ (-1)], time constants 2 s (rise) and 15 s (decay). *)
Definition cal : Calibration :=
  {| R0 := fun _ => 50000;
     tau_value := fun _ _ k => if (k =? 0)%Z then 2 else 15;
     sensitivity_air := fun _ => 1;
     sensitivity_lineloglog := fun _ _ k => if (k =? 0)%Z then 1 else -1 |}.

Definition origin : Vec3 := mkVec3 0 0 0.

(** One free voxel of edge 1/2 at the origin. *)
Definition spec : EnvSpec :=
  {| env_min := origin; env_max := mkVec3 (1 / 2) (1 / 2) (1 / 2);
     num_cells := mkVec3 1 1 1; cell_size := 1 / 2 |}.

Definition grid : OccGrid := [[[0%Z]]].

(** Every iteration holds one filament at the origin with sigma 20. *)
Definition puff : Filament.t := Filament.make 0 0 0 0 20.

Definition head : Header := mkHeader 1 1.

Definition dir : GasData :=
  {| fil_file := fun _ => Some [puff]; head_file := fun _ => Some head |}.

(** The configuration of the benchmark script, stopping at 305. *)
Definition config : Config := mkConfig 4 (1 / 2) 300 305 1 0.

Definition sensor : MOX := __init__ config dir 305 spec grid.

(** A sensor sampled at 1 Hz over gas data stepped at 1/2 s. *)
Definition slow_config : Config := mkConfig 1 (1 / 2) 300 305 1 0.

Definition slow_sensor : MOX := __init__ slow_config dir 305 spec grid.

(** The configuration of the benchmark script as it is, start 300 and the
    stop left to the directory, over a directory whose last iteration is
    200. *)
Definition late_config : Config := mkConfig 4 (1 / 2) 300 0 1 0.

Definition late_sensor : MOX := __init__ late_config dir 200 spec grid.

Definition input : Vec3 * R := (origin, 1 / 4).

(** The sensor after its first reading, taken in clean air. *)
Definition tracking : MOX :=
  fst (simulate_mox_as_line_loglog cal (1 / 4) 0 sensor).

(** Three points on the x axis. *)
Definition p3 : Vec3 := mkVec3 3 0 0.
Definition p4 : Vec3 := mkVec3 4 0 0.
Definition m4 : Vec3 := mkVec3 (-4) 0 0.

(** A sensor sampled once per gas iteration, over an empty gas data
    directory. *)
Definition empty_dir : GasData :=
  {| fil_file := fun _ => None; head_file := fun _ => None |}.

Definition bare_config : Config := mkConfig 2 (1 / 2) 300 305 1 0.

Definition bare_sensor : MOX := __init__ bare_config empty_dir 305 spec grid.

End Example.

(** What the loop over the filaments leaves in [gas_conc] when it starts
    from [acc], and how it ends, as a function of the filaments. *)
Fixpoint summed_concentration (self : MOX) (loc : Vec3) (gas_data_head : Header)
    (gas_data : list Filament.t) (acc : R) : R * outcome unit :=
  match gas_data with
  | [] => (acc, Ok tt)
  | fil :: rest =>
      if Rlt_dec (dist_SQR loc fil) (limit_distance fil ^ 2) then
        match check_env_for_obstacle3D self loc (position fil) with
        | Raise e => (acc, Raise e)
        | Ok true =>
            summed_concentration self loc gas_data_head rest
              (acc + concentration_from_filament loc fil gas_data_head)
        | Ok false => summed_concentration self loc gas_data_head rest acc
        end
      else summed_concentration self loc gas_data_head rest acc
  end.

(** What a call of the response model returned as RS/R0, if it returned. *)
Definition returned_RS_R0 (o : outcome (R * R)) : option R :=
  match o with
  | Ok (_, rs) => Some rs
  | Raise _ => None
  end.

(** The filter coefficient of a tracking call. *)
Definition alpha_of (cal : Calibration) (model : Z) (dt rs previous : R) : R :=
  dt / (tau_for cal model rs previous + dt).

(** The closed form of the filtered output after [n] tracking calls with the
    target [rs] held, from the remembered output [previous]. *)
Definition filtered (a rs previous : R) (n : nat) : R :=
  rs + (1 - a) ^ n * (previous - rs).

(** A sensor on which the response model finds what it reads: either the
    first reading is still due, or a previous output is remembered. *)
Definition primed (self : MOX) : Prop :=
  first_reading self = true \/ exists p, previous_sensor_output self = Some p.

(** The concentration in a reading [(sensor_output, gas_conc, RS_R0)]. *)
Definition reading_gas_conc (reading : R * R * R) : R := snd (fst reading).

(** The sensor during the ticks before its first load: [k] updates counted
    on the start iteration, nothing loaded, no concentration. *)
Definition holding (self0 : MOX) (k : Z) (self : MOX) : Prop :=
  setup self = setup self0
  /\ counters self = (iter_start (setup self0), k)
  /\ loads self = []
  /\ gas_conc self = 0
  /\ primed self.

(** ** The benchmark script

    [12_python_single_vehicle_gsl_benchmark.py] repeats the run of one
    vehicle and names one results file per run. *)

Module Benchmark.

Import String.

(** [str(i)] for an [i] of [range]. *)
Definition str (i : nat) : string :=
  DecimalString.NilEmpty.string_of_uint (Nat.to_uint i).

(** [self.runs]. *)
Definition runs : nat := 10.

(** [self.statistics]: [f"{exp_id}_ecoli_{i}"] for [i] in [range(runs)]. *)
Definition statistics (exp_id : string) : list string :=
  map (fun i => (exp_id ++ "_ecoli_" ++ str i)%string) (seq 0 runs).

(** The results file of a run, as [run] sets it. *)
Definition results_file (curr_dir exp_id statistics_file : string) : string :=
  (curr_dir ++ "/results/" ++ exp_id ++ "/" ++ statistics_file ++ ".npz")%string.

(** The results files of the runs of [run], in order. *)
Definition results_files (curr_dir exp_id : string) : list string :=
  map (results_file curr_dir exp_id) (statistics exp_id).

End Benchmark.

(** ** The stop iteration found in the gas data directory

    When [gas_data_stop_iter] is 0, [MOX.__init__] sorts the file names of
    the directory by the number their digits spell, takes the last one and
    reads the first run of digits in it.  [__init__] above takes the result
    as [last_iter]; this is how the code computes it.  File names are
    strings of ASCII characters. *)

Module Discovery.

Import String Ascii.

(** [str.isdigit] on one ASCII character. *)
Definition isdigit (c : ascii) : bool :=
  ((48 <=? nat_of_ascii c) && (nat_of_ascii c <=? 57))%nat.

(** [''.join(filter(str.isdigit, f))]. *)
Fixpoint digits_of (f : string) : string :=
  match f with
  | EmptyString => EmptyString
  | String c rest =>
      if isdigit c then String c (digits_of rest) else digits_of rest
  end.

(** [int(s)] on a string of digits; the empty string is a [ValueError]. *)
Definition int (s : string) : outcome nat :=
  match s with
  | EmptyString => Raise ValueError
  | String _ _ =>
      match DecimalString.NilEmpty.uint_of_string s with
      | Some d => Ok (Nat.of_uint d)
      | None => Raise ValueError
      end
  end.

(** The sort key of a file name. *)
Definition key (f : string) : outcome nat := int (digits_of f).

(** [list.sort(key=...)] computes the key of every element first. *)
Fixpoint keyed (files : list string) : outcome (list (nat * string)) :=
  match files with
  | [] => Ok []
  | f :: rest =>
      (k <- key f ;;
       others <- keyed rest ;;
       Ok ((k, f) :: others))%out
  end.

(** The sort is stable: an element goes before those of the sorted rest
    whose key is not smaller. *)
Fixpoint insert (x : nat * string) (sorted : list (nat * string))
  : list (nat * string) :=
  match sorted with
  | [] => [x]
  | y :: rest =>
      if (fst x <=? fst y)%nat then x :: y :: rest else y :: insert x rest
  end.

Definition sort_by_key (l : list (nat * string)) : list (nat * string) :=
  fold_right insert [] l.

(** [files[-1]]. *)
Definition last_file (files : list string) : outcome string :=
  match rev files with
  | [] => Raise IndexError
  | f :: _ => Ok f
  end.

(** The digits at the head of a string, and [re.findall(r'\d+', f)[0]]. *)
Fixpoint take_digits (f : string) : string :=
  match f with
  | EmptyString => EmptyString
  | String c rest => if isdigit c then String c (take_digits rest) else EmptyString
  end.

Fixpoint first_digit_run (f : string) : outcome string :=
  match f with
  | EmptyString => Raise IndexError
  | String c rest =>
      if isdigit c then Ok (String c (take_digits rest)) else first_digit_run rest
  end.

(** The branch [if iter_stop_input == 0] of [__init__]. *)
Definition discover_iter_stop (files : list string) : outcome Z :=
  (pairs <- keyed files ;;
   last_name <- last_file (map snd (sort_by_key pairs)) ;;
   run <- first_digit_run last_name ;;
   n <- int run ;;
   Ok (Z.of_nat n))%out.

(** [self._iter_stop]. *)
Definition configured_iter_stop (iter_stop_input : Z) (files : list string)
  : outcome Z :=
  if (iter_stop_input =? 0)%Z then discover_iter_stop files
  else Ok iter_stop_input.

(** The decimal numeral of an iteration number, and the two file names of
    an iteration. *)
Definition decimal (n : nat) : string :=
  DecimalString.NilEmpty.string_of_uint (Nat.to_uint n).

Definition named (f : string) (n : nat) : Prop :=
  f = ("iteration_" ++ decimal n ++ "_fil.npy")%string
  \/ f = ("iteration_" ++ decimal n ++ "_head.npy")%string.

(** The last element of a list is one of greatest key. *)
Definition tops (l : list (nat * string)) : Prop :=
  forall (d p : nat * string), In p l -> (fst p <= fst (last l d))%nat.

End Discovery.

(** ** Tactics *)

(** Settle the comparisons of real numbers a goal branches on. *)
Ltac rdec :=
  repeat match goal with
  | |- context [Rlt_dec ?a ?b] => destruct (Rlt_dec a b); try lra
  | |- context [Rle_dec ?a ?b] => destruct (Rle_dec a b); try lra
  | |- context [Rgt_dec ?a ?b] => destruct (Rgt_dec a b); try lra
  | |- context [Req_dec_T ?a ?b] => destruct (Req_dec_T a b); try lra
  end.

(** Evaluate one [math.floor] of the goal to the integer [z]. *)
Ltac floor_at z :=
  match goal with
  | |- context [Py.math_floor ?x] =>
      change (Py.math_floor x) with (Zfloor x);
      rewrite (Zfloor_eq z x) by (simpl; lra)
  end.

(** Two sensors that hold the same reading and the same filter memory. *)
Definition same_reading (a b : MOX) : Prop :=
  state a = state b /\ sensor_output a = sensor_output b
  /\ RS_R0 a = RS_R0 b /\ first_reading a = first_reading b
  /\ previous_sensor_output a = previous_sensor_output b
  /\ time_tot a = time_tot b.



(** The [k]-th of [n] evenly spaced values from [s] to [e]. *)
Definition lerp (s e : R) (n : Z) (k : nat) : R :=
  IZR (Z.of_nat k) * ((e - s) / IZR (n - 1)) + s.

(** The [k]-th of the [n] sample points from [a] to [b]. *)
Definition sample_at (a b : Vec3) (n : Z) (k : nat) : R * (R * R) :=
  (lerp (c0 a) (c0 b) n k, (lerp (c1 a) (c1 b) n k, lerp (c2 a) (c2 b) n k)).

(** The occupancy value the loop of [check_env_for_obstacle3D] reads for
    one sample point. *)
Definition voxel_value (spec : EnvSpec) (grid : OccGrid) (point : R * (R * R))
  : outcome Z :=
  let '(x, (y, z)) := point in
  (x_idx <- voxel_index spec x (c0 (env_min spec)) ;;
   y_idx <- voxel_index spec y (c1 (env_min spec)) ;;
   z_idx <- voxel_index spec z (c2 (env_min spec)) ;;
   grid_lookup grid z_idx x_idx y_idx)%out.

(** A sample point that lands on a free voxel. *)
Definition free (spec : EnvSpec) (grid : OccGrid) (point : R * (R * R)) : Prop :=
  voxel_value spec grid point = Ok 0%Z.

(** A grid that is a box of [nz] planes of [nx] rows of [ny] voxels. *)
Definition shaped (grid : OccGrid) (nz nx ny : Z) : Prop :=
  Z.of_nat (length grid) = nz
  /\ Forall (fun plane =>
               Z.of_nat (length plane) = nx
               /\ Forall (fun row => Z.of_nat (length row) = ny) plane) grid.

(** Gas data with positive amounts and positive spreads. *)
Definition positive_data (gas_data : list Filament.t) (gas_data_head : Header)
  : Prop :=
  0 < filament_num_moles_of_gas gas_data_head
  /\ 0 < num_moles_all_gases_in_cm3 gas_data_head
  /\ Forall (fun fil => 0 < Filament.sigma fil) gas_data.

(** A gas data directory all of whose iterations are positive data. *)
Definition wholesome (dir : GasData) : Prop :=
  forall (n : Z) (gas_data : list Filament.t) (gas_data_head : Header),
    fil_file dir n = Some gas_data ->
    head_file dir n = Some gas_data_head ->
    positive_data gas_data gas_data_head.

(** The sum of the [dt] of a list of inputs. *)
Definition elapsed (inputs : list (Vec3 * R)) : R :=
  fold_right (fun input acc => snd input + acc) 0 inputs.

(** The squared distance between two sample points. *)
Definition step_SQR (p q : R * (R * R)) : R :=
  (fst q - fst p) ^ 2 + (fst (snd q) - fst (snd p)) ^ 2
  + (snd (snd q) - snd (snd p)) ^ 2.

(** * The rounding-sensitive code on binary64

    Two parts of [mox.py] decide by comparing or flooring numbers that were
    rounded on the way: the range test of the loop over the filaments
    (lines 170-178, with [concentration_from_filament]) and the voxel
    lookup of [check_env_for_obstacle3D] (lines 272-289).  They are embedded
    here a second time, on IEEE 754 binary64 numbers (the kernel's [float]),
    operation for operation: [+], [-], [*], [/], [sqrt] and the comparisons
    are the processor's.  What the processor does not define is a parameter
    ([Platform]): the C library's [pow] and [exp], the dot product behind
    [np.linalg.norm], and whether NumPy can allocate an array of a given
    length.  The coordinates of the positions and of the filaments, [sigma]
    and the header entries are elements of float64 arrays, NumPy scalars:
    their arithmetic raises nothing, a division by zero gives an infinity
    or nan. *)

Module Double.

Import PrimFloat SpecFloat FloatOps.
Local Open Scope float_scope.

(** ** The platform *)

(** [libm_pow] and [libm_exp] are the C functions [pow] and [exp];
    [cblas_ddot] is the dot product of two vectors, whose order of
    summation is the library's; [array_error n] is what NumPy raises
    instead of building an array of [n] doubles, if it cannot. *)
Record Platform : Type := mkPlatform {
  libm_pow : float -> float -> float;
  libm_exp : float -> float;
  cblas_ddot : list float -> list float -> float;
  array_error : Z -> option exn
}.

(** ** Python's conversions and [math] functions *)

Definition signed (s : bool) (m : positive) : Z := if s then Zneg m else Zpos m.

(** [math.floor] and [math.ceil] return a Python integer, and refuse the
    infinities and nan. *)
Definition math_floor (x : float) : outcome Z :=
  match Prim2SF x with
  | S754_zero _ => Ok 0%Z
  | S754_infinity _ => Raise OverflowError
  | S754_nan => Raise ValueError
  | S754_finite s m e => Ok (Z.shiftl (signed s m) e)
  end.

Definition math_ceil (x : float) : outcome Z :=
  match Prim2SF x with
  | S754_zero _ => Ok 0%Z
  | S754_infinity _ => Raise OverflowError
  | S754_nan => Raise ValueError
  | S754_finite s m e => Ok (- Z.shiftl (- signed s m) e)%Z
  end.

(** An integer as a double, rounded to nearest. *)
Definition of_Z (n : Z) : float := SF2Prim (binary_normalize prec emax n 0 false).

(** The real number a finite double stands for. *)
Definition exact (x : float) : R :=
  match Prim2SF x with
  | S754_finite s m e =>
      if (0 <=? e)%Z then IZR (signed s m * 2 ^ e)
      else (IZR (signed s m) / IZR (2 ^ (- e)))%R
  | _ => 0%R
  end.

Definition math_pi : float := 0x1.921fb54442d18p+1.

(** [math.sqrt]: a negative argument is a [ValueError]. *)
Definition math_sqrt (x : float) : outcome float :=
  let r := sqrt x in
  if is_nan r && negb (is_nan x) then Raise ValueError else Ok r.

(** [math.exp]: a result that overflows is an [OverflowError]. *)
Definition math_exp (P : Platform) (x : float) : outcome float :=
  let r := libm_exp P x in
  if is_nan r && negb (is_nan x) then Raise ValueError
  else if is_infinity r && is_finite x then Raise OverflowError
  else Ok r.

(** [pow(iv, n)] for a Python float [iv] and a small integer [n] (the code
    has 2 and 3): CPython settles nan, the infinities, zero and one itself,
    hands the rest to the C library, and turns an infinite result into an
    [OverflowError]. *)
Definition float_pow (P : Platform) (iv : float) (n : Z) : outcome float :=
  if (n =? 0)%Z then Ok 1
  else if is_nan iv then Ok iv
  else if is_infinity iv then
    Ok (if (0 <? n)%Z then (if Z.odd n then iv else abs iv)
        else (if Z.odd n && (iv <? 0) then neg_zero else 0))
  else if iv =? 0 then
    if (n <? 0)%Z then Raise ZeroDivisionError
    else Ok (if Z.odd n then iv else 0)
  else
    let negate_result := (iv <? 0) && Z.odd n in
    let iv := abs iv in
    if iv =? 1 then Ok (if negate_result then -1 else 1)
    else
      let ix := libm_pow P iv (of_Z n) in
      if is_infinity ix then Raise OverflowError
      else Ok (if negate_result then - ix else ix).

(** ** Data *)

Record Vec3 : Type := mkVec3 { c0 : float; c1 : float; c2 : float }.

Module Filament.
Record t : Type := make { id : float; x : float; y : float; z : float; sigma : float }.
End Filament.

Record Header : Type := mkHeader {
  filament_num_moles_of_gas : float;
  num_moles_all_gases_in_cm3 : float
}.

Record EnvSpec : Type := mkEnvSpec {
  env_min : Vec3;
  env_max : Vec3;
  num_cells : Vec3;
  cell_size : float
}.

(** The two attributes of the sensor that the visibility check reads. *)
Record Env : Type := mkEnv {
  env_spec : EnvSpec;
  occ_grid : OccGrid
}.

(** ** The visibility check *)

(** [np.linalg.norm((start, end))]: the square root of the dot product of
    the six stacked coordinates with themselves. *)
Definition np_linalg_norm (P : Platform) (start end_ : Vec3) : float :=
  let x := [c0 start; c1 start; c2 start; c0 end_; c1 end_; c2 end_] in
  sqrt (cblas_ddot P x x).

Definition samples (P : Platform) (spec : EnvSpec) (start end_ : Vec3)
  : outcome Z :=
  (n <- math_ceil (np_linalg_norm P start end_ / cell_size spec) ;;
   Ok (n + 1)%Z)%out.

(** [np.arange(0, num)] as doubles. *)
Definition arange (num : Z) : list float :=
  map (fun k => of_Z (Z.of_nat k)) (seq 0 (Z.to_nat num)).

Definition set_last (l : list float) (v : float) : list float :=
  match l with
  | [] => []
  | _ :: _ => removelast l ++ [v]
  end.

(** [np.linspace(start, stop, num)]: [arange(0, num) * step + start], each
    product and each sum rounded, with NumPy's detour when the step
    underflows to zero, and the last entry overwritten by [stop]. *)
Definition linspace (P : Platform) (start stop : float) (num : Z)
  : outcome (list float) :=
  if (num <? 0)%Z then Raise ValueError
  else
    match array_error P num with
    | Some e => Raise e
    | None =>
        let div := (num - 1)%Z in
        let delta := stop - start in
        let y := arange num in
        let y :=
          if (0 <? div)%Z then
            let step := delta / of_Z div in
            if step =? 0
            then map (fun yi => yi / of_Z div * delta) y
            else map (fun yi => yi * step) y
          else map (fun yi => yi * delta) y in
        let y := map (fun yi => yi + start) y in
        Ok (if (1 <? num)%Z then set_last y stop else y)
    end.

Definition voxel_index (spec : EnvSpec) (coord origin : float) : outcome Z :=
  math_floor ((coord - origin) / cell_size spec).

Fixpoint scan_samples (spec : EnvSpec) (grid : OccGrid)
    (points : list (float * (float * float))) : outcome bool :=
  match points with
  | [] => Ok true
  | (x, (y, z)) :: rest =>
      (x_idx <- voxel_index spec x (c0 (env_min spec)) ;;
       y_idx <- voxel_index spec y (c1 (env_min spec)) ;;
       z_idx <- voxel_index spec z (c2 (env_min spec)) ;;
       v <- grid_lookup grid z_idx x_idx y_idx ;;
       if (v =? 0)%Z then scan_samples spec grid rest else Ok false)%out
  end.

Definition sample_points (P : Platform) (spec : EnvSpec) (start end_ : Vec3)
  : outcome (list (float * (float * float))) :=
  (n <- samples P spec start end_ ;;
   x_points <- linspace P (c0 start) (c0 end_) n ;;
   y_points <- linspace P (c1 start) (c1 end_) n ;;
   z_points <- linspace P (c2 start) (c2 end_) n ;;
   Ok (combine x_points (combine y_points z_points)))%out.

(** [MOX.check_env_for_obstacle3D]. *)
Definition check_env_for_obstacle3D (P : Platform) (env : Env)
    (start end_ : Vec3) : outcome bool :=
  (points <- sample_points P (env_spec env) start end_ ;;
   scan_samples (env_spec env) (occ_grid env) points)%out.

(** ** The loop over the filaments *)

(** [MOX.concentration_from_filament].  The differences and [sigma] are
    NumPy scalars, whose [pow] is the C library's and raises nothing;
    [distance_cm] and [math.pi] are Python floats. *)
Definition concentration_from_filament (P : Platform) (loc : Vec3)
    (filament : Filament.t) (gas_data_head : Header) : outcome float :=
  (root <- math_sqrt (libm_pow P (c0 loc - Filament.x filament) 2
                      + libm_pow P (c1 loc - Filament.y filament) 2
                      + libm_pow P (c2 loc - Filament.z filament) 2) ;;
   let distance_cm := 100 * root in
   pi_cubed <- float_pow P math_pi 3 ;;
   scale <- math_sqrt (8 * pi_cubed) ;;
   distance_SQR <- float_pow P distance_cm 2 ;;
   puff <- math_exp P (- distance_SQR
                       / (2 * libm_pow P (Filament.sigma filament) 2)) ;;
   let num_moles_target_cm3 :=
     filament_num_moles_of_gas gas_data_head
     / (scale * libm_pow P (Filament.sigma filament) 3)
     * puff in
   Ok (num_moles_target_cm3 / num_moles_all_gases_in_cm3 gas_data_head
       * 1000000))%out.

Definition dist_SQR (P : Platform) (loc : Vec3) (filament : Filament.t) : float :=
  libm_pow P (c0 loc - Filament.x filament) 2
  + libm_pow P (c1 loc - Filament.y filament) 2
  + libm_pow P (c2 loc - Filament.z filament) 2.

Definition limit_distance (filament : Filament.t) : float :=
  Filament.sigma filament * 5 / 100.

Definition position (filament : Filament.t) : Vec3 :=
  mkVec3 (Filament.x filament) (Filament.y filament) (Filament.z filament).

(** The body of the loop, on the one attribute it writes, [_gas_conc]. *)
Definition add_filament (P : Platform) (env : Env) (loc : Vec3)
    (gas_data_head : Header) (filament : Filament.t) (gas_conc : float)
  : float * outcome unit :=
  if dist_SQR P loc filament <? libm_pow P (limit_distance filament) 2 then
    match check_env_for_obstacle3D P env loc (position filament) with
    | Raise e => (gas_conc, Raise e)
    | Ok true =>
        match concentration_from_filament P loc filament gas_data_head with
        | Raise e => (gas_conc, Raise e)
        | Ok ppm => (gas_conc + ppm, Ok tt)
        end
    | Ok false => (gas_conc, Ok tt)
    end
  else (gas_conc, Ok tt).

(** [for fil in gas_data: ...]. *)
Fixpoint for_filaments (P : Platform) (env : Env) (loc : Vec3)
    (gas_data_head : Header) (gas_data : list Filament.t) (gas_conc : float)
  : float * outcome unit :=
  match gas_data with
  | [] => (gas_conc, Ok tt)
  | fil :: rest =>
      match add_filament P env loc gas_data_head fil gas_conc with
      | (gas_conc, Ok _) => for_filaments P env loc gas_data_head rest gas_conc
      | (gas_conc, Raise e) => (gas_conc, Raise e)
      end
  end.

(** ** Definitions used to state the properties *)

(** The three voxel indices of a sample, in the order the loop computes
    them. *)
Definition indices (spec : EnvSpec) (point : float * (float * float))
  : outcome (Z * Z * Z) :=
  let '(x, (y, z)) := point in
  (x_idx <- voxel_index spec x (c0 (env_min spec)) ;;
   y_idx <- voxel_index spec y (c1 (env_min spec)) ;;
   z_idx <- voxel_index spec z (c2 (env_min spec)) ;;
   Ok (x_idx, y_idx, z_idx))%out.

(** What the loop reads for a sample. *)
Definition voxel_value (env : Env) (point : float * (float * float))
  : outcome Z :=
  (i <- indices (env_spec env) point ;;
   let '(x_idx, y_idx, z_idx) := i in
   grid_lookup (occ_grid env) z_idx x_idx y_idx)%out.

(** The voxel at plane [k], row [i], column [j], counted from zero. *)
Definition voxel_at (grid : OccGrid) (k i j : Z) : option Z :=
  match nth_error grid (Z.to_nat k) with
  | Some plane =>
      match nth_error plane (Z.to_nat i) with
      | Some row => nth_error row (Z.to_nat j)
      | None => None
      end
  | None => None
  end.

(** The quotient a coordinate is floored from. *)
Definition quotient (spec : EnvSpec) (coord origin : float) : float :=
  (coord - origin) / cell_size spec.

(** The place on an axis of [n] voxels that an index in [[-n, n)] names:
    a negative index counts from the far end. *)
Definition wrapped (n i : Z) : Z := if (i <? 0)%Z then (i + n)%Z else i.

(** A sample whose three indices lie in [[0, n)] of their axes. *)
Definition addressed (env : Env) (nz nx ny : Z)
    (point : float * (float * float)) : Prop :=
  exists x_idx y_idx z_idx,
    indices (env_spec env) point = Ok (x_idx, y_idx, z_idx)
    /\ (0 <= z_idx < nz)%Z /\ (0 <= x_idx < nx)%Z /\ (0 <= y_idx < ny)%Z.

(** The test of the loop body on the computed squares. *)
Definition in_range (P : Platform) (loc : Vec3) (filament : Filament.t) : bool :=
  dist_SQR P loc filament <? libm_pow P (limit_distance filament) 2.

(** ** Concrete instances *)

Module Example.

(** A small C library: [pow] by repeated multiplication, for whole
    exponents, so that a square is the correctly rounded product; [exp] by
    taking a multiple of ln 2 off the argument and summing the series. *)
Definition pow (x y : float) : float :=
  match math_floor y with
  | Ok n =>
      if of_Z n =? y then
        if (0 <=? n)%Z then Z.iter n (fun acc => x * acc) 1
        else 1 / Z.iter (- n) (fun acc => x * acc) 1
      else nan
  | Raise _ => nan
  end.

Fixpoint series (terms : nat) (k r : float) : float :=
  match terms with
  | O => 1
  | S t => 1 + r / k * series t (k + 1) r
  end.

Definition ln2 : float := 0x1.62e42fefa39efp-1.

Definition exp (x : float) : float :=
  if is_nan x then x
  else if 0x1.62e42fefa39efp+9 <? x then infinity
  else if x <? -0x1.74910d52d3051p+9 then 0
  else
    match math_floor (x / ln2 + 0x1p-1) with
    | Ok k => Z.ldexp (series 20 1 (x - of_Z k * ln2)) k
    | Raise _ => nan
    end.

(** The dot product summed from left to right. *)
Definition ddot (xs ys : list float) : float :=
  fold_left (fun acc ab => acc + fst ab * snd ab) (combine xs ys) 0.

Definition platform : Platform :=
  {| libm_pow := pow;
     libm_exp := exp;
     cblas_ddot := ddot;
     array_error := fun n => if (2 ^ 31 <? n)%Z then Some MemoryError else None |}.

Definition origin : Vec3 := mkVec3 0 0 0.

(** Cells of edge 1/2 from the origin; one free cell, and the row of four
    cells along x whose last one is occupied. *)
Definition spec : EnvSpec :=
  {| env_min := origin; env_max := mkVec3 2 0x1p-1 0x1p-1;
     num_cells := mkVec3 4 1 1; cell_size := 0x1p-1 |}.

Definition free : Env := mkEnv spec [[[0%Z]]].

Definition row : Env := mkEnv spec [[[0%Z]; [0%Z]; [0%Z]; [1%Z]]].

(** The same row with cells of edge 4. *)
Definition coarse : Env :=
  mkEnv {| env_min := origin; env_max := mkVec3 16 4 4;
           num_cells := mkVec3 4 1 1; cell_size := 4 |}
        [[[0%Z]; [0%Z]; [0%Z]; [1%Z]]].

(** Two points left of the row, -0.3 and -0.4 on x; two points further
    left; two points right of the row; the point below the origin by the
    smallest double, -5e-324. *)
Definition left3 : Vec3 := mkVec3 (-0x1.3333333333333p-2) 0 0.
Definition left4 : Vec3 := mkVec3 (-0x1.999999999999ap-2) 0 0.
Definition m3 : Vec3 := mkVec3 (-3) 0 0.
Definition m4 : Vec3 := mkVec3 (-4) 0 0.
Definition p3 : Vec3 := mkVec3 3 0 0.
Definition p4 : Vec3 := mkVec3 4 0 0.
Definition below : Vec3 := mkVec3 (-0x1p-1074) 0 0.

(** A filament at the origin with sigma 2, whose limit distance is the
    double 0.1; the position (0.06, 0.08, 0); a filament with sigma 20,
    whose limit distance is 1, and the position (1, 0, 0) on its limit. *)
Definition puff : Filament.t := Filament.make 0 0 0 0 2.
Definition on_limit : Vec3 := mkVec3 0x1.eb851eb851eb8p-5 0x1.47ae147ae147bp-4 0.
Definition cloud : Filament.t := Filament.make 0 0 0 0 20.
Definition unit_x : Vec3 := mkVec3 1 0 0.

Definition head : Header := mkHeader 1 1.

End Example.

End Double.

(** * Properties *)

(** ** The rounding functions at known values *)

Lemma math_ceil_eq (z : Z) (x : R) :
  IZR z - 1 < x <= IZR z -> Py.math_ceil x = z.
Proof. apply Zceil_eq. Qed.

Lemma math_floor_eq (z : Z) (x : R) :
  IZR z <= x < IZR z + 1 -> Py.math_floor x = z.
Proof. apply Zfloor_eq. Qed.

Lemma int_eq (z : Z) (x : R) : x = IZR z -> Py.int x = z.
Proof.
  intros ->. unfold Py.int.
  destruct (Rle_dec 0 (IZR z)).
  - apply ZfloorZ.
  - unfold Zceil. rewrite <- opp_IZR, ZfloorZ. lia.
Qed.

(** ** What each method leaves alone *)

Lemma same_schedule_refl (a : MOX) : same_schedule a a.
Proof. repeat split. Qed.

Lemma same_schedule_trans (a b c : MOX) :
  same_schedule a b -> same_schedule b c -> same_schedule a c.
Proof.
  unfold same_schedule.
  intros (H1 & H2 & H3 & H4) (K1 & K2 & K3 & K4).
  repeat split; congruence.
Qed.

Lemma simulate_schedule (cal : Calibration) (dt c : R) (self : MOX) :
  same_schedule self (fst (simulate_mox_as_line_loglog cal dt c self))
  /\ gas_conc (fst (simulate_mox_as_line_loglog cal dt c self)) = gas_conc self.
Proof.
  unfold simulate_mox_as_line_loglog.
  destruct (first_reading self); [repeat split |].
  destruct (steady_RS_R0 _ _ _ _); [| repeat split].
  destruct (previous_sensor_output self); [| repeat split].
  destruct (Py.fdiv _ _); repeat split.
Qed.

Lemma add_filament_shape (loc : Vec3) (head : Header) (fil : Filament.t)
    (self : MOX) :
  exists g, fst (add_filament loc head fil self) = set_gas_conc self g.
Proof.
  unfold add_filament.
  destruct (Rlt_dec _ _).
  - destruct (check_env_for_obstacle3D _ _ _) as [[|]|]; simpl;
      solve [ eexists; reflexivity
            | exists (gas_conc self); destruct self; reflexivity ].
  - exists (gas_conc self); destruct self; reflexivity.
Qed.

Lemma for_filaments_shape (loc : Vec3) (head : Header)
    (data : list Filament.t) (self : MOX) :
  exists g, fst (for_filaments loc head data self) = set_gas_conc self g.
Proof.
  revert self. induction data as [| fil rest IH]; intros self; simpl.
  - exists (gas_conc self); destruct self; reflexivity.
  - unfold bind.
    destruct (add_filament_shape loc head fil self) as [g Hg].
    destruct (add_filament loc head fil self) as [s1 [[]|e]]; simpl in *; subst s1.
    + destruct (IH (set_gas_conc self g)) as [g' Hg'].
      exists g'. rewrite Hg'. reflexivity.
    + exists g. reflexivity.
Qed.

Lemma for_filaments_schedule (loc : Vec3) (head : Header)
    (data : list Filament.t) (self : MOX) :
  same_schedule self (fst (for_filaments loc head data self)).
Proof.
  destruct (for_filaments_shape loc head data self) as [g ->].
  repeat split.
Qed.

Lemma advance_setup (self : MOX) : setup (advance self) = setup self.
Proof.
  unfold advance.
  destruct (_ && _); [reflexivity |].
  destruct (negb _); reflexivity.
Qed.

Lemma advance_loads (self : MOX) :
  loads (advance self) = loads self /\ gas_conc (advance self) = gas_conc self.
Proof.
  unfold advance.
  destruct (_ && _); [split; reflexivity |].
  destruct (negb _); split; reflexivity.
Qed.

Lemma advance_counters (self : MOX) :
  counters (advance self)
  = scheduler_rule (iter_start (setup self)) (iter_stop (setup self))
      (updates_per_gas_iter (setup self)) (counters self).
Proof.
  unfold advance, scheduler_rule, counters.
  destruct (_ && _); [reflexivity |].
  destruct (negb _); reflexivity.
Qed.

Lemma advanced_counters (self : MOX) (dt : R) :
  counters (advanced self dt)
  = scheduler_rule (iter_start (setup self)) (iter_stop (setup self))
      (updates_per_gas_iter (setup self)) (counters self).
Proof. unfold advanced. rewrite advance_counters. reflexivity. Qed.

Lemma emit_reading_schedule (cal : Calibration) (dt : R) (self : MOX) :
  same_schedule self (fst (emit_reading cal dt self))
  /\ gas_conc (fst (emit_reading cal dt self)) = gas_conc self.
Proof.
  unfold emit_reading, bind, assign, ret.
  destruct (simulate_schedule cal dt (gas_conc self) self) as [Hs Hg].
  destruct (simulate_mox_as_line_loglog cal dt (gas_conc self) self)
    as [m1 [rd|e]]; simpl in *; split; assumption.
Qed.

Lemma refresh_schedule (loc : Vec3) (self : MOX) :
  let self' := fst (refresh_concentration loc self) in
  setup self' = setup self
  /\ counters self' = counters self
  /\ loads self' = (if (update_iter self =? 0)%Z
                    then filament_iter self :: loads self else loads self)
  /\ ((update_iter self =? 0)%Z = false -> self' = self).
Proof.
  unfold refresh_concentration, bind, assign, ret, load_gas_data, counters.
  destruct (update_iter self =? 0)%Z eqn:Hu; simpl.
  2:{ repeat split. }
  destruct (fil_file _ _) as [data|]; simpl.
  2:{ repeat split. discriminate. }
  destruct (head_file _ _) as [head|]; simpl.
  2:{ repeat split. discriminate. }
  pose proof (for_filaments_schedule loc head data
                (set_gas_conc (log_load self (filament_iter self)) 0)) as Hf.
  destruct (for_filaments loc head data _) as [m [[]|e]];
    destruct Hf as (F1 & F2 & F3 & F4); simpl in *;
    repeat split; try congruence; discriminate.
Qed.

Lemma update_unfold (cal : Calibration) (loc : Vec3) (dt : R) (self : MOX) :
  update cal loc dt self
  = match refresh_concentration loc (advanced self dt) with
    | (m, Ok _) => emit_reading cal dt m
    | (m, Raise e) => (m, Raise e)
    end.
Proof. reflexivity. Qed.

Lemma update_schedule (cal : Calibration) (loc : Vec3) (dt : R) (self : MOX) :
  let a := advanced self dt in
  let self' := fst (update cal loc dt self) in
  setup self' = setup self
  /\ counters self' = counters a
  /\ loads self' = (if (update_iter a =? 0)%Z
                    then filament_iter a :: loads self else loads self)
  /\ ((update_iter a =? 0)%Z = false -> gas_conc self' = gas_conc self).
Proof.
  intros a self'.
  assert (Ha : setup a = setup self /\ loads a = loads self
               /\ gas_conc a = gas_conc self).
  { unfold a, advanced. rewrite advance_setup.
    destruct (advance_loads (set_time_tot self (time_tot self + dt))) as [-> ->].
    repeat split. }
  destruct Ha as (Ha1 & Ha2 & Ha3).
  unfold self'. rewrite update_unfold. fold a.
  destruct (refresh_schedule loc a) as (R1 & R2 & R3 & R4).
  destruct (refresh_concentration loc a) as [m [[]|e]]; simpl in *.
  - destruct (emit_reading_schedule cal dt m) as [(E1 & E2 & E3 & E4) E5].
    unfold counters in *.
    split; [congruence |].
    split; [congruence |].
    split; [rewrite <- E4, R3, Ha2; reflexivity |].
    intros Hu. rewrite E5, (R4 Hu). assumption.
  - split; [congruence |].
    split; [congruence |].
    split; [rewrite R3, Ha2; reflexivity |].
    intros Hu. rewrite (R4 Hu). assumption.
Qed.

(** ** The scheduler *)

Lemma tick_setup (cal : Calibration) (self : MOX) (input : Vec3 * R) :
  setup (tick cal self input) = setup self.
Proof. apply (update_schedule cal (fst input) (snd input) self). Qed.

Lemma tick_counters (cal : Calibration) (self : MOX) (input : Vec3 * R) :
  counters (tick cal self input)
  = scheduler_rule (iter_start (setup self)) (iter_stop (setup self))
      (updates_per_gas_iter (setup self)) (counters self).
Proof.
  unfold tick.
  destruct (update_schedule cal (fst input) (snd input) self) as (_ & H & _).
  rewrite H. apply advanced_counters.
Qed.

Lemma trace_counters (cal : Calibration) (inputs : list (Vec3 * R)) :
  forall self : MOX,
    map counters (trace cal self inputs)
    = rule_trace (iter_start (setup self)) (iter_stop (setup self))
        (updates_per_gas_iter (setup self)) (length inputs) (counters self).
Proof.
  induction inputs as [| input rest IH]; intros self; simpl.
  - reflexivity.
  - rewrite IH, tick_setup, tick_counters. reflexivity.
Qed.

Lemma example_sensor_per_iter :
  updates_per_gas_iter (setup Example.sensor) = 1%Z.
Proof.
  simpl. rewrite (int_eq 2); [reflexivity | lra].
Qed.

(** C3: every tick of [update] steps the counters by the three-case rule
    (wrap to [(iter_start, 0)] at [(iter_stop, updates_per_gas_iter)]; else
    count one more update on the same iteration while [update_iter] differs
    from [updates_per_gas_iter]; else move to the next iteration with
    [update_iter = 0]); and with [iter_start = 300], [iter_stop = 305] and
    [updates_per_gas_iter = 1] the twelve ticks from [(300, 0)] go through
    (300,1), (301,0), ..., (305,1) and wrap to (300,0). *)
Theorem scheduler_three_case_rule (cal : Calibration) (self : MOX)
    (i1 i2 i3 i4 i5 i6 i7 i8 i9 i10 i11 i12 : Vec3 * R) :
  (forall (loc : Vec3) (dt : R),
      counters (fst (update cal loc dt self))
      = let '(f, u) := counters self in
        if ((f =? iter_stop (setup self))
            && (u =? updates_per_gas_iter (setup self)))%Z
        then (iter_start (setup self), 0%Z)
        else if negb (u =? updates_per_gas_iter (setup self))%Z
        then (f, (u + 1)%Z)
        else ((f + 1)%Z, 0%Z))
  /\ (iter_start (setup self) = 300%Z ->
      iter_stop (setup self) = 305%Z ->
      updates_per_gas_iter (setup self) = 1%Z ->
      counters self = (300%Z, 0%Z) ->
      map counters
        (trace cal self [i1; i2; i3; i4; i5; i6; i7; i8; i9; i10; i11; i12])
      = [(300, 1); (301, 0); (301, 1); (302, 0); (302, 1); (303, 0);
         (303, 1); (304, 0); (304, 1); (305, 0); (305, 1); (300, 0)]%Z).
Proof.
  split.
  - intros loc dt.
    apply (tick_counters cal self (loc, dt)).
  - intros Hstart Hstop Hper Hc.
    rewrite trace_counters, Hstart, Hstop, Hper, Hc.
    reflexivity.
Qed.

Lemma scheduler_three_case_rule_witness :
  map counters
    (trace Example.cal Example.sensor
       [Example.input; Example.input; Example.input; Example.input;
        Example.input; Example.input; Example.input; Example.input;
        Example.input; Example.input; Example.input; Example.input])
  = [(300, 1); (301, 0); (301, 1); (302, 0); (302, 1); (303, 0);
     (303, 1); (304, 0); (304, 1); (305, 0); (305, 1); (300, 0)]%Z.
Proof.
  apply (proj2 (scheduler_three_case_rule Example.cal Example.sensor
                  Example.input Example.input Example.input Example.input
                  Example.input Example.input Example.input Example.input
                  Example.input Example.input Example.input Example.input)).
  - reflexivity.
  - reflexivity.
  - exact example_sensor_per_iter.
  - reflexivity.
Defined.

(** ** The loop over the filaments as a sum *)

Lemma check_env_set_gas_conc (self : MOX) (g : R) (a b : Vec3) :
  check_env_for_obstacle3D (set_gas_conc self g) a b
  = check_env_for_obstacle3D self a b.
Proof. reflexivity. Qed.

Lemma set_gas_conc_twice (self : MOX) (g h : R) :
  set_gas_conc (set_gas_conc self g) h = set_gas_conc self h.
Proof. reflexivity. Qed.

Lemma for_filaments_sum (loc : Vec3) (head : Header) (data : list Filament.t) :
  forall (self : MOX) (acc : R),
    for_filaments loc head data (set_gas_conc self acc)
    = (set_gas_conc self (fst (summed_concentration self loc head data acc)),
       snd (summed_concentration self loc head data acc)).
Proof.
  induction data as [| fil rest IH]; intros self acc; simpl.
  - reflexivity.
  - unfold bind, add_filament.
    rewrite check_env_set_gas_conc.
    destruct (Rlt_dec _ _).
    + destruct (check_env_for_obstacle3D self loc (position fil)) as [[|]|e].
      * simpl gas_conc. rewrite set_gas_conc_twice. apply IH.
      * apply IH.
      * reflexivity.
    + apply IH.
Qed.

Lemma check_env_setup (a b : MOX) (p q : Vec3) :
  setup a = setup b ->
  check_env_for_obstacle3D a p q = check_env_for_obstacle3D b p q.
Proof. unfold check_env_for_obstacle3D. intros ->. reflexivity. Qed.

Lemma summed_concentration_setup (a b : MOX) (loc : Vec3) (head : Header)
    (data : list Filament.t) :
  setup a = setup b ->
  forall acc : R,
    summed_concentration a loc head data acc
    = summed_concentration b loc head data acc.
Proof.
  intros Hab. induction data as [| fil rest IH]; intros acc; simpl.
  - reflexivity.
  - rewrite (check_env_setup a b _ _ Hab).
    destruct (Rlt_dec _ _); [| apply IH].
    destruct (check_env_for_obstacle3D b loc (position fil)) as [[|]|e];
      [apply IH | apply IH | reflexivity].
Qed.

Lemma refresh_reloads (loc : Vec3) (self : MOX) (data : list Filament.t)
    (head : Header) :
  update_iter self = 0%Z ->
  fil_file (gas_data_dir (setup self)) (filament_iter self) = Some data ->
  head_file (gas_data_dir (setup self)) (filament_iter self) = Some head ->
  refresh_concentration loc self
  = (set_gas_conc (log_load self (filament_iter self))
       (fst (summed_concentration self loc head data 0)),
     snd (summed_concentration self loc head data 0)).
Proof.
  intros Hu Hf Hh.
  unfold refresh_concentration, bind, assign, load_gas_data.
  rewrite Hu. simpl. rewrite Hf, Hh. simpl.
  rewrite (for_filaments_sum loc head data (log_load self (filament_iter self)) 0).
  rewrite (summed_concentration_setup (log_load self (filament_iter self)) self)
    by reflexivity.
  reflexivity.
Qed.

Lemma advanced_setup (self : MOX) (dt : R) : setup (advanced self dt) = setup self.
Proof. unfold advanced. rewrite advance_setup. reflexivity. Qed.

Lemma update_counters (cal : Calibration) (loc : Vec3) (dt : R) (self : MOX) :
  filament_iter (fst (update cal loc dt self)) = filament_iter (advanced self dt)
  /\ update_iter (fst (update cal loc dt self)) = update_iter (advanced self dt).
Proof.
  destruct (update_schedule cal loc dt self) as (_ & H & _).
  unfold counters in H. injection H as H1 H2. split; assumption.
Qed.

Lemma update_recomputes (cal : Calibration) (loc : Vec3) (dt : R) (self : MOX)
    (data : list Filament.t) (head : Header) :
  let self' := fst (update cal loc dt self) in
  update_iter self' = 0%Z ->
  fil_file (gas_data_dir (setup self)) (filament_iter self') = Some data ->
  head_file (gas_data_dir (setup self)) (filament_iter self') = Some head ->
  gas_conc self' = fst (summed_concentration self loc head data 0).
Proof.
  intros self'.
  destruct (update_counters cal loc dt self) as [Hf Hu].
  fold self' in Hf, Hu. rewrite Hf, Hu.
  intros Hzero Hdata Hhead.
  rewrite <- (advanced_setup self dt) in Hdata, Hhead.
  unfold self'. rewrite update_unfold.
  rewrite (refresh_reloads loc (advanced self dt) data head Hzero Hdata Hhead).
  rewrite (summed_concentration_setup (advanced self dt) self)
    by apply advanced_setup.
  destruct (summed_concentration self loc head data 0) as [g [[]|e]]; simpl.
  - destruct (emit_reading_schedule cal dt
                (set_gas_conc (log_load (advanced self dt)
                                 (filament_iter (advanced self dt))) g))
      as [_ E]. rewrite E. reflexivity.
  - reflexivity.
Qed.

Lemma cons_neq_self {A : Type} (a : A) (l : list A) : l <> a :: l.
Proof.
  intros H. apply (f_equal (@length A)) in H. simpl in H. lia.
Qed.

Lemma update_reload_iff (cal : Calibration) (loc : Vec3) (dt : R) (self : MOX) :
  let self' := fst (update cal loc dt self) in
  (update_iter self' = 0%Z <-> loads self' = filament_iter self' :: loads self)
  /\ (update_iter self' <> 0%Z ->
      loads self' = loads self /\ gas_conc self' = gas_conc self).
Proof.
  intros self'.
  destruct (update_counters cal loc dt self) as [Hf Hu].
  destruct (update_schedule cal loc dt self) as (_ & _ & Hl & Hg).
  fold self' in Hf, Hu, Hl, Hg. rewrite Hf, Hu.
  destruct (update_iter (advanced self dt) =? 0)%Z eqn:E.
  - apply Z.eqb_eq in E. split.
    + split; [intros _; exact Hl | intros _; exact E].
    + intros H. contradiction.
  - apply Z.eqb_neq in E. split.
    + split; [intros H; contradiction |].
      intros H. rewrite Hl in H. destruct (cons_neq_self _ _ H).
    + intros _. split; [exact Hl | apply Hg; reflexivity].
Qed.

Lemma reachable_setup (cal : Calibration) (self0 self : MOX) :
  reachable cal self0 self -> setup self = setup self0.
Proof.
  induction 1 as [| self input _ IH]; [reflexivity |].
  rewrite tick_setup. exact IH.
Qed.

Lemma reachable_lower (cal : Calibration) (self0 self : MOX) :
  filament_iter self0 = iter_start (setup self0) ->
  update_iter self0 = 0%Z ->
  reachable cal self0 self ->
  (iter_start (setup self0) <= filament_iter self)%Z /\ (0 <= update_iter self)%Z.
Proof.
  intros Hf Hu Hr.
  induction Hr as [| self input Hr IH]; [lia |].
  pose proof (tick_counters cal self input) as Hc.
  rewrite (reachable_setup cal self0 self Hr) in Hc.
  unfold counters, scheduler_rule in Hc.
  destruct (_ && _); [injection Hc as -> ->; lia |].
  destruct (negb _); injection Hc as -> ->; lia.
Qed.

Lemma reachable_bounds (cal : Calibration) (self0 self : MOX) :
  filament_iter self0 = iter_start (setup self0) ->
  update_iter self0 = 0%Z ->
  (iter_start (setup self0) <= iter_stop (setup self0))%Z ->
  (0 <= updates_per_gas_iter (setup self0))%Z ->
  reachable cal self0 self ->
  (iter_start (setup self0) <= filament_iter self <= iter_stop (setup self0))%Z
  /\ (0 <= update_iter self <= updates_per_gas_iter (setup self0))%Z.
Proof.
  intros Hf Hu Hrange Hper Hr.
  induction Hr as [| self input Hr IH]; [lia |].
  pose proof (tick_counters cal self input) as Hc.
  rewrite (reachable_setup cal self0 self Hr) in Hc.
  unfold counters, scheduler_rule in Hc.
  destruct ((filament_iter self =? iter_stop (setup self0))
            && (update_iter self =? updates_per_gas_iter (setup self0)))%Z eqn:E1.
  - injection Hc as -> ->. lia.
  - destruct (update_iter self =? updates_per_gas_iter (setup self0))%Z eqn:E2;
      simpl in Hc; injection Hc as -> ->.
    + rewrite andb_true_r in E1. apply Z.eqb_neq in E1. lia.
    + apply Z.eqb_neq in E2. lia.
Qed.

Lemma update_missing_file (cal : Calibration) (loc : Vec3) (dt : R)
    (self : MOX) :
  update_iter (advanced self dt) = 0%Z ->
  fil_file (gas_data_dir (setup self)) (filament_iter (advanced self dt)) = None
  \/ head_file (gas_data_dir (setup self)) (filament_iter (advanced self dt))
     = None ->
  update cal loc dt self
  = (log_load (advanced self dt) (filament_iter (advanced self dt)),
     Raise FileNotFoundError).
Proof.
  intros Hu Hmiss. rewrite update_unfold.
  unfold refresh_concentration, bind, load_gas_data.
  rewrite Hu. simpl. rewrite advanced_setup.
  destruct Hmiss as [-> | Hh]; [reflexivity |].
  destruct (fil_file _ _); [rewrite Hh |]; reflexivity.
Qed.

Lemma int_half : Py.int (1 / 2 * 1) = 0%Z.
Proof.
  unfold Py.int. destruct (Rle_dec 0 (1 / 2 * 1)); [| lra].
  apply Zfloor_eq. lra.
Qed.

Lemma slow_sensor_per_iter :
  updates_per_gas_iter (setup Example.slow_sensor) = (-1)%Z.
Proof. simpl. rewrite int_half. reflexivity. Qed.

(** An update rate that is [k] times the gas data rate, for a whole number
    [k] that a double holds exactly (so that the rounded product is [k]
    too), gives [updates_per_gas_iter = k - 1]. *)
Lemma whole_multiple_rate (config : Config) (dir : GasData) (last_iter : Z)
    (spec : EnvSpec) (grid : OccGrid) (k : Z) :
  (Z.abs k <= 2 ^ 53)%Z ->
  cfg_gas_data_time_step config * cfg_update_rate config = IZR k ->
  updates_per_gas_iter (setup (__init__ config dir last_iter spec grid))
  = (k - 1)%Z.
Proof.
  intros _ H. simpl. rewrite (int_eq k _ H). reflexivity.
Qed.

Lemma late_sensor_per_iter :
  updates_per_gas_iter (setup Example.late_sensor) = 1%Z.
Proof.
  apply (whole_multiple_rate Example.late_config Example.dir 200 Example.spec
           Example.grid 2).
  - simpl. lia.
  - simpl. lra.
Qed.

(** C4 (as the code has it).  When [iter_start <= iter_stop] and
    [0 <= updates_per_gas_iter], every sensor reached by ticks of [update]
    from [filament_iter = iter_start], [update_iter = 0] has [filament_iter]
    in [[iter_start, iter_stop]] and [update_iter] in
    [[0, updates_per_gas_iter]].  And for a tick from any sensor whatever,
    with no proviso: a tick that leaves [update_iter <> 0] asks for no file
    and keeps the concentration; [np.load] is asked for the files of the
    iteration the tick has moved to exactly when the tick leaves
    [update_iter = 0]; when both files are there the concentration is then
    recomputed, as the sum over the loaded filaments; when one is missing
    the tick raises [FileNotFoundError] and the concentration stays what it
    was. *)
Theorem counters_in_range_and_reload (cal : Calibration) (self0 self : MOX) :
  (filament_iter self0 = iter_start (setup self0) ->
   update_iter self0 = 0%Z ->
   (iter_start (setup self0) <= iter_stop (setup self0))%Z ->
   (0 <= updates_per_gas_iter (setup self0))%Z ->
   reachable cal self0 self ->
   (iter_start (setup self0) <= filament_iter self <= iter_stop (setup self0))%Z
   /\ (0 <= update_iter self <= updates_per_gas_iter (setup self0))%Z)
  /\ forall (loc : Vec3) (dt : R),
       let self' := fst (update cal loc dt self) in
       (update_iter self' <> 0%Z ->
        loads self' = loads self /\ gas_conc self' = gas_conc self)
       /\ (update_iter self' = 0%Z
           <-> loads self' = filament_iter self' :: loads self)
       /\ (update_iter self' = 0%Z ->
           forall (data : list Filament.t) (head : Header),
             fil_file (gas_data_dir (setup self)) (filament_iter self')
             = Some data ->
             head_file (gas_data_dir (setup self)) (filament_iter self')
             = Some head ->
             gas_conc self' = fst (summed_concentration self loc head data 0))
       /\ (update_iter self' = 0%Z ->
           fil_file (gas_data_dir (setup self)) (filament_iter self') = None
           \/ head_file (gas_data_dir (setup self)) (filament_iter self') = None ->
           snd (update cal loc dt self) = Raise FileNotFoundError
           /\ gas_conc self' = gas_conc self).
Proof.
  split.
  { intros Hf Hu Hrange Hper Hr.
    exact (reachable_bounds cal self0 self Hf Hu Hrange Hper Hr). }
  intros loc dt self'.
  destruct (update_reload_iff cal loc dt self) as [I1 I2].
  split; [exact I2 |].
  split; [exact I1 |].
  split.
  { intros Hzero data head Hd Hh.
    exact (update_recomputes cal loc dt self data head Hzero Hd Hh). }
  intros Hzero Hmiss.
  destruct (update_counters cal loc dt self) as [Hf Hu].
  fold self' in Hf, Hu. rewrite Hu in Hzero. rewrite Hf in Hmiss.
  unfold self'.
  rewrite (update_missing_file cal loc dt self Hzero Hmiss). simpl.
  split; [reflexivity |].
  unfold advanced.
  exact (proj2 (advance_loads (set_time_tot self (time_tot self + dt)))).
Qed.

Lemma counters_in_range_and_reload_witness :
  (300 <= filament_iter (tick Example.cal Example.sensor Example.input) <= 305)%Z
  /\ (0 <= update_iter (tick Example.cal Example.sensor Example.input) <= 1)%Z.
Proof.
  pose proof (proj1 (counters_in_range_and_reload Example.cal Example.sensor
                       (tick Example.cal Example.sensor Example.input))
                eq_refl eq_refl) as H.
  rewrite example_sensor_per_iter in H.
  destruct H as (H1 & H2).
  - simpl. lia.
  - lia.
  - apply reach_tick, reach_init.
  - split; assumption.
Defined.

(** C4, as stated, fails: nothing checks that the start iteration is not
    beyond the stop.  The benchmark's configuration (start 300, stop taken
    from the directory, update rate 4 Hz over data stepped at 1/2 s, so
    twice the data rate as the code asks) over a directory that ends at
    iteration 200 gives [iter_stop = 200]: the sensor is constructed with
    [filament_iter = 300], outside [[300, 200]], and two ticks later it
    holds 301; it never wraps. *)
Lemma iter_start_beyond_stop_counterexample :
  cfg_gas_data_time_step Example.late_config
  * cfg_update_rate Example.late_config = 2
  /\ iter_start (setup Example.late_sensor) = 300%Z
  /\ iter_stop (setup Example.late_sensor) = 200%Z
  /\ updates_per_gas_iter (setup Example.late_sensor) = 1%Z
  /\ counters Example.late_sensor = (300%Z, 0%Z)
  /\ reachable Example.cal Example.late_sensor Example.late_sensor
  /\ ~ (iter_start (setup Example.late_sensor)
        <= filament_iter Example.late_sensor
        <= iter_stop (setup Example.late_sensor))%Z
  /\ reachable Example.cal Example.late_sensor
       (ticks Example.cal Example.late_sensor [Example.input; Example.input])
  /\ counters (ticks Example.cal Example.late_sensor
                 [Example.input; Example.input]) = (301%Z, 0%Z)
  /\ ~ (iter_start (setup Example.late_sensor)
        <= filament_iter (ticks Example.cal Example.late_sensor
                            [Example.input; Example.input])
        <= iter_stop (setup Example.late_sensor))%Z.
Proof.
  assert (H1 : counters (tick Example.cal Example.late_sensor Example.input)
               = (300%Z, 1%Z)).
  { rewrite tick_counters, late_sensor_per_iter. reflexivity. }
  assert (H2 : counters (ticks Example.cal Example.late_sensor
                           [Example.input; Example.input]) = (301%Z, 0%Z)).
  { change (ticks Example.cal Example.late_sensor [Example.input; Example.input])
      with (tick Example.cal
              (tick Example.cal Example.late_sensor Example.input)
              Example.input).
    rewrite tick_counters, tick_setup, late_sensor_per_iter, H1. reflexivity. }
  split; [simpl; lra |].
  split; [reflexivity |]. split; [reflexivity |].
  split; [exact late_sensor_per_iter |].
  split; [reflexivity |].
  split; [apply reach_init |].
  split; [simpl; lia |].
  split; [apply reach_tick, reach_tick, reach_init |].
  split; [exact H2 |].
  rewrite (f_equal fst H2 : filament_iter _ = 301%Z). simpl. lia.
Qed.

(** The range of [update_iter] rests on [0 <= updates_per_gas_iter], which
    the code does not check either: it holds when the update rate is a
    whole multiple of the gas data rate, as the comment in [__init__] asks
    ([whole_multiple_rate]), and fails for a slower sensor.  Sampled at
    1 Hz over data stepped at 1/2 s, [updates_per_gas_iter] is
    [int(0.5) - 1 = -1], and the first tick leaves [update_iter = 1]. *)
Lemma slow_rate_leaves_the_range :
  reachable Example.cal Example.slow_sensor
    (tick Example.cal Example.slow_sensor Example.input)
  /\ filament_iter Example.slow_sensor = iter_start (setup Example.slow_sensor)
  /\ update_iter Example.slow_sensor = 0%Z
  /\ update_iter (tick Example.cal Example.slow_sensor Example.input) = 1%Z
  /\ updates_per_gas_iter
       (setup (tick Example.cal Example.slow_sensor Example.input)) = (-1)%Z
  /\ ~ (0 <= update_iter (tick Example.cal Example.slow_sensor Example.input)
        <= updates_per_gas_iter
             (setup (tick Example.cal Example.slow_sensor Example.input)))%Z.
Proof.
  assert (Hu : update_iter (tick Example.cal Example.slow_sensor Example.input)
               = 1%Z).
  { pose proof (tick_counters Example.cal Example.slow_sensor Example.input) as H.
    rewrite slow_sensor_per_iter in H.
    unfold counters in H. simpl in H. injection H as _ H. exact H. }
  assert (Hp : updates_per_gas_iter
                 (setup (tick Example.cal Example.slow_sensor Example.input))
               = (-1)%Z).
  { rewrite tick_setup. exact slow_sensor_per_iter. }
  split; [apply reach_tick, reach_init |].
  split; [reflexivity |]. split; [reflexivity |].
  split; [exact Hu |]. split; [exact Hp |].
  rewrite Hu, Hp. lia.
Qed.

(** ** The response model *)

Lemma first_call_result (cal : Calibration) (dt conc : R)
    (self : MOX) :
  first_reading self = true ->
  simulate_mox_as_line_loglog cal dt conc self
  = (set_first_reading
       (set_previous_sensor_output self
          (sensitivity_air cal (sensor_model (setup self)))) false,
     Ok (sensitivity_air cal (sensor_model (setup self))
         * R0 cal (sensor_model (setup self)),
         sensitivity_air cal (sensor_model (setup self)))).
Proof.
  intros H. unfold simulate_mox_as_line_loglog. rewrite H. reflexivity.
Qed.

(** C5 (as the code has it): the first call of the response model returns
    the pair [(sensitivity_air[model] * R0[model], sensitivity_air[model])]
    whatever the concentration and [dt]: RS/R0 is the baseline, the
    returned output is the baseline scaled to ohms, and the baseline itself
    is what the filter remembers. *)
Theorem first_reading_returns_baseline (cal : Calibration) (dt conc : R)
    (self : MOX) :
  first_reading self = true ->
  let base := sensitivity_air cal (sensor_model (setup self)) in
  simulate_mox_as_line_loglog cal dt conc self
  = (set_first_reading (set_previous_sensor_output self base) false,
     Ok (base * R0 cal (sensor_model (setup self)), base)).
Proof.
  intros H base. apply first_call_result. exact H.
Qed.

Lemma first_reading_returns_baseline_witness :
  snd (simulate_mox_as_line_loglog Example.cal (1 / 4) 7 Example.sensor)
  = Ok (1 * 50000, 1).
Proof.
  rewrite (first_reading_returns_baseline Example.cal (1 / 4) 7 Example.sensor).
  - reflexivity.
  - reflexivity.
Defined.

(** C5, as stated, fails: with base resistance 50000 and baseline 1 the
    first call returns the output 50000, which is neither RS/R0 nor the
    baseline. *)
Lemma first_reading_counterexample :
  first_reading Example.sensor = true
  /\ sensitivity_air Example.cal (sensor_model (setup Example.sensor)) = 1
  /\ snd (simulate_mox_as_line_loglog Example.cal (1 / 4) 7 Example.sensor)
     = Ok (1 * 50000, 1)
  /\ 1 * 50000 <> 1.
Proof.
  repeat split. lra.
Qed.

Lemma math_pow_positive (x y : R) :
  0 < x -> Py.math_pow x y = Ok (Rpower x y) /\ 0 < Rpower x y.
Proof.
  intros Hx. unfold Py.math_pow.
  destruct (Rlt_dec 0 x); [| lra].
  split; [reflexivity |]. unfold Rpower. apply exp_pos.
Qed.

Lemma steady_RS_R0_bounds (cal : Calibration) (model gas : Z) (conc : R) :
  0 <= conc ->
  1 / 100 <= sensitivity_air cal model ->
  exists rs, steady_RS_R0 cal model gas conc = Ok rs
             /\ 0 < rs <= sensitivity_air cal model.
Proof.
  intros Hc Hair. unfold steady_RS_R0.
  destruct (Req_dec_T conc 0) as [E | E]; simpl.
  - eexists. split; [reflexivity |]. rdec.
  - destruct (math_pow_positive conc (sensitivity_lineloglog cal model gas 1))
      as [-> _]; [lra |]. simpl.
    eexists. split; [reflexivity |]. rdec.
Qed.

Lemma simulate_tracking (cal : Calibration) (dt conc : R) (self : MOX)
    (p rs : R) :
  first_reading self = false ->
  previous_sensor_output self = Some p ->
  steady_RS_R0 cal (sensor_model (setup self)) (gas_type (setup self)) conc
  = Ok rs ->
  let tau := tau_for cal (sensor_model (setup self)) rs p in
  tau + dt <> 0 ->
  simulate_mox_as_line_loglog cal dt conc self
  = (set_previous_sensor_output self
       (dt / (tau + dt) * rs + (1 - dt / (tau + dt)) * p),
     Ok ((dt / (tau + dt) * rs + (1 - dt / (tau + dt)) * p)
         * R0 cal (sensor_model (setup self)), rs)).
Proof.
  intros Hfirst Hprev Hrs tau Htau.
  unfold simulate_mox_as_line_loglog.
  rewrite Hfirst, Hrs, Hprev. fold tau. unfold Py.fdiv.
  destruct (Req_dec_T (tau + dt) 0); [contradiction | reflexivity].
Qed.

Lemma simulate_tracking_RS_R0 (cal : Calibration) (dt conc : R) (self : MOX)
    (rs : R) :
  first_reading self = false ->
  steady_RS_R0 cal (sensor_model (setup self)) (gas_type (setup self)) conc
  = Ok rs ->
  forall rs' : R,
    returned_RS_R0 (snd (simulate_mox_as_line_loglog cal dt conc self)) = Some rs' ->
    rs' = rs.
Proof.
  intros Hfirst Hrs rs'.
  unfold simulate_mox_as_line_loglog.
  rewrite Hfirst, Hrs.
  destruct (previous_sensor_output self); [| discriminate].
  destruct (Py.fdiv _ _); simpl; [| discriminate].
  intros H. injection H as <-. reflexivity.
Qed.

(** C8 (as the code has it): on a tracking call with a concentration that is
    not negative, and a baseline of at least 0.01, the RS/R0 the call
    returns is positive and at most the baseline; it is the value the
    calibration step gives, and the call returns it whenever [tau + dt] is
    not zero.  The code replaces by 0.01 only a value that is zero or
    negative, so the returned value lies in the half-open interval from 0 to
    the baseline, not necessarily at or above 0.01. *)
Theorem tracking_RS_R0_positive_and_capped (cal : Calibration) (dt conc : R)
    (self : MOX) (p : R) :
  first_reading self = false ->
  previous_sensor_output self = Some p ->
  0 <= conc ->
  1 / 100 <= sensitivity_air cal (sensor_model (setup self)) ->
  exists rs : R,
    steady_RS_R0 cal (sensor_model (setup self)) (gas_type (setup self)) conc
    = Ok rs
    /\ 0 < rs <= sensitivity_air cal (sensor_model (setup self))
    /\ (forall rs' : R,
          returned_RS_R0 (snd (simulate_mox_as_line_loglog cal dt conc self))
          = Some rs' -> rs' = rs)
    /\ (tau_for cal (sensor_model (setup self)) rs p + dt <> 0 ->
        returned_RS_R0 (snd (simulate_mox_as_line_loglog cal dt conc self))
        = Some rs).
Proof.
  intros Hfirst Hprev Hc Hair.
  destruct (steady_RS_R0_bounds cal (sensor_model (setup self))
              (gas_type (setup self)) conc Hc Hair) as (rs & Hrs & Hb).
  exists rs. split; [exact Hrs |]. split; [exact Hb |]. split.
  - apply simulate_tracking_RS_R0; assumption.
  - intros Htau.
    rewrite (simulate_tracking cal dt conc self p rs Hfirst Hprev Hrs Htau).
    reflexivity.
Qed.

Lemma example_steady_1000 :
  steady_RS_R0 Example.cal 1 0 1000 = Ok (/ 1000).
Proof.
  unfold steady_RS_R0.
  destruct (Req_dec_T 1000 0); [lra |].
  simpl.
  destruct (math_pow_positive 1000 (-1)) as [-> _]; [lra |]. simpl.
  assert (E : Rpower 1000 (-1) = / 1000).
  { replace (-1) with (- (1)) by lra.
    rewrite Rpower_Ropp, Rpower_1 by lra. reflexivity. }
  rewrite E.
  destruct (Rgt_dec (1 * / 1000) 1); [lra |].
  destruct (Rle_dec _ 0); [lra |].
  f_equal. lra.
Qed.

Lemma example_tracking_fields :
  first_reading Example.tracking = false
  /\ previous_sensor_output Example.tracking = Some 1
  /\ setup Example.tracking = setup Example.sensor.
Proof. repeat split. Qed.

Lemma tracking_RS_R0_positive_and_capped_witness :
  exists rs : R,
    steady_RS_R0 Example.cal 1 0 1000 = Ok rs /\ 0 < rs <= 1.
Proof.
  destruct (tracking_RS_R0_positive_and_capped Example.cal (1 / 4) 1000
              Example.tracking 1) as (rs & H1 & H2 & _).
  - reflexivity.
  - reflexivity.
  - lra.
  - simpl. lra.
  - exists rs. split; [exact H1 | exact H2].
Defined.

(** C8, as stated, fails: on the line [RS/R0 = conc ^ (-1)] with baseline 1,
    a tracking call at concentration 1000 returns RS/R0 = 1/1000, which is
    positive and below 0.01. *)
Lemma tracking_RS_R0_counterexample :
  first_reading Example.tracking = false
  /\ 0 <= 1000
  /\ returned_RS_R0
       (snd (simulate_mox_as_line_loglog Example.cal (1 / 4) 1000
               Example.tracking))
     = Some (/ 1000)
  /\ ~ (1 / 100 <= / 1000
        <= sensitivity_air Example.cal (sensor_model (setup Example.tracking))).
Proof.
  split; [reflexivity |]. split; [lra |]. split.
  - rewrite (simulate_tracking Example.cal (1 / 4) 1000 Example.tracking 1 (/ 1000)).
    + reflexivity.
    + reflexivity.
    + reflexivity.
    + exact example_steady_1000.
    + unfold tau_for. simpl. rdec.
  - simpl. lra.
Qed.

(** ** The low-pass filter under a constant concentration *)

Section ConstantConcentration.

Variable cal : Calibration.
Variables dt conc : R.
Variable self : MOX.
Variables p T : R.

Let model := sensor_model (setup self).
Let a := alpha_of cal model dt T p.

Hypothesis Hfirst : first_reading self = false.
Hypothesis Hprev : previous_sensor_output self = Some p.
Hypothesis Htarget :
  steady_RS_R0 cal model (gas_type (setup self)) conc = Ok T.
Hypothesis Hdt : 0 < dt.
Hypothesis Hrise : 0 < tau_value cal model 0 0.
Hypothesis Hdecay : 0 < tau_value cal model 0 1.

Lemma tau_for_positive (rs q : R) : 0 < tau_for cal model rs q.
Proof. unfold tau_for. destruct (Rlt_dec rs q); assumption. Qed.

Lemma alpha_between : 0 < a < 1.
Proof.
  unfold a, alpha_of.
  pose proof (tau_for_positive T p) as Htau.
  split.
  - apply Rdiv_lt_0_compat; lra.
  - apply Rmult_lt_reg_r with (tau_for cal model T p + dt); [lra |].
    unfold Rdiv. rewrite Rmult_assoc, Rinv_l by lra. lra.
Qed.

Lemma decay_power_positive (n : nat) : 0 < (1 - a) ^ n.
Proof. apply pow_lt. pose proof alpha_between. lra. Qed.

Lemma tau_for_filtered (n : nat) :
  tau_for cal model T (filtered a T p n) = tau_for cal model T p.
Proof.
  unfold tau_for, filtered.
  pose proof (decay_power_positive n) as Hpos.
  destruct (Rlt_dec T p) as [Hlt | Hge];
    destruct (Rlt_dec T (T + (1 - a) ^ n * (p - T))) as [Hlt' | Hge'];
    try reflexivity; exfalso.
  - apply Hge'. assert (0 < (1 - a) ^ n * (p - T)) by (apply Rmult_lt_0_compat; lra).
    lra.
  - apply Hge.
    assert (0 < (1 - a) ^ n * (p - T)) by lra.
    destruct (Rle_or_lt p T) as [Hle | Hgt]; [| exact Hgt].
    assert ((1 - a) ^ n * (p - T) <= 0) by nra. lra.
Qed.

Lemma filtered_step (n : nat) :
  filtered a T p (S n) = a * T + (1 - a) * filtered a T p n.
Proof. unfold filtered. simpl. ring. Qed.

Lemma respond_n_invariant (n : nat) :
  setup (respond_n cal dt conc n self) = setup self
  /\ first_reading (respond_n cal dt conc n self) = false
  /\ previous_sensor_output (respond_n cal dt conc n self)
     = Some (filtered a T p n).
Proof.
  induction n as [| n (IH1 & IH2 & IH3)].
  - simpl. repeat split; try assumption.
    rewrite Hprev. f_equal. unfold filtered. simpl. ring.
  - simpl respond_n.
    rewrite (simulate_tracking cal dt conc (respond_n cal dt conc n self)
               (filtered a T p n) T IH2 IH3).
    + simpl. repeat split; try assumption.
      f_equal. rewrite IH1. fold model. rewrite tau_for_filtered.
      rewrite filtered_step. reflexivity.
    + rewrite IH1. exact Htarget.
    + rewrite IH1. fold model. rewrite tau_for_filtered.
      pose proof (tau_for_positive T p). lra.
Qed.

Lemma respond_n_returns (n : nat) :
  snd (simulate_mox_as_line_loglog cal dt conc (respond_n cal dt conc n self))
  = Ok (filtered a T p (S n) * R0 cal model, T).
Proof.
  destruct (respond_n_invariant n) as (IH1 & IH2 & IH3).
  rewrite (simulate_tracking cal dt conc (respond_n cal dt conc n self)
             (filtered a T p n) T IH2 IH3).
  - simpl. rewrite IH1. fold model. rewrite tau_for_filtered.
    rewrite filtered_step. reflexivity.
  - rewrite IH1. exact Htarget.
  - rewrite IH1. fold model. rewrite tau_for_filtered.
    pose proof (tau_for_positive T p). lra.
Qed.

Lemma filtered_delta (n : nat) :
  filtered a T p (S (S n)) - filtered a T p (S n)
  = (1 - a) * (filtered a T p (S n) - filtered a T p n).
Proof. unfold filtered. simpl. ring. Qed.

Lemma filtered_rises (n : nat) :
  p <= T -> filtered a T p n <= filtered a T p (S n) <= T.
Proof.
  intros Hle. unfold filtered. simpl.
  pose proof (decay_power_positive n) as Hx. pose proof alpha_between as Ha.
  set (x := (1 - a) ^ n) in *.
  assert (H1 : 0 <= x * (T - p)) by (apply Rmult_le_pos; lra).
  assert (H2 : 0 <= a * (x * (T - p))) by (apply Rmult_le_pos; lra).
  assert (H3 : 0 <= (1 - a) * (x * (T - p))) by (apply Rmult_le_pos; lra).
  split; lra.
Qed.

Lemma filtered_falls (n : nat) :
  T <= p -> T <= filtered a T p (S n) <= filtered a T p n.
Proof.
  intros Hle. unfold filtered. simpl.
  pose proof (decay_power_positive n) as Hx. pose proof alpha_between as Ha.
  set (x := (1 - a) ^ n) in *.
  assert (H1 : 0 <= x * (p - T)) by (apply Rmult_le_pos; lra).
  assert (H2 : 0 <= a * (x * (p - T))) by (apply Rmult_le_pos; lra).
  assert (H3 : 0 <= (1 - a) * (x * (p - T))) by (apply Rmult_le_pos; lra).
  split; lra.
Qed.

Lemma filtered_converges : Un_cv (filtered a T p) T.
Proof.
  intros eps Heps.
  destruct (Req_dec_T p T) as [E | E].
  - exists 0%nat. intros n _. unfold R_dist, filtered. rewrite E.
    replace (T + (1 - a) ^ n * (T - T) - T) with 0 by ring.
    rewrite Rabs_R0. lra.
  - assert (Hd : 0 < Rabs (p - T)) by (apply Rabs_pos_lt; lra).
    assert (Hq : Rabs (1 - a) < 1).
    { pose proof alpha_between. rewrite Rabs_pos_eq; lra. }
    assert (Hy : 0 < eps / Rabs (p - T)) by (apply Rdiv_lt_0_compat; lra).
    destruct (pow_lt_1_zero (1 - a) Hq (eps / Rabs (p - T)) Hy) as [N HN].
    exists N. intros n Hn. unfold R_dist, filtered.
    replace (T + (1 - a) ^ n * (p - T) - T) with ((1 - a) ^ n * (p - T)) by ring.
    rewrite Rabs_mult.
    specialize (HN n Hn).
    apply Rmult_lt_compat_r with (r := Rabs (p - T)) in HN; [| exact Hd].
    unfold Rdiv in HN. rewrite Rmult_assoc, Rinv_l, Rmult_1_r in HN by lra.
    exact HN.
Qed.

End ConstantConcentration.

(** C6: when every tracking call is given the same concentration, hence the
    same calibrated target [T], and the same [dt > 0] (the time constants
    being positive), the filter coefficient [alpha = dt / (tau + dt)] is the
    same at every call and lies strictly between 0 and 1; the filtered
    output after [n] calls is [T + (1 - alpha) ^ n * (p - T)]; every call
    returns it scaled by [R0] together with [T]; each step-to-step delta is
    [(1 - alpha)] times the one before; the output moves toward [T] without
    ever crossing it; and it converges to [T]. *)
Theorem constant_concentration_converges (cal : Calibration) (dt conc : R)
    (self : MOX) (p T : R) :
  first_reading self = false ->
  previous_sensor_output self = Some p ->
  steady_RS_R0 cal (sensor_model (setup self)) (gas_type (setup self)) conc
  = Ok T ->
  0 < dt ->
  0 < tau_value cal (sensor_model (setup self)) 0 0 ->
  0 < tau_value cal (sensor_model (setup self)) 0 1 ->
  let alpha := dt / (tau_for cal (sensor_model (setup self)) T p + dt) in
  let out := filtered alpha T p in
  0 < alpha < 1
  /\ out 0%nat = p
  /\ (forall n : nat,
        previous_sensor_output (respond_n cal dt conc n self) = Some (out n))
  /\ (forall n : nat,
        snd (simulate_mox_as_line_loglog cal dt conc
               (respond_n cal dt conc n self))
        = Ok (out (S n) * R0 cal (sensor_model (setup self)), T))
  /\ (forall n : nat, out (S n) = alpha * T + (1 - alpha) * out n)
  /\ (forall n : nat,
        out (S (S n)) - out (S n) = (1 - alpha) * (out (S n) - out n))
  /\ (p <= T -> forall n : nat, out n <= out (S n) <= T)
  /\ (T <= p -> forall n : nat, T <= out (S n) <= out n)
  /\ Un_cv out T.
Proof.
  intros Hfirst Hprev Htarget Hdt Hrise Hdecay alpha out.
  split; [exact (alpha_between cal dt self p T Hdt Hrise Hdecay) |].
  split; [unfold out, filtered; simpl; ring |].
  split.
  { intros n.
    apply (respond_n_invariant cal dt conc self p T Hfirst Hprev Htarget Hdt
             Hrise Hdecay n). }
  split.
  { intros n.
    apply (respond_n_returns cal dt conc self p T Hfirst Hprev Htarget Hdt
             Hrise Hdecay n). }
  split; [intros n; apply filtered_step |].
  split; [intros n; apply filtered_delta |].
  split.
  { intros Hle n. apply (filtered_rises cal dt self p T Hdt Hrise Hdecay n Hle). }
  split.
  { intros Hle n. apply (filtered_falls cal dt self p T Hdt Hrise Hdecay n Hle). }
  exact (filtered_converges cal dt self p T Hdt Hrise Hdecay).
Qed.

Lemma constant_concentration_converges_witness :
  Un_cv (filtered ((1 / 4) / (tau_for Example.cal 1 (/ 1000) 1 + 1 / 4))
           (/ 1000) 1)
        (/ 1000).
Proof.
  apply (constant_concentration_converges Example.cal (1 / 4) 1000
           Example.tracking 1 (/ 1000)).
  - reflexivity.
  - reflexivity.
  - exact example_steady_1000.
  - lra.
  - simpl. lra.
  - simpl. lra.
Defined.

(** ** The sample points of the visibility check *)

Lemma set_last_last (l : list R) (v : R) :
  l <> [] -> last l 0 = v -> Py.set_last l v = l.
Proof.
  intros Hne Hlast. unfold Py.set_last.
  destruct l as [| x l']; [contradiction |].
  rewrite <- Hlast. symmetry. apply app_removelast_last. discriminate.
Qed.

(** For at least two samples [np.linspace] is the arithmetic progression
    from [start] with step [(stop - start) / (num - 1)]: it has [num]
    entries, evenly spaced, the first [start] and the last [stop]. *)
Lemma linspace_evenly_spaced (start stop : R) (num : Z) :
  (1 < num)%Z ->
  Py.linspace start stop num
  = Ok (map (fun k => IZR (Z.of_nat k) * ((stop - start) / IZR (num - 1)) + start)
          (seq 0 (Z.to_nat num))).
Proof.
  intros Hnum. unfold Py.linspace, Py.arange.
  destruct (num <? 0)%Z eqn:E0; [apply Z.ltb_lt in E0; lia |].
  destruct (0 <? num - 1)%Z eqn:E1; [| apply Z.ltb_ge in E1; lia].
  destruct (1 <? num)%Z eqn:E2; [| apply Z.ltb_ge in E2; lia].
  rewrite !map_map. f_equal.
  apply set_last_last.
  - destruct (Z.to_nat num) eqn:En; [lia | discriminate].
  - assert (En : Z.to_nat num = S (Z.to_nat (num - 1))) by lia.
    rewrite En, seq_S, map_app.
    change (map ?f [?x]) with [f x].
    rewrite last_last. simpl.
    rewrite Z2Nat.id by lia.
    field. apply not_0_IZR. lia.
Qed.

Lemma linspace_one (start stop : R) : Py.linspace start stop 1 = Ok [start].
Proof.
  unfold Py.linspace, Py.arange. simpl. do 2 f_equal. ring.
Qed.

Lemma samples_count (spec : EnvSpec) (start end_ : Vec3) :
  cell_size spec <> 0 ->
  samples spec start end_
  = Ok (Py.math_ceil (np_linalg_norm start end_ / cell_size spec) + 1)%Z.
Proof.
  intros Hc. unfold samples, Py.np_div_then.
  destruct (Req_dec_T (cell_size spec) 0); [contradiction | reflexivity].
Qed.

Lemma norm_p3_p4 : np_linalg_norm Example.p3 Example.p4 = 5.
Proof.
  unfold np_linalg_norm. simpl.
  apply sqrt_lem_1; lra.
Qed.

Lemma norm_p3_m4 : np_linalg_norm Example.p3 Example.m4 = 5.
Proof.
  unfold np_linalg_norm. simpl.
  apply sqrt_lem_1; lra.
Qed.

Lemma distance_p3_p4 : euclidean_distance Example.p3 Example.p4 = 1.
Proof.
  unfold euclidean_distance. simpl.
  apply sqrt_lem_1; lra.
Qed.

Lemma distance_p3_m4 : euclidean_distance Example.p3 Example.m4 = 7.
Proof.
  unfold euclidean_distance. simpl.
  apply sqrt_lem_1; lra.
Qed.

Lemma sample_points_length (spec : EnvSpec) (start end_ : Vec3) (n : Z) :
  samples spec start end_ = Ok n ->
  (1 < n)%Z ->
  exists points, sample_points spec start end_ = Ok points
                 /\ length points = Z.to_nat n.
Proof.
  intros Hn Hlt. unfold sample_points. rewrite Hn. simpl obind.
  rewrite !linspace_evenly_spaced by exact Hlt. simpl obind.
  eexists. split; [reflexivity |].
  rewrite !length_combine, !length_map, !length_seq. lia.
Qed.

(** C1, at two inputs: with cells of edge 1/2, between (3,0,0) and (4,0,0),
    which are 1 apart, the code takes 11 samples where
    [ceil(d / cell_size) + 1] is 3; between (3,0,0) and (-4,0,0), which are
    7 apart, it takes 11 samples where the formula gives 15.  The code
    divides the norm of the two points stacked, 5 in both cases, not their
    distance. *)
Theorem samples_from_stacked_norm :
  samples Example.spec Example.p3 Example.p4 = Ok 11%Z
  /\ (exists points,
        sample_points Example.spec Example.p3 Example.p4 = Ok points
        /\ length points = 11%nat)
  /\ specified_samples Example.spec Example.p3 Example.p4 = 3%Z
  /\ samples Example.spec Example.p3 Example.m4 = Ok 11%Z
  /\ specified_samples Example.spec Example.p3 Example.m4 = 15%Z.
Proof.
  assert (Hc : cell_size Example.spec <> 0) by (simpl; lra).
  assert (H34 : samples Example.spec Example.p3 Example.p4 = Ok 11%Z).
  { rewrite (samples_count _ _ _ Hc), norm_p3_p4.
    rewrite (math_ceil_eq 10); [reflexivity | simpl; lra]. }
  split; [exact H34 |].
  split; [apply (sample_points_length _ _ _ 11 H34); lia |].
  repeat split.
  - unfold specified_samples. rewrite distance_p3_p4.
    rewrite (math_ceil_eq 2); [reflexivity | simpl; lra].
  - rewrite (samples_count _ _ _ Hc), norm_p3_m4.
    rewrite (math_ceil_eq 10); [reflexivity | simpl; lra].
  - unfold specified_samples. rewrite distance_p3_m4.
    rewrite (math_ceil_eq 14); [reflexivity | simpl; lra].
Qed.

(** ** Indexing the occupancy grid *)

Lemma axis_index_inside (n i : Z) :
  (0 <= i < n)%Z -> Py.axis_index n i = Ok i.
Proof.
  intros H. unfold Py.axis_index.
  destruct ((0 <=? i) && (i <? n))%Z eqn:E; [reflexivity |].
  apply andb_false_iff in E. destruct E as [E | E];
    [apply Z.leb_gt in E | apply Z.ltb_ge in E]; lia.
Qed.

Lemma axis_index_negative (n i : Z) :
  (- n <= i < 0)%Z -> Py.axis_index n i = Ok (i + n)%Z.
Proof.
  intros H. unfold Py.axis_index.
  destruct ((0 <=? i) && (i <? n))%Z eqn:E.
  - apply andb_true_iff in E. destruct E as [E _]. apply Z.leb_le in E. lia.
  - destruct ((- n <=? i) && (i <? 0))%Z eqn:E'; [reflexivity |].
    apply andb_false_iff in E'. destruct E' as [E' | E'];
      [apply Z.leb_gt in E' | apply Z.ltb_ge in E']; lia.
Qed.

Lemma axis_index_outside (n i : Z) :
  (n <= i \/ i < - n)%Z -> (0 <= n)%Z -> Py.axis_index n i = Raise IndexError.
Proof.
  intros H Hn. unfold Py.axis_index.
  destruct ((0 <=? i) && (i <? n))%Z eqn:E.
  - apply andb_true_iff in E. destruct E as [E1 E2].
    apply Z.leb_le in E1. apply Z.ltb_lt in E2. lia.
  - destruct ((- n <=? i) && (i <? 0))%Z eqn:E'; [| reflexivity].
    apply andb_true_iff in E'. destruct E' as [E1 E2].
    apply Z.leb_le in E1. apply Z.ltb_lt in E2. lia.
Qed.

Lemma getitem_inside {A : Type} (l : list A) (i : Z) :
  (0 <= i < Z.of_nat (length l))%Z ->
  exists a, nth_error l (Z.to_nat i) = Some a /\ Py.getitem l i = Ok a.
Proof.
  intros H. unfold Py.getitem. rewrite (axis_index_inside _ _ H). simpl.
  destruct (nth_error l (Z.to_nat i)) as [a |] eqn:E.
  - exists a. split; reflexivity.
  - apply nth_error_None in E. lia.
Qed.

Lemma getitem_negative {A : Type} (l : list A) (i : Z) :
  (- Z.of_nat (length l) <= i < 0)%Z ->
  exists a, Py.getitem l i = Ok a
            /\ Py.getitem l (i + Z.of_nat (length l)) = Ok a.
Proof.
  intros H.
  destruct (getitem_inside l (i + Z.of_nat (length l))) as (a & Hn & Ha); [lia |].
  exists a. split; [| exact Ha].
  unfold Py.getitem. rewrite (axis_index_negative _ _ H). simpl.
  rewrite Hn. reflexivity.
Qed.

Lemma getitem_outside {A : Type} (l : list A) (i : Z) :
  (Z.of_nat (length l) <= i \/ i < - Z.of_nat (length l))%Z ->
  Py.getitem l i = Raise IndexError.
Proof.
  intros H. unfold Py.getitem.
  rewrite (axis_index_outside _ _ H) by lia. reflexivity.
Qed.

Lemma voxel_index_value (spec : EnvSpec) (coord origin : R) :
  cell_size spec <> 0 ->
  voxel_index spec coord origin
  = Ok (Py.math_floor ((coord - origin) / cell_size spec)).
Proof.
  intros H. unfold voxel_index, Py.np_div_then.
  destruct (Req_dec_T (cell_size spec) 0); [contradiction | reflexivity].
Qed.

Lemma scan_samples_step (spec : EnvSpec) (grid : OccGrid) (x y z : R)
    (rest : list (R * (R * R))) :
  cell_size spec <> 0 ->
  scan_samples spec grid ((x, (y, z)) :: rest)
  = (v <- grid_lookup grid
            (Py.math_floor ((z - c2 (env_min spec)) / cell_size spec))
            (Py.math_floor ((x - c0 (env_min spec)) / cell_size spec))
            (Py.math_floor ((y - c1 (env_min spec)) / cell_size spec)) ;;
     if (v =? 0)%Z then scan_samples spec grid rest else Ok false)%out.
Proof.
  intros H. simpl. rewrite !voxel_index_value by exact H. reflexivity.
Qed.

(** ** Single ticks *)

Lemma advance_hold (self : MOX) :
  update_iter self <> updates_per_gas_iter (setup self) ->
  advance self = set_update_iter self (update_iter self + 1).
Proof.
  intros H. unfold advance.
  apply Z.eqb_neq in H. rewrite H, andb_false_r. reflexivity.
Qed.

Lemma advance_next (self : MOX) :
  update_iter self = updates_per_gas_iter (setup self) ->
  filament_iter self <> iter_stop (setup self) ->
  advance self
  = set_filament_iter (set_update_iter self 0) (filament_iter self + 1).
Proof.
  intros Hu Hf. unfold advance.
  apply Z.eqb_neq in Hf. apply Z.eqb_eq in Hu. rewrite Hf, Hu. reflexivity.
Qed.

Lemma refresh_skip (loc : Vec3) (self : MOX) :
  update_iter self <> 0%Z -> refresh_concentration loc self = (self, Ok tt).
Proof.
  intros H. unfold refresh_concentration.
  apply Z.eqb_neq in H. rewrite H. reflexivity.
Qed.

Lemma emit_reading_first (cal : Calibration) (dt : R) (self : MOX) :
  first_reading self = true ->
  snd (emit_reading cal dt self)
  = Ok (sensitivity_air cal (sensor_model (setup self))
        * R0 cal (sensor_model (setup self)),
        gas_conc self,
        sensitivity_air cal (sensor_model (setup self))).
Proof.
  intros H. unfold emit_reading, bind.
  rewrite (first_call_result cal dt (gas_conc self) self H).
  reflexivity.
Qed.

Lemma emit_reading_state (cal : Calibration) (dt : R) (self : MOX)
    (reading : R * R * R) :
  snd (emit_reading cal dt self) = Ok reading ->
  reading_gas_conc reading = gas_conc self
  /\ state (fst (emit_reading cal dt self)) = reading.
Proof.
  unfold emit_reading, bind, assign, ret.
  pose proof (simulate_schedule cal dt (gas_conc self) self) as [_ Hg].
  destruct (simulate_mox_as_line_loglog cal dt (gas_conc self) self)
    as [m [[so rs]|e]]; simpl in *; [| discriminate].
  intros H. injection H as <-. split; [exact Hg | reflexivity].
Qed.

Lemma steady_RS_R0_clean_air (cal : Calibration) (model gas : Z) :
  exists rs, steady_RS_R0 cal model gas 0 = Ok rs.
Proof.
  unfold steady_RS_R0.
  destruct (Req_dec_T 0 0); [| lra]. simpl. eexists. reflexivity.
Qed.

Lemma emit_reading_clean_air (cal : Calibration) (dt : R) (self : MOX) :
  primed self ->
  gas_conc self = 0 ->
  tau_value cal (sensor_model (setup self)) 0 0 + dt <> 0 ->
  tau_value cal (sensor_model (setup self)) 0 1 + dt <> 0 ->
  exists so rs, snd (emit_reading cal dt self) = Ok (so, 0, rs).
Proof.
  intros Hp Hg H0 H1.
  destruct (first_reading self) eqn:Hfirst.
  - rewrite (emit_reading_first cal dt self Hfirst), Hg.
    eexists. eexists. reflexivity.
  - destruct Hp as [Hp | [p Hp]]; [congruence |].
    destruct (steady_RS_R0_clean_air cal (sensor_model (setup self))
                (gas_type (setup self))) as [rs Hrs].
    unfold emit_reading, bind. rewrite Hg.
    rewrite (simulate_tracking cal dt 0 self p rs Hfirst Hp Hrs).
    + simpl. rewrite Hg. eexists. eexists. reflexivity.
    + unfold tau_for. destruct (Rlt_dec rs p); assumption.
Qed.

Lemma simulate_primed (cal : Calibration) (dt c : R) (self : MOX) :
  primed self -> primed (fst (simulate_mox_as_line_loglog cal dt c self)).
Proof.
  intros Hp. unfold simulate_mox_as_line_loglog.
  destruct (first_reading self) eqn:Hfirst.
  - right. eexists. reflexivity.
  - destruct (steady_RS_R0 _ _ _ _); [| exact Hp].
    destruct (previous_sensor_output self); [| exact Hp].
    destruct (Py.fdiv _ _); [| exact Hp].
    right. eexists. reflexivity.
Qed.

Lemma emit_reading_primed (cal : Calibration) (dt : R) (self : MOX) :
  primed self -> primed (fst (emit_reading cal dt self)).
Proof.
  intros Hp. unfold emit_reading, bind, assign, ret.
  pose proof (simulate_primed cal dt (gas_conc self) self Hp) as H.
  destruct (simulate_mox_as_line_loglog cal dt (gas_conc self) self)
    as [m [rd|e]]; simpl in *; exact H.
Qed.

(** A tick that finds [update_iter] different from [updates_per_gas_iter],
    and not at -1: it counts one update, loads nothing, keeps the
    concentration, and ends in the response model. *)
Lemma tick_hold (cal : Calibration) (loc : Vec3) (dt : R) (self : MOX) :
  update_iter self <> updates_per_gas_iter (setup self) ->
  (update_iter self + 1 <> 0)%Z ->
  update cal loc dt self
  = emit_reading cal dt
      (set_update_iter (set_time_tot self (time_tot self + dt))
         (update_iter self + 1)).
Proof.
  intros Hu Hnz. rewrite update_unfold. unfold advanced.
  rewrite advance_hold by exact Hu.
  rewrite refresh_skip by exact Hnz. reflexivity.
Qed.

Lemma stop_resets (self : MOX) :
  filament_iter (stop self) = iter_start (setup self)
  /\ sensor_output (stop self) = 0
  /\ gas_conc (stop self) = 0
  /\ RS_R0 (stop self) = 0
  /\ first_reading (stop self) = true
  /\ time_tot (stop self) = 0
  /\ update_iter (stop self) = update_iter self
  /\ setup (stop self) = setup self
  /\ loads (stop self) = loads self.
Proof. repeat split. Qed.

(** ** The ticks before the first load *)

Lemma holding_tick (cal : Calibration) (self0 self : MOX) (k : Z)
    (input : Vec3 * R) :
  holding self0 k self ->
  (0 <= k < updates_per_gas_iter (setup self0))%Z ->
  holding self0 (k + 1) (tick cal self input).
Proof.
  intros (Hs & Hc & Hl & Hg & Hp) Hk.
  unfold counters in Hc. injection Hc as Hf Hu.
  unfold tick. rewrite tick_hold by (rewrite ?Hs, Hu; lia).
  set (m := set_update_iter _ _).
  destruct (emit_reading_schedule cal (snd input) m) as [(E1 & E2 & E3 & E4) E5].
  unfold holding, counters.
  rewrite <- E1, <- E2, <- E3, <- E4, E5. unfold m. simpl.
  repeat split; try congruence.
  apply emit_reading_primed. exact Hp.
Qed.

Lemma holding_ticks (cal : Calibration) (self0 : MOX)
    (inputs : list (Vec3 * R)) :
  forall (self : MOX) (k : Z),
    holding self0 k self ->
    (0 <= k)%Z ->
    (k + Z.of_nat (length inputs) <= updates_per_gas_iter (setup self0))%Z ->
    holding self0 (k + Z.of_nat (length inputs)) (ticks cal self inputs).
Proof.
  induction inputs as [| input rest IH]; intros self k Hh Hk Hlen.
  - simpl. rewrite Z.add_0_r. exact Hh.
  - simpl length in *. rewrite Nat2Z.inj_succ in *.
    replace (k + Z.succ (Z.of_nat (length rest)))%Z
      with ((k + 1) + Z.of_nat (length rest))%Z by lia.
    simpl. apply IH; [| lia | lia].
    apply holding_tick; [exact Hh | lia].
Qed.

Lemma holding_emits (cal : Calibration) (self0 self : MOX) (k : Z)
    (loc : Vec3) (dt : R) :
  holding self0 k self ->
  (0 <= k < updates_per_gas_iter (setup self0))%Z ->
  (forall reading : R * R * R,
      snd (update cal loc dt self) = Ok reading ->
      reading_gas_conc reading = 0)
  /\ (tau_value cal (sensor_model (setup self0)) 0 0 + dt <> 0 ->
      tau_value cal (sensor_model (setup self0)) 0 1 + dt <> 0 ->
      exists so rs, snd (update cal loc dt self) = Ok (so, 0, rs)).
Proof.
  intros (Hs & Hc & Hl & Hg & Hp) Hk.
  unfold counters in Hc. injection Hc as Hf Hu.
  rewrite tick_hold by (rewrite ?Hs, Hu; lia).
  set (m := set_update_iter _ _).
  assert (Hm : primed m /\ gas_conc m = 0 /\ setup m = setup self0).
  { unfold m. repeat split; assumption. }
  destruct Hm as (Hm1 & Hm2 & Hm3).
  split.
  - intros reading Hr.
    destruct (emit_reading_state cal dt m reading Hr) as [-> _]. exact Hm2.
  - intros H0 H1. apply emit_reading_clean_air; rewrite ?Hm3; assumption.
Qed.

Lemma holding_then_loads (cal : Calibration) (self0 self : MOX)
    (input : Vec3 * R) :
  holding self0 (updates_per_gas_iter (setup self0)) self ->
  (iter_start (setup self0) < iter_stop (setup self0))%Z ->
  loads (tick cal self input) = [(iter_start (setup self0) + 1)%Z].
Proof.
  intros (Hs & Hc & Hl & Hg & Hp) Hlt.
  unfold counters in Hc. injection Hc as Hf Hu.
  unfold tick.
  destruct (update_schedule cal (fst input) (snd input) self) as (_ & _ & H & _).
  rewrite H. unfold advanced.
  rewrite advance_next; simpl; rewrite ?Hs, ?Hu, ?Hf, ?Hl; try lia.
  reflexivity.
Qed.

Lemma start_loaded_only_by_wrap (cal : Calibration) (self0 self : MOX)
    (input : Vec3 * R) :
  filament_iter self0 = iter_start (setup self0) ->
  update_iter self0 = 0%Z ->
  reachable cal self0 self ->
  loads (tick cal self input) = iter_start (setup self0) :: loads self ->
  counters self = (iter_stop (setup self0), updates_per_gas_iter (setup self0)).
Proof.
  intros Hf Hu Hr Hload.
  destruct (reachable_lower cal self0 self Hf Hu Hr) as [B1 B2].
  pose proof (reachable_setup cal self0 self Hr) as Hs.
  pose proof (tick_counters cal self input) as Hc.
  destruct (update_schedule cal (fst input) (snd input) self)
    as (_ & Hca & Hl & _).
  fold (tick cal self input) in Hl, Hca.
  rewrite Hl in Hload.
  destruct (update_iter (advanced self (snd input)) =? 0)%Z eqn:E.
  2:{ destruct (cons_neq_self _ _ Hload). }
  injection Hload as Hfi. apply Z.eqb_eq in E.
  rewrite Hca in Hc. unfold counters in Hc. rewrite Hfi, E, Hs in Hc.
  unfold scheduler_rule in Hc.
  destruct ((filament_iter self =? iter_stop (setup self0))
            && (update_iter self =? updates_per_gas_iter (setup self0)))%Z eqn:E1.
  - apply andb_true_iff in E1. destruct E1 as [E1 E2].
    apply Z.eqb_eq in E1, E2. unfold counters. congruence.
  - destruct (negb _); injection Hc; intros; lia.
Qed.

Lemma init_holding (config : Config) (dir : GasData) (last_iter : Z)
    (spec : EnvSpec) (grid : OccGrid) :
  holding (__init__ config dir last_iter spec grid) 0
    (__init__ config dir last_iter spec grid).
Proof.
  unfold holding, counters, primed. simpl.
  repeat split. left. reflexivity.
Qed.

Lemma first_tick_counts_an_update (cal : Calibration)
    (self : MOX) (loc : Vec3) (dt : R) :
  first_reading self = true ->
  gas_conc self = 0 ->
  update_iter self = 0%Z ->
  (1 <= updates_per_gas_iter (setup self))%Z ->
  update cal loc dt self
  = emit_reading cal dt
      (set_update_iter (set_time_tot self (time_tot self + dt)) 1)
  /\ snd (update cal loc dt self)
     = Ok (sensitivity_air cal (sensor_model (setup self))
           * R0 cal (sensor_model (setup self)),
           0,
           sensitivity_air cal (sensor_model (setup self))).
Proof.
  intros Hfirst Hg Hu Hper.
  assert (E : update cal loc dt self
              = emit_reading cal dt
                  (set_update_iter (set_time_tot self (time_tot self + dt)) 1)).
  { rewrite tick_hold by (rewrite Hu; lia). rewrite Hu. reflexivity. }
  split; [exact E |].
  rewrite E, emit_reading_first by exact Hfirst.
  simpl. rewrite Hg. reflexivity.
Qed.

(** C9: for a sensor just constructed with [updates_per_gas_iter >= 1] and
    [iter_start < iter_stop], the first tick takes [update_iter] from 0 to 1
    and loads nothing; through the first [updates_per_gas_iter] ticks
    nothing is loaded and the concentration stays 0, which is what each of
    these ticks emits (the first one always returns; a later one returns
    whenever [tau + dt] is not zero); the tick after them loads iteration
    [iter_start + 1], the first load ever; and a tick loads iteration
    [iter_start] only from [(iter_stop, updates_per_gas_iter)], that is by
    wrapping. *)
Theorem first_load_is_the_second_iteration (cal : Calibration)
    (config : Config) (dir : GasData) (last_iter : Z) (spec : EnvSpec)
    (grid : OccGrid) :
  let self0 := __init__ config dir last_iter spec grid in
  let start := iter_start (setup self0) in
  let per_iter := updates_per_gas_iter (setup self0) in
  let air := sensitivity_air cal (sensor_model (setup self0)) in
  (1 <= per_iter)%Z ->
  (start < iter_stop (setup self0))%Z ->
  (forall (loc : Vec3) (dt : R),
      counters (fst (update cal loc dt self0)) = (start, 1%Z)
      /\ loads (fst (update cal loc dt self0)) = []
      /\ snd (update cal loc dt self0)
         = Ok (air * R0 cal (sensor_model (setup self0)), 0, air))
  /\ (forall inputs : list (Vec3 * R),
        (Z.of_nat (length inputs) <= per_iter)%Z ->
        counters (ticks cal self0 inputs) = (start, Z.of_nat (length inputs))
        /\ loads (ticks cal self0 inputs) = []
        /\ gas_conc (ticks cal self0 inputs) = 0)
  /\ (forall (inputs : list (Vec3 * R)) (loc : Vec3) (dt : R),
        (Z.of_nat (length inputs) < per_iter)%Z ->
        (forall reading : R * R * R,
            snd (update cal loc dt (ticks cal self0 inputs)) = Ok reading ->
            reading_gas_conc reading = 0)
        /\ (tau_value cal (sensor_model (setup self0)) 0 0 + dt <> 0 ->
            tau_value cal (sensor_model (setup self0)) 0 1 + dt <> 0 ->
            exists so rs,
              snd (update cal loc dt (ticks cal self0 inputs))
              = Ok (so, 0, rs)))
  /\ (forall (inputs : list (Vec3 * R)) (input : Vec3 * R),
        Z.of_nat (length inputs) = per_iter ->
        loads (ticks cal self0 (inputs ++ [input])) = [(start + 1)%Z])
  /\ (forall (self : MOX) (input : Vec3 * R),
        reachable cal self0 self ->
        loads (tick cal self input) = start :: loads self ->
        counters self = (iter_stop (setup self0), per_iter)).
Proof.
  intros self0 start per_iter air Hper Hlt.
  pose proof (init_holding config dir last_iter spec grid) as H0.
  fold self0 in H0.
  assert (Hrun : forall inputs : list (Vec3 * R),
             (Z.of_nat (length inputs) <= per_iter)%Z ->
             holding self0 (Z.of_nat (length inputs)) (ticks cal self0 inputs)).
  { intros inputs Hlen.
    apply (holding_ticks cal self0 inputs self0 0%Z H0); [lia | exact Hlen]. }
  split.
  { intros loc dt.
    destruct (Hrun [(loc, dt)]) as (_ & Hc & Hl & _); [simpl; lia |].
    split; [exact Hc |]. split; [exact Hl |].
    rewrite tick_hold.
    - rewrite emit_reading_first by reflexivity. reflexivity.
    - fold per_iter. simpl. lia.
    - simpl. lia. }
  split.
  { intros inputs Hlen.
    destruct (Hrun inputs Hlen) as (_ & Hc & Hl & Hg & _).
    repeat split; assumption. }
  split.
  { intros inputs loc dt Hlen.
    apply (holding_emits cal self0 (ticks cal self0 inputs)
             (Z.of_nat (length inputs)) loc dt).
    - apply Hrun. lia.
    - fold per_iter. lia. }
  split.
  { intros inputs input Hlen.
    unfold ticks. rewrite fold_left_app. simpl.
    apply holding_then_loads; [| exact Hlt].
    fold per_iter. rewrite <- Hlen. apply Hrun. lia. }
  intros self input Hr Hload.
  apply (start_loaded_only_by_wrap cal self0 self input); try assumption;
    reflexivity.
Qed.

Lemma first_load_is_the_second_iteration_witness :
  loads (ticks Example.cal Example.sensor [Example.input; Example.input])
  = [301%Z].
Proof.
  pose proof (first_load_is_the_second_iteration Example.cal Example.config
                Example.dir 305 Example.spec Example.grid) as H.
  fold Example.sensor in H. cbv zeta in H.
  rewrite example_sensor_per_iter in H.
  destruct H as (_ & _ & _ & H & _).
  - lia.
  - simpl. lia.
  - apply (H [Example.input] Example.input). reflexivity.
Defined.

(** ** Stopping between two ticks *)

Lemma norm_origin : np_linalg_norm Example.origin Example.origin = 0.
Proof.
  unfold np_linalg_norm. simpl.
  apply sqrt_lem_1; lra.
Qed.

Lemma example_line_of_sight :
  check_env_for_obstacle3D Example.sensor Example.origin
    (position Example.puff) = Ok true.
Proof.
  unfold check_env_for_obstacle3D, sample_points.
  assert (Hc : cell_size (env_spec (setup Example.sensor)) <> 0)
    by (simpl; lra).
  rewrite (samples_count _ _ _ Hc).
  change (position Example.puff) with Example.origin.
  rewrite norm_origin.
  rewrite (math_ceil_eq 0) by (simpl; lra).
  simpl obind.
  rewrite !voxel_index_value by (simpl; lra). simpl obind.
  floor_at 0%Z.
  reflexivity.
Qed.

Lemma example_puff_positive :
  0 < concentration_from_filament Example.origin Example.puff Example.head.
Proof.
  unfold concentration_from_filament. simpl.
  assert (Hs : 0 < sqrt (8 * (PI * (PI * (PI * 1))))).
  { apply sqrt_lt_R0. pose proof PI_RGT_0 as Hpi.
    assert (H1 : 0 < PI * 1) by lra.
    assert (H2 : 0 < PI * (PI * 1)) by (apply Rmult_lt_0_compat; lra).
    assert (H3 : 0 < PI * (PI * (PI * 1))) by (apply Rmult_lt_0_compat; lra).
    lra. }
  apply Rmult_lt_0_compat; [| lra].
  apply Rdiv_lt_0_compat; [| lra].
  apply Rmult_lt_0_compat; [| apply exp_pos].
  apply Rdiv_lt_0_compat; [lra |].
  apply Rmult_lt_0_compat; lra.
Qed.

Lemma example_summed (self : MOX) :
  setup self = setup Example.sensor ->
  summed_concentration self Example.origin Example.head [Example.puff] 0
  = (0 + concentration_from_filament Example.origin Example.puff Example.head,
     Ok tt).
Proof.
  intros Hs.
  rewrite (summed_concentration_setup self Example.sensor) by exact Hs.
  unfold summed_concentration.
  rewrite example_line_of_sight.
  destruct (Rlt_dec _ _) as [_ | Hn]; [reflexivity |].
  exfalso. apply Hn. unfold dist_SQR, limit_distance. simpl. lra.
Qed.

(** A tick that finds the counters at [(f, updates_per_gas_iter)] with
    [f] before [iter_stop], the files of iteration [f + 1] in place and the
    first reading due: what it returns. *)
Lemma tick_next_first_reading (cal : Calibration) (loc : Vec3) (dt : R)
    (self : MOX) (data : list Filament.t) (head : Header) (g : R) :
  update_iter self = updates_per_gas_iter (setup self) ->
  filament_iter self <> iter_stop (setup self) ->
  first_reading self = true ->
  fil_file (gas_data_dir (setup self)) (filament_iter self + 1) = Some data ->
  head_file (gas_data_dir (setup self)) (filament_iter self + 1) = Some head ->
  summed_concentration self loc head data 0 = (g, Ok tt) ->
  snd (update cal loc dt self)
  = Ok (sensitivity_air cal (sensor_model (setup self))
        * R0 cal (sensor_model (setup self)),
        g,
        sensitivity_air cal (sensor_model (setup self))).
Proof.
  intros Hu Hf Hfirst Hdata Hhead Hsum.
  rewrite update_unfold. unfold advanced.
  rewrite advance_next by assumption.
  set (a := set_filament_iter _ _).
  rewrite (refresh_reloads loc a data head); try reflexivity; try assumption.
  rewrite (summed_concentration_setup a self) by reflexivity.
  rewrite Hsum. simpl fst. simpl snd. cbv iota.
  rewrite emit_reading_first by exact Hfirst. reflexivity.
Qed.

(** C2, at one run: the benchmark sensor (iterations 300 to 305, one update
    per iteration) is ticked once and stopped.  [stop] has reset the five
    attributes it assigns and [filament_iter], but [update_iter] is still 1
    where a new sensor has 0.  The next tick of the stopped sensor loads
    iteration 301 and emits a positive concentration; the first tick of a
    new sensor, on the same input, loads nothing and emits 0. *)
Theorem stop_keeps_update_iter :
  let fresh := Example.sensor in
  let stopped := stop (tick Example.cal fresh Example.input) in
  let c := concentration_from_filament Example.origin Example.puff
             Example.head in
  update_iter fresh = 0%Z
  /\ update_iter stopped = 1%Z
  /\ filament_iter stopped = 300%Z
  /\ first_reading stopped = true
  /\ (sensor_output stopped, gas_conc stopped, RS_R0 stopped, time_tot stopped)
     = (0, 0, 0, 0)
  /\ loads (tick Example.cal fresh Example.input) = []
  /\ snd (update Example.cal Example.origin (1 / 4) fresh)
     = Ok (1 * 50000, 0, 1)
  /\ loads (tick Example.cal stopped Example.input) = [301%Z]
  /\ snd (update Example.cal Example.origin (1 / 4) stopped)
     = Ok (1 * 50000, 0 + c, 1)
  /\ 0 < 0 + c.
Proof.
  intros fresh stopped c.
  pose proof (init_holding Example.config Example.dir 305 Example.spec
                Example.grid) as H0.
  fold Example.sensor in H0. fold fresh in H0.
  assert (Hper : updates_per_gas_iter (setup fresh) = 1%Z)
    by exact example_sensor_per_iter.
  assert (H1 : holding fresh 1 (tick Example.cal fresh Example.input)).
  { apply (holding_tick Example.cal fresh fresh 0 Example.input H0).
    rewrite Hper. lia. }
  destruct H1 as (S1 & C1 & L1 & G1 & P1).
  unfold counters in C1. injection C1 as F1 U1.
  assert (Hstop : setup stopped = setup fresh /\ update_iter stopped = 1%Z
                  /\ filament_iter stopped = 300%Z).
  { unfold stopped. simpl. rewrite S1, U1. repeat split. }
  destruct Hstop as (S2 & U2 & F2).
  split; [reflexivity |].
  split; [exact U2 |].
  split; [exact F2 |].
  split; [reflexivity |].
  split; [reflexivity |].
  split; [exact L1 |].
  split.
  { destruct (first_tick_counts_an_update Example.cal fresh
                Example.origin (1 / 4)) as [_ H]; try reflexivity.
    - rewrite Hper. lia.
    - exact H. }
  split.
  { apply (holding_then_loads Example.cal fresh stopped Example.input).
    - rewrite Hper. unfold holding, counters.
      rewrite S2, U2, F2. unfold stopped. simpl.
      repeat split; [exact L1 | left; reflexivity].
    - simpl. lia. }
  split.
  { rewrite (tick_next_first_reading Example.cal Example.origin (1 / 4) stopped
               [Example.puff] Example.head (0 + c)).
    - rewrite S2. reflexivity.
    - rewrite U2, S2, Hper. reflexivity.
    - rewrite F2, S2. simpl. lia.
    - reflexivity.
    - rewrite S2. reflexivity.
    - rewrite S2. reflexivity.
    - apply example_summed. exact S2. }
  pose proof example_puff_positive. fold c in H. lra.
Qed.

(** * Further properties of the sensor *)

(** ** The period of the scheduler *)

Lemma ticks_setup (cal : Calibration) (inputs : list (Vec3 * R)) :
  forall self : MOX, setup (ticks cal self inputs) = setup self.
Proof.
  induction inputs as [| input rest IH]; intros self; simpl.
  - reflexivity.
  - change (setup (ticks cal (tick cal self input) rest) = setup self).
    rewrite IH. apply tick_setup.
Qed.

Lemma ticks_snoc (cal : Calibration) (self : MOX) (inputs : list (Vec3 * R))
    (input : Vec3 * R) :
  ticks cal self (inputs ++ [input]) = tick cal (ticks cal self inputs) input.
Proof. unfold ticks. rewrite fold_left_app. reflexivity. Qed.

Lemma scheduler_rule_closed_form (start stop per_iter n : Z) :
  (start <= stop)%Z -> (0 <= per_iter)%Z -> (0 <= n)%Z ->
  scheduler_rule start stop per_iter
    ((start + (n / (per_iter + 1)) mod (stop - start + 1))%Z,
     (n mod (per_iter + 1))%Z)
  = ((start + ((n + 1) / (per_iter + 1)) mod (stop - start + 1))%Z,
     ((n + 1) mod (per_iter + 1))%Z).
Proof.
  intros Hrange Hper Hn. unfold scheduler_rule.
  set (P := (per_iter + 1)%Z). set (N := (stop - start + 1)%Z).
  assert (HP : (0 < P)%Z) by (unfold P; lia).
  assert (HN : (0 < N)%Z) by (unfold N; lia).
  pose proof (Z.mod_pos_bound n P HP) as Hr.
  pose proof (Z.div_mod n P ltac:(lia)) as Hdm.
  pose proof (Z.mod_pos_bound (n / P) N HN) as Hq.
  pose proof (Z.div_mod (n / P) N ltac:(lia)) as Hdq.
  destruct (Z.eq_dec (n mod P) per_iter) as [Er | Er].
  - (* the last update of an iteration *)
    assert (Hdiv : ((n + 1) / P = n / P + 1)%Z).
    { symmetry. apply (Z.div_unique (n + 1) P (n / P + 1) 0); [lia |].
      unfold P in *. lia. }
    assert (Hmod : ((n + 1) mod P = 0)%Z).
    { symmetry. apply (Z.mod_unique (n + 1) P (n / P + 1) 0); [lia |].
      unfold P in *. lia. }
    rewrite Hdiv, Hmod.
    destruct (Z.eq_dec ((n / P) mod N) (N - 1)) as [Eq | Eq].
    + assert (Hw : ((n / P + 1) mod N = 0)%Z).
      { symmetry.
        apply (Z.mod_unique (n / P + 1) N (n / P / N + 1) 0); [lia |]. lia. }
      rewrite Hw.
      replace (start + (n / P) mod N =? stop)%Z with true
        by (symmetry; apply Z.eqb_eq; unfold N in *; lia).
      replace (n mod P =? per_iter)%Z with true
        by (symmetry; apply Z.eqb_eq; exact Er).
      simpl. f_equal. lia.
    + assert (Hw : ((n / P + 1) mod N = (n / P) mod N + 1)%Z).
      { symmetry.
        apply (Z.mod_unique (n / P + 1) N (n / P / N) ((n / P) mod N + 1));
          lia. }
      rewrite Hw.
      replace (start + (n / P) mod N =? stop)%Z with false
        by (symmetry; apply Z.eqb_neq; unfold N in *; lia).
      replace (n mod P =? per_iter)%Z with true
        by (symmetry; apply Z.eqb_eq; exact Er).
      simpl. f_equal. lia.
  - (* an update within an iteration *)
    assert (Hdiv : ((n + 1) / P = n / P)%Z).
    { symmetry. apply (Z.div_unique (n + 1) P (n / P) (n mod P + 1));
        unfold P in *; lia. }
    assert (Hmod : ((n + 1) mod P = n mod P + 1)%Z).
    { symmetry. apply (Z.mod_unique (n + 1) P (n / P) (n mod P + 1));
        unfold P in *; lia. }
    rewrite Hdiv, Hmod.
    replace (n mod P =? per_iter)%Z with false
      by (symmetry; apply Z.eqb_neq; exact Er).
    rewrite andb_false_r. reflexivity.
Qed.

Lemma ticks_counters_closed_form (cal : Calibration) (self0 : MOX)
    (inputs : list (Vec3 * R)) :
  filament_iter self0 = iter_start (setup self0) ->
  update_iter self0 = 0%Z ->
  (iter_start (setup self0) <= iter_stop (setup self0))%Z ->
  (0 <= updates_per_gas_iter (setup self0))%Z ->
  counters (ticks cal self0 inputs)
  = ((iter_start (setup self0)
      + (Z.of_nat (length inputs) / (updates_per_gas_iter (setup self0) + 1))
        mod (iter_stop (setup self0) - iter_start (setup self0) + 1))%Z,
     (Z.of_nat (length inputs) mod (updates_per_gas_iter (setup self0) + 1))%Z).
Proof.
  intros Hf Hu Hrange Hper.
  induction inputs as [| input rest IH] using rev_ind.
  - simpl. unfold counters. rewrite Hf, Hu.
    rewrite Z.div_0_l, !Z.mod_0_l by lia. f_equal. lia.
  - rewrite ticks_snoc, tick_counters, ticks_setup, IH.
    rewrite length_app. simpl length.
    replace (Z.of_nat (length rest + 1)) with (Z.of_nat (length rest) + 1)%Z
      by lia.
    apply scheduler_rule_closed_form; lia.
Qed.

(** X1: with [iter_start <= iter_stop] and [updates_per_gas_iter >= 0], the
    counters after [n] ticks from construction are
    [(iter_start + (n / P) mod N, n mod P)], where [P = updates_per_gas_iter
    + 1] ticks are spent on each iteration and [N = iter_stop - iter_start
    + 1] iterations are played; so the schedule repeats every [N * P]
    ticks, from any point of a run. *)
Theorem scheduler_period (cal : Calibration) (self0 : MOX)
    (inputs more : list (Vec3 * R)) :
  filament_iter self0 = iter_start (setup self0) ->
  update_iter self0 = 0%Z ->
  (iter_start (setup self0) <= iter_stop (setup self0))%Z ->
  (0 <= updates_per_gas_iter (setup self0))%Z ->
  let P := (updates_per_gas_iter (setup self0) + 1)%Z in
  let N := (iter_stop (setup self0) - iter_start (setup self0) + 1)%Z in
  counters (ticks cal self0 inputs)
  = ((iter_start (setup self0) + (Z.of_nat (length inputs) / P) mod N)%Z,
     (Z.of_nat (length inputs) mod P)%Z)
  /\ (Z.of_nat (length more) = (N * P)%Z ->
      counters (ticks cal self0 (inputs ++ more))
      = counters (ticks cal self0 inputs)).
Proof.
  intros Hf Hu Hrange Hper P N.
  split.
  - apply ticks_counters_closed_form; assumption.
  - intros Hlen.
    rewrite !ticks_counters_closed_form by assumption.
    fold P. fold N.
    rewrite length_app, Nat2Z.inj_add, Hlen.
    assert (HP : (P <> 0)%Z) by (unfold P; lia).
    assert (HN : (N <> 0)%Z) by (unfold N; lia).
    rewrite Z.div_add by exact HP.
    rewrite Z.mod_add by exact HP.
    replace (Z.of_nat (length inputs) / P + N)%Z
      with (Z.of_nat (length inputs) / P + 1 * N)%Z by lia.
    rewrite Z.mod_add by exact HN.
    reflexivity.
Qed.

Lemma scheduler_period_witness :
  counters (ticks Example.cal Example.sensor
              ([Example.input]
               ++ [Example.input; Example.input; Example.input; Example.input;
                   Example.input; Example.input; Example.input; Example.input;
                   Example.input; Example.input; Example.input; Example.input]))
  = counters (ticks Example.cal Example.sensor [Example.input]).
Proof.
  apply (scheduler_period Example.cal Example.sensor).
  - reflexivity.
  - reflexivity.
  - simpl. lia.
  - rewrite example_sensor_per_iter. lia.
  - rewrite example_sensor_per_iter. reflexivity.
Defined.

(** ** What the methods can raise *)

Lemma np_div_then_raises (round : R -> Z) (a b : R) (e : exn) :
  Py.np_div_then round a b = Raise e ->
  b = 0 /\ (e = ValueError \/ e = OverflowError).
Proof.
  unfold Py.np_div_then.
  destruct (Req_dec_T b 0) as [Hb | Hb]; [| discriminate].
  destruct (Req_dec_T a 0); intros H; injection H as <-; auto.
Qed.

Lemma linspace_raises (start stop : R) (num : Z) (e : exn) :
  Py.linspace start stop num = Raise e -> (num < 0)%Z /\ e = ValueError.
Proof.
  unfold Py.linspace.
  destruct (num <? 0)%Z eqn:E; [| discriminate].
  intros H. injection H as <-. apply Z.ltb_lt in E. auto.
Qed.

Lemma getitem_raises {A : Type} (l : list A) (i : Z) (e : exn) :
  Py.getitem l i = Raise e -> e = IndexError.
Proof.
  unfold Py.getitem, Py.axis_index.
  destruct ((0 <=? i) && (i <? Z.of_nat (length l)))%Z; simpl.
  - destruct (nth_error l (Z.to_nat i)); [discriminate |].
    intros H. injection H as <-. reflexivity.
  - destruct ((- Z.of_nat (length l) <=? i) && (i <? 0))%Z; simpl.
    + destruct (nth_error l _); [discriminate |].
      intros H. injection H as <-. reflexivity.
    + intros H. injection H as <-. reflexivity.
Qed.

Lemma grid_lookup_raises (grid : OccGrid) (z x y : Z) (e : exn) :
  grid_lookup grid z x y = Raise e -> e = IndexError.
Proof.
  unfold grid_lookup.
  destruct (Py.getitem grid z) as [plane |] eqn:Ez; simpl;
    [| intros H; injection H as <-; exact (getitem_raises _ _ _ Ez)].
  destruct (Py.getitem plane x) as [row |] eqn:Ex; simpl;
    [| intros H; injection H as <-; exact (getitem_raises _ _ _ Ex)].
  apply getitem_raises.
Qed.

Lemma scan_samples_raises (spec : EnvSpec) (grid : OccGrid)
    (points : list (R * (R * R))) (e : exn) :
  cell_size spec <> 0 ->
  scan_samples spec grid points = Raise e -> e = IndexError.
Proof.
  intros Hc. induction points as [| [x [y z]] rest IH]; [discriminate |].
  rewrite scan_samples_step by exact Hc.
  destruct (grid_lookup _ _ _ _) as [v |] eqn:Ev; simpl.
  - destruct (v =? 0)%Z; [exact IH | discriminate].
  - intros H. injection H as <-. exact (grid_lookup_raises _ _ _ _ _ Ev).
Qed.

Lemma samples_at_least_one (spec : EnvSpec) (start end_ : Vec3) :
  0 < cell_size spec ->
  exists n, samples spec start end_ = Ok n /\ (1 <= n)%Z.
Proof.
  intros Hc. rewrite samples_count by lra.
  eexists. split; [reflexivity |].
  assert (H0 : 0 <= np_linalg_norm start end_ / cell_size spec).
  { unfold np_linalg_norm. apply Rmult_le_pos; [apply sqrt_pos |].
    left. apply Rinv_0_lt_compat. exact Hc. }
  pose proof (Zceil_le 0 _ H0) as H.
  replace (Zceil 0) with 0%Z in H.
  - unfold Py.math_ceil. lia.
  - symmetry. apply Zceil_eq. simpl. lra.
Qed.

Lemma check_env_raises (self : MOX) (start end_ : Vec3) (e : exn) :
  check_env_for_obstacle3D self start end_ = Raise e ->
  e = ValueError \/ e = OverflowError \/ e = IndexError.
Proof.
  unfold check_env_for_obstacle3D, sample_points, samples.
  destruct (Py.np_div_then Py.math_ceil _ _) as [n |] eqn:En; simpl obind.
  2:{ intros H. injection H as <-.
      destruct (np_div_then_raises _ _ _ _ En) as [_ [-> | ->]]; auto. }
  assert (Hc : cell_size (env_spec (setup self)) <> 0).
  { unfold Py.np_div_then in En.
    destruct (Req_dec_T (cell_size (env_spec (setup self))) 0); [| assumption].
    destruct (Req_dec_T _ 0); discriminate. }
  destruct (Py.linspace (c0 start) _ _) as [xs |] eqn:Ex; simpl obind.
  2:{ intros H. injection H as <-.
      destruct (linspace_raises _ _ _ _ Ex) as [_ ->]. auto. }
  destruct (Py.linspace (c1 start) _ _) as [ys |] eqn:Ey; simpl obind.
  2:{ intros H. injection H as <-.
      destruct (linspace_raises _ _ _ _ Ey) as [_ ->]. auto. }
  destruct (Py.linspace (c2 start) _ _) as [zs |] eqn:Ezs; simpl obind.
  2:{ intros H. injection H as <-.
      destruct (linspace_raises _ _ _ _ Ezs) as [_ ->]. auto. }
  intros H. right. right. exact (scan_samples_raises _ _ _ _ Hc H).
Qed.

Lemma math_pow_raises (x y : R) (e : exn) :
  Py.math_pow x y = Raise e -> e = ValueError /\ x <= 0.
Proof.
  unfold Py.math_pow.
  destruct (Rlt_dec 0 x); [discriminate |].
  destruct (Req_dec_T x 0).
  - destruct (Rlt_dec 0 y); [discriminate |].
    destruct (Req_dec_T y 0); [discriminate |].
    intros H. injection H as <-. split; [reflexivity | lra].
  - destruct (Py.as_integer y); [discriminate |].
    intros H. injection H as <-. split; [reflexivity | lra].
Qed.

Lemma steady_RS_R0_raises (cal : Calibration) (model gas : Z) (c : R) (e : exn) :
  steady_RS_R0 cal model gas c = Raise e -> e = ValueError /\ c < 0.
Proof.
  unfold steady_RS_R0.
  destruct (Req_dec_T c 0) as [Hc | Hc]; simpl; [discriminate |].
  destruct (Py.math_pow c _) as [p |] eqn:Ep; simpl; [discriminate |].
  intros H. injection H as <-.
  destruct (math_pow_raises _ _ _ Ep) as [-> Hle]. split; [reflexivity | lra].
Qed.

Lemma simulate_raises (cal : Calibration) (dt c : R) (self : MOX) (e : exn) :
  snd (simulate_mox_as_line_loglog cal dt c self) = Raise e ->
  fst (simulate_mox_as_line_loglog cal dt c self) = self
  /\ (e = ValueError \/ e = AttributeError \/ e = ZeroDivisionError).
Proof.
  unfold simulate_mox_as_line_loglog.
  destruct (first_reading self); [discriminate |].
  destruct (steady_RS_R0 _ _ _ _) as [rs |] eqn:Ers.
  2:{ simpl. intros H. injection H as <-.
      destruct (steady_RS_R0_raises _ _ _ _ _ Ers) as [-> _]. auto. }
  destruct (previous_sensor_output self).
  2:{ simpl. intros H. injection H as <-. auto. }
  unfold Py.fdiv. destruct (Req_dec_T _ 0); [| discriminate].
  simpl. intros H. injection H as <-. auto.
Qed.

Lemma emit_reading_raises (cal : Calibration) (dt : R) (self : MOX) (e : exn) :
  snd (emit_reading cal dt self) = Raise e ->
  fst (emit_reading cal dt self) = self
  /\ (e = ValueError \/ e = AttributeError \/ e = ZeroDivisionError).
Proof.
  unfold emit_reading, bind, assign, ret.
  pose proof (simulate_raises cal dt (gas_conc self) self) as H.
  destruct (simulate_mox_as_line_loglog cal dt (gas_conc self) self)
    as [m [rd | e']]; simpl in *; [discriminate |].
  intros E. injection E as <-. apply H. reflexivity.
Qed.

Lemma for_filaments_raises (loc : Vec3) (head : Header)
    (data : list Filament.t) :
  forall (self : MOX) (e : exn),
    snd (for_filaments loc head data self) = Raise e ->
    e = ValueError \/ e = OverflowError \/ e = IndexError.
Proof.
  induction data as [| fil rest IH]; intros self e; simpl.
  - discriminate.
  - unfold bind.
    destruct (add_filament loc head fil self) as [m [[] | e']] eqn:Ea.
    + apply IH.
    + simpl. intros H. injection H as <-.
      unfold add_filament in Ea.
      destruct (Rlt_dec _ _); [| discriminate].
      destruct (check_env_for_obstacle3D self loc (position fil))
        as [[|] | e''] eqn:Ec; try discriminate.
      injection Ea as _ <-. exact (check_env_raises _ _ _ _ Ec).
Qed.

Lemma refresh_same_reading (loc : Vec3) (self : MOX) :
  same_reading (fst (refresh_concentration loc self)) self.
Proof.
  unfold refresh_concentration, bind, assign, ret, load_gas_data.
  destruct (update_iter self =? 0)%Z; [| repeat split].
  simpl.
  destruct (fil_file _ _) as [data |]; [| repeat split].
  destruct (head_file _ _) as [head |]; [| repeat split].
  simpl.
  destruct (for_filaments_shape loc head data
              (set_gas_conc (log_load self (filament_iter self)) 0)) as [g Hg].
  destruct (for_filaments loc head data _) as [m [[] | e]]; simpl in *;
    subst m; repeat split.
Qed.

Lemma advanced_same_reading (self : MOX) (dt : R) :
  state (advanced self dt) = state self
  /\ sensor_output (advanced self dt) = sensor_output self
  /\ RS_R0 (advanced self dt) = RS_R0 self
  /\ first_reading (advanced self dt) = first_reading self
  /\ previous_sensor_output (advanced self dt) = previous_sensor_output self
  /\ time_tot (advanced self dt) = time_tot self + dt.
Proof.
  unfold advanced, advance.
  destruct (_ && _); [repeat split |].
  destruct (negb _); repeat split.
Qed.

Lemma bare_sensor_per_iter :
  updates_per_gas_iter (setup Example.bare_sensor) = 0%Z.
Proof. simpl. rewrite (int_eq 1); [reflexivity | lra]. Qed.

Lemma bare_sensor_first_tick_raises :
  snd (update Example.cal Example.origin (1 / 4) Example.bare_sensor)
  = Raise FileNotFoundError.
Proof.
  rewrite update_missing_file; [reflexivity | | left; reflexivity].
  unfold advanced. rewrite advance_next.
  - reflexivity.
  - change (0%Z = updates_per_gas_iter (setup Example.bare_sensor)).
    rewrite bare_sensor_per_iter. reflexivity.
  - simpl. lia.
Qed.

(** X3: a tick of [update] that raises leaves the last reading in place
    ([state], [sensor_output], [RS_R0]) and the filter memory untouched,
    but it has already added [dt] to the elapsed time and stepped the
    counters: calling [update] again does not repeat the tick. *)
Theorem failed_tick_keeps_reading (cal : Calibration) (loc : Vec3) (dt : R)
    (self : MOX) (e : exn) :
  snd (update cal loc dt self) = Raise e ->
  let self' := fst (update cal loc dt self) in
  state self' = state self
  /\ sensor_output self' = sensor_output self
  /\ RS_R0 self' = RS_R0 self
  /\ first_reading self' = first_reading self
  /\ previous_sensor_output self' = previous_sensor_output self
  /\ time_tot self' = time_tot self + dt
  /\ counters self'
     = scheduler_rule (iter_start (setup self)) (iter_stop (setup self))
         (updates_per_gas_iter (setup self)) (counters self).
Proof.
  intros Hraise self'.
  assert (Hc : counters self'
               = scheduler_rule (iter_start (setup self)) (iter_stop (setup self))
                   (updates_per_gas_iter (setup self)) (counters self))
    by apply (tick_counters cal self (loc, dt)).
  destruct (advanced_same_reading self dt) as (A1 & A2 & A3 & A4 & A5 & A6).
  destruct (refresh_same_reading loc (advanced self dt))
    as (R1 & R2 & R3 & R4 & R5 & R6).
  unfold self' in *. rewrite update_unfold in *.
  destruct (refresh_concentration loc (advanced self dt)) as [m [[] | e']].
  - destruct (emit_reading_raises cal dt m e Hraise) as [E _].
    rewrite E in *. simpl fst in *.
    rewrite R1, R2, R3, R4, R5, R6, A1, A2, A3, A4, A5, A6.
    repeat split. exact Hc.
  - simpl fst in *.
    rewrite R1, R2, R3, R4, R5, R6, A1, A2, A3, A4, A5, A6.
    repeat split. exact Hc.
Qed.

Lemma failed_tick_keeps_reading_witness :
  time_tot (fst (update Example.cal Example.origin (1 / 4) Example.bare_sensor))
  = time_tot Example.bare_sensor + 1 / 4.
Proof.
  apply (failed_tick_keeps_reading Example.cal Example.origin (1 / 4)
           Example.bare_sensor FileNotFoundError).
  exact bare_sensor_first_tick_raises.
Defined.

(** X4: [update] raises [FileNotFoundError] exactly when the tick leaves
    [update_iter = 0] and the filament file or the header file of the
    iteration it has moved to is missing; the concentration is then the one
    of the tick before, and nothing else in [update] raises that error. *)
Theorem missing_file_raises (cal : Calibration) (loc : Vec3) (dt : R)
    (self : MOX) :
  let a := advanced self dt in
  (snd (update cal loc dt self) = Raise FileNotFoundError
   <-> update_iter a = 0%Z
       /\ (fil_file (gas_data_dir (setup self)) (filament_iter a) = None
           \/ head_file (gas_data_dir (setup self)) (filament_iter a) = None))
  /\ (snd (update cal loc dt self) = Raise FileNotFoundError ->
      gas_conc (fst (update cal loc dt self)) = gas_conc self
      /\ filament_iter (fst (update cal loc dt self)) = filament_iter a).
Proof.
  intros a.
  assert (Hfwd : snd (update cal loc dt self) = Raise FileNotFoundError ->
                 update_iter a = 0%Z
                 /\ (fil_file (gas_data_dir (setup self)) (filament_iter a) = None
                     \/ head_file (gas_data_dir (setup self)) (filament_iter a)
                        = None)).
  { destruct (update_iter a =? 0)%Z eqn:Hu.
    - apply Z.eqb_eq in Hu.
      destruct (fil_file (gas_data_dir (setup self)) (filament_iter a))
        as [data |] eqn:Ef; [| intros _; split; [exact Hu | left; reflexivity]].
      destruct (head_file (gas_data_dir (setup self)) (filament_iter a))
        as [head |] eqn:Eh; [| intros _; split; [exact Hu | right; reflexivity]].
      rewrite update_unfold. fold a.
      rewrite (refresh_reloads loc a data head Hu)
        by (unfold a at 1; rewrite advanced_setup; assumption).
      pose proof (for_filaments_raises loc head data (set_gas_conc a 0)) as Hf.
      rewrite (for_filaments_sum loc head data a 0) in Hf. simpl snd in Hf.
      destruct (snd (summed_concentration a loc head data 0)) as [[] | e].
      + intros H.
        destruct (emit_reading_raises cal dt _ _ H) as [_ [E | [E | E]]];
          discriminate.
      + intros H. simpl in H. injection H as ->.
        destruct (Hf _ eq_refl) as [E | [E | E]]; discriminate.
    - apply Z.eqb_neq in Hu.
      rewrite update_unfold. fold a. rewrite (refresh_skip loc a Hu).
      intros H.
      destruct (emit_reading_raises cal dt a _ H) as [_ [E | [E | E]]];
        discriminate. }
  split.
  - split; [exact Hfwd |].
    intros [Hu Hmiss]. rewrite (update_missing_file cal loc dt self Hu Hmiss).
    reflexivity.
  - intros H. destruct (Hfwd H) as [Hu Hmiss].
    rewrite (update_missing_file cal loc dt self Hu Hmiss). simpl.
    split; [| reflexivity].
    unfold a, advanced.
    exact (proj2 (advance_loads (set_time_tot self (time_tot self + dt)))).
Qed.

Lemma missing_file_raises_witness :
  gas_conc (fst (update Example.cal Example.origin (1 / 4) Example.bare_sensor))
  = gas_conc Example.bare_sensor.
Proof.
  apply (proj2 (missing_file_raises Example.cal Example.origin (1 / 4)
                  Example.bare_sensor)).
  exact bare_sensor_first_tick_raises.
Defined.

(** ** Stopping at the start of an iteration *)









(** ** The puff formula *)

Lemma dist_SQR_nonneg (loc : Vec3) (fil : Filament.t) : 0 <= dist_SQR loc fil.
Proof.
  unfold dist_SQR.
  pose proof (pow2_ge_0 (c0 loc - Filament.x fil)).
  pose proof (pow2_ge_0 (c1 loc - Filament.y fil)).
  pose proof (pow2_ge_0 (c2 loc - Filament.z fil)).
  lra.
Qed.

Lemma concentration_closed_form (loc : Vec3) (fil : Filament.t) (head : Header) :
  concentration_from_filament loc fil head
  = filament_num_moles_of_gas head
    / (sqrt (8 * PI ^ 3) * Filament.sigma fil ^ 3)
    * exp (- (10000 * dist_SQR loc fil) / (2 * Filament.sigma fil ^ 2))
    / num_moles_all_gases_in_cm3 head * 1000000.
Proof.
  unfold concentration_from_filament.
  fold (dist_SQR loc fil).
  replace ((100 * sqrt (dist_SQR loc fil)) ^ 2)
    with (10000 * dist_SQR loc fil).
  - reflexivity.
  - rewrite Rpow_mult_distr, pow2_sqrt by apply dist_SQR_nonneg. lra.
Qed.

Lemma sqrt_8_pi_cubed_positive : 0 < sqrt (8 * PI ^ 3).
Proof.
  apply sqrt_lt_R0. pose proof PI_RGT_0 as Hpi.
  assert (H : 0 < PI ^ 3) by (apply pow_lt; exact Hpi). lra.
Qed.

(** ** What the visibility check returns *)

Lemma scan_samples_cons (spec : EnvSpec) (grid : OccGrid)
    (point : R * (R * R)) (rest : list (R * (R * R))) :
  scan_samples spec grid (point :: rest)
  = (v <- voxel_value spec grid point ;;
     if (v =? 0)%Z then scan_samples spec grid rest else Ok false)%out.
Proof.
  destruct point as [x [y z]]. simpl.
  destruct (voxel_index spec x _); [| reflexivity]. simpl.
  destruct (voxel_index spec y _); [| reflexivity]. simpl.
  destruct (voxel_index spec z _); reflexivity.
Qed.

Lemma scan_samples_true (spec : EnvSpec) (grid : OccGrid)
    (points : list (R * (R * R))) :
  scan_samples spec grid points = Ok true <-> Forall (free spec grid) points.
Proof.
  induction points as [| point rest IH].
  - split; [constructor | reflexivity].
  - rewrite scan_samples_cons. unfold free at 1.
    destruct (voxel_value spec grid point) as [v |] eqn:Ev; simpl.
    + destruct (v =? 0)%Z eqn:E.
      * apply Z.eqb_eq in E. subst v. rewrite IH. split.
        -- intros H. constructor; assumption.
        -- intros H. inversion H. assumption.
      * apply Z.eqb_neq in E. split; [discriminate |].
        intros H. inversion H as [| ? ? Hp _]. unfold free in Hp.
        rewrite Ev in Hp. injection Hp as ->. contradiction.
    + split; [discriminate |].
      intros H. inversion H as [| ? ? Hp _]. unfold free in Hp.
      rewrite Ev in Hp. discriminate.
Qed.

Lemma scan_samples_blocked (spec : EnvSpec) (grid : OccGrid)
    (before after : list (R * (R * R))) (point : R * (R * R)) (v : Z) :
  Forall (free spec grid) before ->
  voxel_value spec grid point = Ok v -> v <> 0%Z ->
  scan_samples spec grid (before ++ point :: after) = Ok false.
Proof.
  intros Hfree Hv Hnz. induction Hfree as [| p rest Hp _ IH]; simpl app.
  - rewrite scan_samples_cons, Hv. simpl.
    apply Z.eqb_neq in Hnz. rewrite Hnz. reflexivity.
  - rewrite scan_samples_cons. unfold free in Hp. rewrite Hp. simpl. exact IH.
Qed.

Lemma scan_samples_false (spec : EnvSpec) (grid : OccGrid)
    (points : list (R * (R * R))) :
  scan_samples spec grid points = Ok false ->
  exists before point after v,
    points = before ++ point :: after
    /\ Forall (free spec grid) before
    /\ voxel_value spec grid point = Ok v /\ v <> 0%Z.
Proof.
  induction points as [| point rest IH]; [discriminate |].
  rewrite scan_samples_cons.
  destruct (voxel_value spec grid point) as [v |] eqn:Ev; simpl; [| discriminate].
  destruct (v =? 0)%Z eqn:E.
  - apply Z.eqb_eq in E. subst v. intros H.
    destruct (IH H) as (before & p & after & w & -> & Hb & Hw & Hnz).
    exists (point :: before), p, after, w.
    repeat split; try assumption. constructor; assumption.
  - apply Z.eqb_neq in E. intros _.
    exists [], point, rest, v. repeat split; try assumption. constructor.
Qed.

(** X8: the visibility check answers [True] exactly when every sample point
    lands on a voxel holding 0, and [False] exactly when some sample lands
    on a voxel holding something else while all samples before it are
    free; it stops at that sample, so that samples after it are never
    looked up, not even those that would be out of bounds. *)
Theorem check_env_stops_at_first_obstacle (self : MOX) (start end_ : Vec3) :
  let spec := env_spec (setup self) in
  let grid := occ_grid (setup self) in
  (check_env_for_obstacle3D self start end_ = Ok true
   <-> exists points,
         sample_points spec start end_ = Ok points
         /\ Forall (free spec grid) points)
  /\ (check_env_for_obstacle3D self start end_ = Ok false
      <-> exists before point after v,
            sample_points spec start end_ = Ok (before ++ point :: after)
            /\ Forall (free spec grid) before
            /\ voxel_value spec grid point = Ok v /\ v <> 0%Z).
Proof.
  intros spec grid. unfold check_env_for_obstacle3D. fold spec. fold grid.
  destruct (sample_points spec start end_) as [points | e]; simpl obind.
  - split.
    + rewrite scan_samples_true. split.
      * intros H. exists points. split; [reflexivity | exact H].
      * intros (pts & E & H). injection E as ->. exact H.
    + split.
      * intros H.
        destruct (scan_samples_false spec grid points H)
          as (before & p & after & v & -> & Hb & Hv & Hnz).
        exists before, p, after, v. repeat split; assumption.
      * intros (before & p & after & v & E & Hb & Hv & Hnz).
        injection E as ->.
        exact (scan_samples_blocked spec grid before after p v Hb Hv Hnz).
  - split; split; try discriminate.
    + intros (pts & E & _). discriminate.
    + intros (before & p & after & v & E & _). discriminate.
Qed.

(** ** The sample points as a progression *)

Lemma combine_map_same {A B C : Type} (f : A -> B) (g : A -> C) (l : list A) :
  combine (map f l) (map g l) = map (fun a => (f a, g a)) l.
Proof.
  induction l as [| a l IH]; simpl; [reflexivity | rewrite IH; reflexivity].
Qed.

Lemma sample_points_progression (spec : EnvSpec) (a b : Vec3) (n : Z) :
  samples spec a b = Ok n -> (1 < n)%Z ->
  sample_points spec a b = Ok (map (sample_at a b n) (seq 0 (Z.to_nat n))).
Proof.
  intros Hn Hlt. unfold sample_points. rewrite Hn. simpl obind.
  rewrite !linspace_evenly_spaced by exact Hlt. simpl obind.
  rewrite combine_map_same, combine_map_same. reflexivity.
Qed.

Lemma sample_points_single (spec : EnvSpec) (a b : Vec3) :
  samples spec a b = Ok 1%Z ->
  sample_points spec a b = Ok [(c0 a, (c1 a, c2 a))].
Proof.
  intros Hn. unfold sample_points. rewrite Hn. cbn [obind].
  rewrite !linspace_one. reflexivity.
Qed.

Lemma norm_zero (a b : Vec3) :
  np_linalg_norm a b <= 0 ->
  c0 a = 0 /\ c1 a = 0 /\ c2 a = 0 /\ c0 b = 0 /\ c1 b = 0 /\ c2 b = 0.
Proof.
  unfold np_linalg_norm. intros H.
  pose proof (pow2_ge_0 (c0 a)). pose proof (pow2_ge_0 (c1 a)).
  pose proof (pow2_ge_0 (c2 a)). pose proof (pow2_ge_0 (c0 b)).
  pose proof (pow2_ge_0 (c1 b)). pose proof (pow2_ge_0 (c2 b)).
  set (s := c0 a ^ 2 + c1 a ^ 2 + c2 a ^ 2 + c0 b ^ 2 + c1 b ^ 2 + c2 b ^ 2) in *.
  assert (Hs : s = 0).
  { apply sqrt_eq_0; [unfold s; lra |].
    pose proof (sqrt_pos s). lra. }
  assert (Hz : forall x : R, x ^ 2 = 0 -> x = 0).
  { intros x Hx. simpl in Hx. rewrite Rmult_1_r in Hx.
    destruct (Rmult_integral _ _ Hx); assumption. }
  unfold s in Hs. repeat split; apply Hz; lra.
Qed.

Lemma samples_single_at_origin (spec : EnvSpec) (a b : Vec3) :
  0 < cell_size spec ->
  samples spec a b = Ok 1%Z ->
  c0 a = c0 b /\ c1 a = c1 b /\ c2 a = c2 b.
Proof.
  intros Hc. rewrite samples_count by lra. intros H. injection H as H.
  assert (Hceil : Zceil (np_linalg_norm a b / cell_size spec) = 0%Z)
    by (unfold Py.math_ceil in H; lia).
  destruct (Zceil_bound (np_linalg_norm a b / cell_size spec)) as [_ Hup].
  rewrite Hceil in Hup. simpl in Hup.
  assert (Hn : np_linalg_norm a b <= 0).
  { apply Rmult_le_reg_r with (/ cell_size spec);
      [apply Rinv_0_lt_compat; exact Hc |].
    rewrite Rmult_0_l. exact Hup. }
  destruct (norm_zero a b Hn) as (-> & -> & -> & -> & -> & ->).
  repeat split.
Qed.

(** ** Concentrations are never negative *)

Lemma concentration_positive (loc : Vec3) (fil : Filament.t) (head : Header) :
  0 < Filament.sigma fil ->
  0 < filament_num_moles_of_gas head ->
  0 < num_moles_all_gases_in_cm3 head ->
  0 < concentration_from_filament loc fil head.
Proof.
  intros Hsigma Hmoles Hall.
  rewrite concentration_closed_form.
  pose proof sqrt_8_pi_cubed_positive as Hs.
  assert (Hs3 : 0 < Filament.sigma fil ^ 3) by (apply pow_lt; exact Hsigma).
  apply Rmult_lt_0_compat; [| lra].
  apply Rdiv_lt_0_compat; [| exact Hall].
  apply Rmult_lt_0_compat; [| apply exp_pos].
  apply Rdiv_lt_0_compat; [exact Hmoles |].
  apply Rmult_lt_0_compat; assumption.
Qed.

Lemma summed_concentration_grows (self : MOX) (loc : Vec3) (head : Header)
    (data : list Filament.t) :
  positive_data data head ->
  forall acc : R, acc <= fst (summed_concentration self loc head data acc).
Proof.
  intros (Hm & Ht & Hs).
  induction Hs as [| fil rest Hfil _ IH]; intros acc; simpl; [lra |].
  destruct (Rlt_dec _ _); [| apply IH].
  destruct (check_env_for_obstacle3D self loc (position fil)) as [[|] | e].
  - pose proof (concentration_positive loc fil head Hfil Hm Ht).
    pose proof (IH (acc + concentration_from_filament loc fil head)). lra.
  - apply IH.
  - simpl. lra.
Qed.

Lemma refresh_keeps_nonnegative (loc : Vec3) (self : MOX) :
  wholesome (gas_data_dir (setup self)) ->
  0 <= gas_conc self ->
  0 <= gas_conc (fst (refresh_concentration loc self)).
Proof.
  intros Hw Hg.
  destruct (Z.eq_dec (update_iter self) 0) as [Hu | Hu];
    [| rewrite refresh_skip by exact Hu; exact Hg].
  destruct (fil_file (gas_data_dir (setup self)) (filament_iter self))
    as [data |] eqn:Ef.
  - destruct (head_file (gas_data_dir (setup self)) (filament_iter self))
      as [head |] eqn:Eh.
    + rewrite (refresh_reloads loc self data head Hu Ef Eh). simpl.
      apply (summed_concentration_grows self loc head data (Hw _ _ _ Ef Eh) 0).
    + unfold refresh_concentration, bind, load_gas_data.
      rewrite Hu. simpl. rewrite Ef, Eh. exact Hg.
  - unfold refresh_concentration, bind, load_gas_data.
    rewrite Hu. simpl. rewrite Ef. exact Hg.
Qed.

Lemma update_keeps_nonnegative (cal : Calibration) (loc : Vec3) (dt : R)
    (self : MOX) :
  wholesome (gas_data_dir (setup self)) ->
  0 <= gas_conc self ->
  0 <= gas_conc (fst (update cal loc dt self)).
Proof.
  intros Hw Hg. rewrite update_unfold.
  assert (Ha : 0 <= gas_conc (advanced self dt)).
  { unfold advanced.
    rewrite (proj2 (advance_loads (set_time_tot self (time_tot self + dt)))).
    exact Hg. }
  pose proof (refresh_keeps_nonnegative loc (advanced self dt)) as Hr.
  rewrite advanced_setup in Hr. specialize (Hr Hw Ha).
  destruct (refresh_concentration loc (advanced self dt)) as [m [[] | e]];
    simpl in *; [| exact Hr].
  destruct (emit_reading_schedule cal dt m) as [_ ->]. exact Hr.
Qed.

(** X12: over gas data with positive amounts and positive spreads, the
    concentration held by the sensor is never negative: no tick of
    [update], whether it returns or raises, and no [stop] makes it so,
    starting from a sensor that holds none. *)
Theorem gas_conc_is_never_negative (cal : Calibration) (self0 self : MOX) :
  wholesome (gas_data_dir (setup self0)) ->
  0 <= gas_conc self0 ->
  reachable cal self0 self ->
  0 <= gas_conc self
  /\ 0 <= gas_conc (stop self)
  /\ forall (loc : Vec3) (dt : R) (reading : R * R * R),
       snd (update cal loc dt self) = Ok reading ->
       0 <= reading_gas_conc reading.
Proof.
  intros Hw Hg Hr.
  assert (Hinv : 0 <= gas_conc self).
  { induction Hr as [| self input Hr IH]; [exact Hg |].
    unfold tick. apply update_keeps_nonnegative; [| exact IH].
    rewrite (reachable_setup cal self0 self Hr). exact Hw. }
  split; [exact Hinv |]. split; [simpl; lra |].
  intros loc dt reading Hret.
  assert (Hnext : 0 <= gas_conc (fst (update cal loc dt self))).
  { apply update_keeps_nonnegative; [| exact Hinv].
    rewrite (reachable_setup cal self0 self Hr). exact Hw. }
  rewrite update_unfold in Hret, Hnext.
  destruct (refresh_concentration loc (advanced self dt)) as [m [[] | e]];
    simpl in *; [| discriminate].
  destruct (emit_reading_state cal dt m reading Hret) as [-> _].
  destruct (emit_reading_schedule cal dt m) as [_ E]. rewrite <- E. exact Hnext.
Qed.

Lemma example_dir_wholesome : wholesome Example.dir.
Proof.
  intros n data head Hd Hh. simpl in Hd, Hh.
  injection Hd as <-. injection Hh as <-.
  unfold positive_data. simpl.
  repeat split; try lra. constructor; [simpl; lra | constructor].
Qed.

Lemma gas_conc_is_never_negative_witness :
  0 <= gas_conc (tick Example.cal Example.sensor Example.input).
Proof.
  apply (gas_conc_is_never_negative Example.cal Example.sensor
           (tick Example.cal Example.sensor Example.input)).
  - exact example_dir_wholesome.
  - simpl. lra.
  - apply reach_tick, reach_init.
Defined.

(** ** Elapsed time *)

Lemma tick_time_tot (cal : Calibration) (self : MOX) (input : Vec3 * R) :
  time_tot (tick cal self input) = time_tot self + snd input.
Proof.
  unfold tick. rewrite update_unfold.
  destruct (advanced_same_reading self (snd input)) as (_ & _ & _ & _ & _ & A).
  destruct (refresh_same_reading (fst input) (advanced self (snd input)))
    as (_ & _ & _ & _ & _ & B).
  destruct (refresh_concentration (fst input) (advanced self (snd input)))
    as [m [[] | e]]; simpl in *; [| congruence].
  unfold emit_reading, bind, assign, ret.
  assert (S : forall c, time_tot (fst (simulate_mox_as_line_loglog cal
                                        (snd input) c m)) = time_tot m).
  { intros c. unfold simulate_mox_as_line_loglog.
    destruct (first_reading m); [reflexivity |].
    destruct (steady_RS_R0 _ _ _ _); [| reflexivity].
    destruct (previous_sensor_output m); [| reflexivity].
    destruct (Py.fdiv _ _); reflexivity. }
  specialize (S (gas_conc m)).
  destruct (simulate_mox_as_line_loglog cal (snd input) (gas_conc m) m)
    as [m' [rd | e]]; simpl in *; congruence.
Qed.

(** X15: [time_tot] is the sum of the [dt] of all ticks since construction
    or the last [stop], the ticks that raised included. *)
Theorem time_tot_counts_every_tick (cal : Calibration) (self : MOX)
    (inputs : list (Vec3 * R)) :
  time_tot (ticks cal self inputs) = time_tot self + elapsed inputs
  /\ time_tot (ticks cal (stop self) inputs) = elapsed inputs.
Proof.
  assert (H : forall s : MOX,
             time_tot (ticks cal s inputs) = time_tot s + elapsed inputs).
  { induction inputs as [| input rest IH]; intros s; simpl.
    - lra.
    - change (time_tot (ticks cal (tick cal s input) rest)
              = time_tot s + (snd input + elapsed rest)).
      rewrite IH, tick_time_tot. lra. }
  split; [apply H |].
  rewrite H. simpl. lra.
Qed.

(** ** Where the samples fall *)

Lemma lerp_first (s e : R) (n : Z) : lerp s e n 0 = s.
Proof. unfold lerp. simpl. ring. Qed.

Lemma lerp_last (s e : R) (n : Z) :
  (1 < n)%Z -> lerp s e n (Z.to_nat n - 1) = e.
Proof.
  intros Hn. unfold lerp.
  replace (Z.of_nat (Z.to_nat n - 1)) with (n - 1)%Z by lia.
  field. apply not_0_IZR. lia.
Qed.

Lemma lerp_step (s e : R) (n : Z) (k : nat) :
  lerp s e n (S k) - lerp s e n k = (e - s) / IZR (n - 1).
Proof.
  unfold lerp. rewrite Nat2Z.inj_succ, succ_IZR. unfold Rdiv. ring.
Qed.

Lemma norm_squared (a b : Vec3) :
  np_linalg_norm a b ^ 2
  = c0 a ^ 2 + c1 a ^ 2 + c2 a ^ 2 + c0 b ^ 2 + c1 b ^ 2 + c2 b ^ 2.
Proof.
  unfold np_linalg_norm. apply pow2_sqrt.
  pose proof (pow2_ge_0 (c0 a)). pose proof (pow2_ge_0 (c1 a)).
  pose proof (pow2_ge_0 (c2 a)). pose proof (pow2_ge_0 (c0 b)).
  pose proof (pow2_ge_0 (c1 b)). pose proof (pow2_ge_0 (c2 b)). lra.
Qed.

Lemma difference_squared_bound (x y : R) : (y - x) ^ 2 <= 2 * (x ^ 2 + y ^ 2).
Proof. pose proof (pow2_ge_0 (x + y)). simpl in *. lra. Qed.

(** X17: with a positive cell size the check takes at least one sample; the
    samples are the points [start + k (end - start) / (n - 1)] in order,
    the first one is [start] and the last one is [end]; and two
    consecutive samples are never further apart than [sqrt 2] cells
    (their squared distance is at most [2 * cell_size ^ 2]). *)
Theorem samples_cover_the_segment (spec : EnvSpec) (a b : Vec3) :
  0 < cell_size spec ->
  exists (n : Z) (points : list (R * (R * R))),
    samples spec a b = Ok n
    /\ (1 <= n)%Z
    /\ sample_points spec a b = Ok points
    /\ length points = Z.to_nat n
    /\ hd_error points = Some (c0 a, (c1 a, c2 a))
    /\ last points (0, (0, 0)) = (c0 b, (c1 b, c2 b))
    /\ (forall k : nat,
          (k < Z.to_nat n)%nat ->
          (1 < n)%Z ->
          nth_error points k = Some (sample_at a b n k))
    /\ (forall k : nat,
          (S k < Z.to_nat n)%nat ->
          step_SQR (sample_at a b n k) (sample_at a b n (S k))
          <= 2 * cell_size spec ^ 2).
Proof.
  intros Hc.
  destruct (samples_at_least_one spec a b Hc) as (n & Hn & H1).
  destruct (Z.eq_dec n 1) as [-> | Hne].
  - exists 1%Z, [(c0 a, (c1 a, c2 a))].
    destruct (samples_single_at_origin spec a b Hc Hn) as (E0 & E1 & E2).
    split; [exact Hn |]. split; [lia |].
    split; [exact (sample_points_single spec a b Hn) |].
    split; [reflexivity |]. split; [reflexivity |].
    split; [simpl; rewrite E0, E1, E2; reflexivity |].
    split; [intros k _ Hk; lia | intros k Hk; simpl in Hk; lia].
  - assert (Hlt : (1 < n)%Z) by lia.
    exists n, (map (sample_at a b n) (seq 0 (Z.to_nat n))).
    split; [exact Hn |]. split; [exact H1 |].
    split; [exact (sample_points_progression spec a b n Hn Hlt) |].
    split; [rewrite length_map, length_seq; reflexivity |].
    assert (Hnat : Z.to_nat n = S (Z.to_nat n - 1)) by lia.
    split.
    { rewrite Hnat. simpl. unfold sample_at. rewrite !lerp_first. reflexivity. }
    split.
    { rewrite Hnat at 1. rewrite seq_S, map_app.
      change (map ?f [?x]) with [f x]. rewrite last_last.
      simpl. unfold sample_at. rewrite !lerp_last by exact Hlt. reflexivity. }
    split.
    { intros k Hk _.
      rewrite nth_error_map, nth_error_seq.
      destruct (Nat.ltb_spec k (Z.to_nat n)); [reflexivity | lia]. }
    intros k Hk. unfold step_SQR, sample_at. simpl fst. simpl snd.
    rewrite !lerp_step.
    set (m := IZR (n - 1)).
    assert (Hm : 0 < m) by (apply IZR_lt; lia).
    assert (Hceil : np_linalg_norm a b <= m * cell_size spec).
    { rewrite samples_count in Hn by lra. injection Hn as Hn.
      destruct (Zceil_bound (np_linalg_norm a b / cell_size spec)) as [_ Hup].
      unfold Py.math_ceil in Hn.
      replace (Zceil (np_linalg_norm a b / cell_size spec)) with (n - 1)%Z
        in Hup by lia.
      fold m in Hup.
      apply Rmult_le_compat_r with (r := cell_size spec) in Hup; [| lra].
      unfold Rdiv in Hup. rewrite Rmult_assoc, Rinv_l, Rmult_1_r in Hup by lra.
      exact Hup. }
    assert (Hnorm0 : 0 <= np_linalg_norm a b)
      by (unfold np_linalg_norm; apply sqrt_pos).
    assert (Hsq : np_linalg_norm a b ^ 2 <= (m * cell_size spec) ^ 2)
      by (apply pow_incr; lra).
    rewrite norm_squared in Hsq.
    pose proof (difference_squared_bound (c0 a) (c0 b)) as D0.
    pose proof (difference_squared_bound (c1 a) (c1 b)) as D1.
    pose proof (difference_squared_bound (c2 a) (c2 b)) as D2.
    assert (Hd : (c0 b - c0 a) ^ 2 + (c1 b - c1 a) ^ 2 + (c2 b - c2 a) ^ 2
                 <= 2 * (m * cell_size spec) ^ 2) by lra.
    replace (((c0 b - c0 a) / m) ^ 2 + ((c1 b - c1 a) / m) ^ 2
             + ((c2 b - c2 a) / m) ^ 2)
      with (((c0 b - c0 a) ^ 2 + (c1 b - c1 a) ^ 2 + (c2 b - c2 a) ^ 2)
            * / (m ^ 2)) by (field; lra).
    apply Rmult_le_reg_r with (m ^ 2); [apply pow_lt; exact Hm |].
    rewrite Rmult_assoc, Rinv_l by (apply pow_nonzero; lra).
    rewrite Rmult_1_r.
    replace (2 * cell_size spec ^ 2 * m ^ 2)
      with (2 * (m * cell_size spec) ^ 2) by ring.
    exact Hd.
Qed.

Lemma samples_cover_the_segment_witness :
  exists (n : Z) (points : list (R * (R * R))),
    samples Example.spec Example.p3 Example.p4 = Ok n
    /\ sample_points Example.spec Example.p3 Example.p4 = Ok points
    /\ last points (0, (0, 0)) = (4, (0, 0)).
Proof.
  destruct (samples_cover_the_segment Example.spec Example.p3 Example.p4)
    as (n & points & H1 & _ & H3 & _ & _ & H6 & _).
  - simpl. lra.
  - exists n, points. split; [exact H1 |]. split; [exact H3 | exact H6].
Defined.

(** ** The results files of the benchmark *)

Module BenchmarkFacts.

Import String.

Lemma list_ascii_of_append (a b : string) :
  list_ascii_of_string (a ++ b)
  = (list_ascii_of_string a ++ list_ascii_of_string b)%list.
Proof.
  induction a as [| c a IH]; simpl; [reflexivity | rewrite IH; reflexivity].
Qed.

Lemma list_ascii_of_string_inj (a b : string) :
  list_ascii_of_string a = list_ascii_of_string b -> a = b.
Proof.
  intros H.
  rewrite <- (string_of_list_ascii_of_string a),
          <- (string_of_list_ascii_of_string b), H.
  reflexivity.
Qed.

Lemma append_cancel (prefix suffix x y : string) :
  (prefix ++ x ++ suffix)%string = (prefix ++ y ++ suffix)%string -> x = y.
Proof.
  intros H. apply (f_equal list_ascii_of_string) in H.
  rewrite !list_ascii_of_append in H.
  apply app_inv_head, app_inv_tail in H.
  apply list_ascii_of_string_inj. exact H.
Qed.

Lemma str_inj (i j : nat) : Benchmark.str i = Benchmark.str j -> i = j.
Proof.
  unfold Benchmark.str. intros H.
  apply DecimalNat.Unsigned.to_uint_inj.
  apply (f_equal DecimalString.NilEmpty.uint_of_string) in H.
  rewrite !DecimalString.NilEmpty.usu in H.
  injection H as H. exact H.
Qed.

Lemma results_file_of_run_inj (curr_dir exp_id : string) (i j : nat) :
  Benchmark.results_file curr_dir exp_id
    (exp_id ++ "_ecoli_" ++ Benchmark.str i)%string
  = Benchmark.results_file curr_dir exp_id
      (exp_id ++ "_ecoli_" ++ Benchmark.str j)%string ->
  i = j.
Proof.
  unfold Benchmark.results_file. intros H.
  apply str_inj.
  apply (append_cancel
           (curr_dir ++ "/results/" ++ exp_id ++ "/" ++ exp_id ++ "_ecoli_")%string
           ".npz"%string).
  apply (f_equal list_ascii_of_string) in H.
  apply list_ascii_of_string_inj.
  rewrite !list_ascii_of_append in *.
  rewrite <- !app_assoc in *. exact H.
Qed.

(** X18: the benchmark names ten results files, one per run and in the
    order of the runs, [<curr_dir>/results/<exp_id>/<exp_id>_ecoli_<i>.npz]
    for [i] from 0 to 9; whatever the experiment id and the directory they
    are pairwise different, so that no run writes over the statistics of
    another. *)
Theorem results_files_are_distinct (curr_dir exp_id : string) :
  Datatypes.length (Benchmark.results_files curr_dir exp_id) = 10%nat
  /\ NoDup (Benchmark.results_files curr_dir exp_id)
  /\ forall i : nat,
       (i < 10)%nat ->
       nth_error (Benchmark.results_files curr_dir exp_id) i
       = Some (curr_dir ++ "/results/" ++ exp_id ++ "/"
               ++ (exp_id ++ "_ecoli_" ++ Benchmark.str i) ++ ".npz")%string.
Proof.
  unfold Benchmark.results_files, Benchmark.statistics. rewrite map_map.
  split; [rewrite length_map, length_seq; reflexivity |]. split.
  - apply Finite.Injective_map_NoDup_in; [| apply seq_NoDup].
    intros i j _ _ H. exact (results_file_of_run_inj curr_dir exp_id i j H).
  - intros i Hi. rewrite nth_error_map, nth_error_seq.
    destruct (Nat.ltb_spec i Benchmark.runs) as [_ | Hge];
      [reflexivity | unfold Benchmark.runs in Hge; lia].
Qed.

End BenchmarkFacts.

(** ** The stop iteration found in the directory *)

Module DiscoveryFacts.

Import String Ascii.
Import Discovery.

Lemma digits_of_append (a b : string) :
  digits_of (a ++ b) = (digits_of a ++ digits_of b)%string.
Proof.
  induction a as [| c a IH]; simpl; [reflexivity |].
  destruct (isdigit c); simpl; rewrite IH; reflexivity.
Qed.

Lemma digits_of_numeral (d : Decimal.uint) :
  digits_of (DecimalString.NilEmpty.string_of_uint d)
  = DecimalString.NilEmpty.string_of_uint d.
Proof.
  induction d; simpl; try reflexivity; rewrite IHd; reflexivity.
Qed.

Lemma take_digits_numeral (d : Decimal.uint) (rest : string) :
  take_digits rest = EmptyString ->
  take_digits (DecimalString.NilEmpty.string_of_uint d ++ rest)
  = DecimalString.NilEmpty.string_of_uint d.
Proof.
  intros Hrest. induction d; simpl; try exact Hrest; rewrite IHd; reflexivity.
Qed.

Lemma to_uint_not_nil (n : nat) : Nat.to_uint n <> Decimal.Nil.
Proof.
  rewrite <- (DecimalNat.Unsigned.of_to n) at 1.
  rewrite DecimalNat.Unsigned.to_of. unfold Decimal.unorm.
  destruct (Decimal.nzhead (Nat.to_uint n)); discriminate.
Qed.

Lemma decimal_not_empty (n : nat) :
  exists c rest, decimal n = String c rest /\ isdigit c = true.
Proof.
  unfold decimal. pose proof (to_uint_not_nil n) as H.
  destruct (Nat.to_uint n); try contradiction; simpl;
    eexists; eexists; split; reflexivity.
Qed.

Lemma int_decimal (n : nat) : int (decimal n) = Ok n.
Proof.
  destruct (decimal_not_empty n) as (c & rest & E & _).
  unfold int. rewrite E. rewrite <- E. unfold decimal.
  rewrite DecimalString.NilEmpty.usu, DecimalNat.Unsigned.of_to. reflexivity.
Qed.

Lemma key_named (f : string) (n : nat) : named f n -> key f = Ok n.
Proof.
  unfold key. intros [-> | ->]; rewrite !digits_of_append;
    unfold decimal at 1; rewrite digits_of_numeral; fold (decimal n); simpl;
    (replace (decimal n ++ "")%string with (decimal n);
     [apply int_decimal |]);
    clear; induction (decimal n); simpl; congruence.
Qed.

Lemma first_digit_run_named (f : string) (n : nat) :
  named f n -> first_digit_run f = Ok (decimal n).
Proof.
  destruct (decimal_not_empty n) as (c & rest & E & Hc).
  assert (Hrun : forall suffix : string,
             take_digits suffix = EmptyString ->
             first_digit_run ("iteration_" ++ decimal n ++ suffix)
             = Ok (decimal n)).
  { intros suffix Hs. simpl.
    pose proof (take_digits_numeral (Nat.to_uint n) suffix Hs) as Ht.
    fold (decimal n) in Ht. rewrite E in *. simpl in *.
    rewrite Hc in *. injection Ht as Ht. rewrite Ht. reflexivity. }
  intros [-> | ->]; apply Hrun; reflexivity.
Qed.

Lemma keyed_named (files : list string) :
  Forall (fun f => exists n, named f n) files ->
  exists pairs,
    keyed files = Ok pairs
    /\ map snd pairs = files
    /\ Forall (fun p => named (snd p) (fst p)) pairs.
Proof.
  induction 1 as [| f rest [n Hn] _ (pairs & E & Hs & Hp)].
  - exists []. repeat split. constructor.
  - exists ((n, f) :: pairs). simpl.
    rewrite (key_named f n Hn), E. simpl. rewrite Hs.
    repeat split. constructor; assumption.
Qed.

Lemma insert_contents (x : nat * string) (l : list (nat * string))
    (p : nat * string) :
  In p (insert x l) <-> p = x \/ In p l.
Proof.
  induction l as [| y l IH]; simpl.
  - split; intros [H | H]; auto; contradiction.
  - destruct (fst x <=? fst y)%nat; simpl; [intuition congruence |].
    rewrite IH. intuition congruence.
Qed.

Lemma sort_contents (l : list (nat * string)) (p : nat * string) :
  In p (sort_by_key l) <-> In p l.
Proof.
  induction l as [| x l IH]; simpl; [reflexivity |].
  rewrite insert_contents, IH. intuition congruence.
Qed.

Lemma insert_not_nil (x : nat * string) (l : list (nat * string)) :
  insert x l <> [].
Proof. destruct l as [| y l]; simpl; [| destruct (_ <=? _)%nat]; discriminate. Qed.

Lemma tops_tail (y : nat * string) (l : list (nat * string)) :
  tops (y :: l) -> l <> [] -> tops l.
Proof.
  intros H Hne d p Hp. specialize (H d p (or_intror Hp)).
  destruct l as [| z l]; [contradiction | exact H].
Qed.

Lemma insert_tops (x : nat * string) (l : list (nat * string)) :
  tops l -> tops (insert x l).
Proof.
  induction l as [| y l IH]; intros Ht; simpl.
  - intros d p [<- | []]. simpl. lia.
  - destruct (fst x <=? fst y)%nat eqn:E.
    + apply Nat.leb_le in E. intros d p Hp.
      change (last (x :: y :: l) d) with (last (y :: l) d).
      destruct Hp as [<- | Hp]; [| exact (Ht d p Hp)].
      pose proof (Ht d y (or_introl eq_refl)). lia.
    + apply Nat.leb_gt in E. intros d p Hp.
      assert (Hlast : last (y :: insert x l) d = last (insert x l) d).
      { simpl. destruct (insert x l) eqn:Ei; [| reflexivity].
        destruct (insert_not_nil x l Ei). }
      rewrite Hlast.
      destruct l as [| z l].
      * simpl in *. destruct Hp as [<- | [<- | []]]; lia.
      * assert (Ht' : tops (z :: l)) by (apply (tops_tail y); [exact Ht | discriminate]).
        specialize (IH Ht').
        destruct Hp as [<- | Hp]; [| exact (IH d p Hp)].
        assert (Hy : (fst y <= fst (last (z :: l) d))%nat)
          by exact (Ht d y (or_introl eq_refl)).
        assert (Hin : In (last (z :: l) d) (insert x (z :: l))).
        { apply insert_contents. right.
          destruct (exists_last (l := z :: l)) as (l' & a & El); [discriminate |].
          rewrite El, last_last. apply in_or_app. right. left. reflexivity. }
        pose proof (IH d _ Hin). lia.
Qed.

Lemma sort_tops (l : list (nat * string)) : tops (sort_by_key l).
Proof.
  induction l as [| x l IH]; simpl.
  - intros d p [].
  - apply insert_tops. exact IH.
Qed.

Lemma last_of_map {A B : Type} (f : A -> B) (l : list A) (d : A) :
  last (map f l) (f d) = f (last l d).
Proof.
  induction l as [| a l IH]; [reflexivity |].
  destruct l as [| b l]; [reflexivity |]. exact IH.
Qed.

Lemma last_file_last (names : list string) (d : string) :
  names <> [] -> last_file names = Ok (last names d).
Proof.
  intros Hne. unfold last_file.
  destruct (exists_last Hne) as (l & a & ->).
  rewrite rev_app_distr, last_last. reflexivity.
Qed.

(** X19: when [gas_data_stop_iter] is 0 and the directory holds, in any
    order, at least one file and only files named [iteration_<n>_fil.npy]
    or [iteration_<n>_head.npy], the stop iteration that [__init__]
    derives is the greatest [n] among them.  An empty directory raises
    [IndexError], a file name without any digit raises [ValueError], and a
    non-zero [gas_data_stop_iter] is taken as it is, the directory not
    being looked at. *)
Theorem discovered_stop_is_the_last_iteration (files : list string) :
  (files <> [] ->
   Forall (fun f => exists n, named f n) files ->
   exists m : nat,
     configured_iter_stop 0 files = Ok (Z.of_nat m)
     /\ (exists f, In f files /\ named f m)
     /\ (forall (f : string) (n : nat),
           In f files -> named f n -> (n <= m)%nat))
  /\ configured_iter_stop 0 [] = Raise IndexError
  /\ (forall f : string,
        digits_of f = EmptyString ->
        configured_iter_stop 0 (f :: files) = Raise ValueError)
  /\ (forall stop : Z,
        stop <> 0%Z -> configured_iter_stop stop files = Ok stop).
Proof.
  split; [| split; [reflexivity | split]].
  - intros Hne Hnamed.
    destruct (keyed_named files Hnamed) as (pairs & Ek & Hs & Hp).
    assert (Hpne : sort_by_key pairs <> []).
    { destruct pairs as [| x pairs]; [subst files; contradiction |].
      simpl. apply insert_not_nil. }
    set (top := last (sort_by_key pairs) (0%nat, EmptyString)).
    assert (Htop : In top (sort_by_key pairs)).
    { unfold top. destruct (exists_last Hpne) as (l & a & ->).
      rewrite last_last. apply in_or_app. right. left. reflexivity. }
    assert (Htop' : In top pairs) by (apply sort_contents; exact Htop).
    assert (Hname : named (snd top) (fst top)).
    { rewrite Forall_forall in Hp. exact (Hp top Htop'). }
    exists (fst top).
    split.
    + unfold configured_iter_stop, discover_iter_stop. simpl Z.eqb. cbv iota.
      rewrite Ek. cbn [obind].
      rewrite (last_file_last _ EmptyString)
        by (intros E; apply map_eq_nil in E; contradiction).
      change EmptyString with (snd (0%nat, EmptyString)).
      rewrite last_of_map. fold top. cbn [obind].
      rewrite (first_digit_run_named _ _ Hname). cbn [obind].
      rewrite int_decimal. reflexivity.
    + split.
      * exists (snd top). split; [| exact Hname].
        rewrite <- Hs. apply in_map. exact Htop'.
      * intros f n Hin Hn.
        rewrite <- Hs in Hin. apply in_map_iff in Hin.
        destruct Hin as (p & <- & Hin).
        rewrite Forall_forall in Hp. pose proof (Hp p Hin) as Hpn.
        assert (E : n = fst p).
        { pose proof (key_named _ _ Hn) as K1.
          pose proof (key_named _ _ Hpn) as K2. congruence. }
        subst n.
        exact (sort_tops pairs (0%nat, EmptyString) p
                 (proj2 (sort_contents pairs p) Hin)).
  - intros f Hf. unfold configured_iter_stop, discover_iter_stop. simpl.
    unfold key. rewrite Hf. reflexivity.
  - intros stop Hstop. unfold configured_iter_stop.
    apply Z.eqb_neq in Hstop. rewrite Hstop. reflexivity.
Qed.

Lemma discovered_stop_is_the_last_iteration_witness :
  exists m : nat,
    configured_iter_stop 0
      ["iteration_9_fil.npy"; "iteration_10_head.npy"; "iteration_10_fil.npy";
       "iteration_9_head.npy"]%string
    = Ok (Z.of_nat m)
    /\ (forall (f : string) (n : nat),
          In f ["iteration_9_fil.npy"; "iteration_10_head.npy";
                "iteration_10_fil.npy"; "iteration_9_head.npy"]%string ->
          named f n -> (n <= m)%nat).
Proof.
  destruct (proj1 (discovered_stop_is_the_last_iteration
                     ["iteration_9_fil.npy"; "iteration_10_head.npy";
                      "iteration_10_fil.npy"; "iteration_9_head.npy"]%string))
    as (m & H1 & _ & H3).
  - discriminate.
  - repeat constructor.
    + exists 9%nat. left. reflexivity.
    + exists 10%nat. right. reflexivity.
    + exists 10%nat. left. reflexivity.
    + exists 9%nat. right. reflexivity.
  - exists m. split; [exact H1 | exact H3].
Defined.

End DiscoveryFacts.

(** * The binary64 code: the range test and the voxel lookup *)

Module DoubleFacts.

Import PrimFloat SpecFloat FloatOps FloatAxioms.

(** ** Comparisons and floors of doubles *)

Lemma SFcompare_antisym (a b : spec_float) :
  SFcompare b a = option_map CompOpp (SFcompare a b).
Proof.
  destruct a as [sa | sa | | sa ma ea], b as [sb | sb | | sb mb eb]; simpl;
    try reflexivity;
    try (destruct sa; reflexivity); try (destruct sb; reflexivity);
    try (destruct sa, sb; reflexivity).
  destruct sa, sb; simpl; try reflexivity;
    rewrite (Z.compare_antisym ea eb);
    destruct (ea ?= eb)%Z; simpl; try reflexivity;
    pose proof (Pos.compare_antisym ma mb) as H; unfold Pos.compare in H;
    rewrite H; destruct (Pos.compare_cont Eq ma mb); reflexivity.
Qed.

Lemma leb_not_ltb (x y : float) :
  (y <=? x)%float = true -> (x <? y)%float = false.
Proof.
  rewrite leb_spec, ltb_spec. unfold SFleb, SFltb.
  rewrite (SFcompare_antisym (Prim2SF y) (Prim2SF x)).
  destruct (SFcompare (Prim2SF y) (Prim2SF x)) as [[| |] |]; simpl;
    intros H; try reflexivity; discriminate.
Qed.

Lemma Prim2SF_zero : Prim2SF 0%float = S754_zero false.
Proof. vm_compute. reflexivity. Qed.

Lemma floor_of_negative (q : float) (i : Z) :
  (q <? 0)%float = true -> Double.math_floor q = Ok i -> (i < 0)%Z.
Proof.
  rewrite ltb_spec, Prim2SF_zero. unfold Double.math_floor, SFltb.
  destruct (Prim2SF q) as [s | s | | s m e]; simpl; try discriminate.
  destruct s; [| discriminate].
  intros _ H. injection H as <-.
  apply Z.shiftl_neg. reflexivity.
Qed.

(** ** The loop over the samples *)

Lemma scan_samples_next (env : Double.Env) (point : float * (float * float))
    (rest : list (float * (float * float))) :
  Double.scan_samples (Double.env_spec env) (Double.occ_grid env) (point :: rest)
  = (v <- Double.voxel_value env point ;;
     if (v =? 0)%Z
     then Double.scan_samples (Double.env_spec env) (Double.occ_grid env) rest
     else Ok false)%out.
Proof.
  destruct point as [x [y z]].
  unfold Double.voxel_value, Double.indices. simpl.
  destruct (Double.voxel_index _ x _); simpl; [| reflexivity].
  destruct (Double.voxel_index _ y _); simpl; [| reflexivity].
  destruct (Double.voxel_index _ z _); simpl; reflexivity.
Qed.

Lemma scan_samples_free_prefix (env : Double.Env)
    (before rest : list (float * (float * float))) :
  Forall (fun q => Double.voxel_value env q = Ok 0%Z) before ->
  Double.scan_samples (Double.env_spec env) (Double.occ_grid env) (before ++ rest)
  = Double.scan_samples (Double.env_spec env) (Double.occ_grid env) rest.
Proof.
  induction 1 as [| q before Hq _ IH]; [reflexivity |].
  rewrite <- app_comm_cons, scan_samples_next, Hq. exact IH.
Qed.

(** ** Indexing a box-shaped grid *)

Lemma getitem_wrapped {A : Type} (l : list A) (n i : Z) :
  Z.of_nat (length l) = n ->
  (- n <= i < n)%Z ->
  exists a, nth_error l (Z.to_nat (Double.wrapped n i)) = Some a
            /\ Py.getitem l i = Ok a.
Proof.
  intros Hn Hi. subst n. unfold Double.wrapped.
  destruct (i <? 0)%Z eqn:E.
  - apply Z.ltb_lt in E.
    destruct (getitem_negative l i) as (a & Ha & Hb); [lia |].
    destruct (getitem_inside l (i + Z.of_nat (length l))) as (b & Hn & Hb');
      [lia |].
    exists a. split; [| exact Ha]. rewrite Hn. congruence.
  - apply Z.ltb_ge in E. apply getitem_inside. lia.
Qed.

Lemma shaped_plane (grid : OccGrid) (nz nx ny : Z) (k : nat)
    (plane : list (list Z)) :
  shaped grid nz nx ny -> nth_error grid k = Some plane ->
  Z.of_nat (length plane) = nx
  /\ forall (i : nat) (row : list Z),
       nth_error plane i = Some row -> Z.of_nat (length row) = ny.
Proof.
  intros [_ Hs] Hk.
  apply nth_error_In in Hk.
  rewrite Forall_forall in Hs. destruct (Hs plane Hk) as [Hx Hrows].
  split; [exact Hx |].
  intros i row Hi. apply nth_error_In in Hi.
  rewrite Forall_forall in Hrows. exact (Hrows row Hi).
Qed.

Lemma grid_lookup_wrapped (grid : OccGrid) (nz nx ny z x y : Z) :
  shaped grid nz nx ny ->
  (- nz <= z < nz)%Z -> (- nx <= x < nx)%Z -> (- ny <= y < ny)%Z ->
  exists v,
    Double.voxel_at grid (Double.wrapped nz z) (Double.wrapped nx x)
      (Double.wrapped ny y) = Some v
    /\ grid_lookup grid z x y = Ok v.
Proof.
  intros Hs Hz Hx Hy.
  destruct (getitem_wrapped grid nz z (proj1 Hs) Hz) as (plane & Hp & Gp).
  destruct (shaped_plane grid nz nx ny _ plane Hs Hp) as [Lx Lrows].
  destruct (getitem_wrapped plane nx x Lx Hx) as (row & Hr & Gr).
  destruct (getitem_wrapped row ny y (Lrows _ row Hr) Hy) as (v & Hv & Gv).
  exists v. split.
  - unfold Double.voxel_at. rewrite Hp, Hr. exact Hv.
  - unfold grid_lookup. rewrite Gp. simpl. rewrite Gr. simpl. exact Gv.
Qed.

Lemma grid_lookup_beyond (grid : OccGrid) (nz nx ny z x y : Z) :
  shaped grid nz nx ny ->
  ~ ((- nz <= z < nz)%Z /\ (- nx <= x < nx)%Z /\ (- ny <= y < ny)%Z) ->
  grid_lookup grid z x y = Raise IndexError.
Proof.
  intros Hs Hout. unfold grid_lookup.
  destruct (Z_le_dec (- nz) z) as [Hz1 |];
    [| rewrite getitem_outside by (rewrite (proj1 Hs); lia); reflexivity].
  destruct (Z_lt_dec z nz) as [Hz2 |];
    [| rewrite getitem_outside by (rewrite (proj1 Hs); lia); reflexivity].
  destruct (getitem_wrapped grid nz z (proj1 Hs) (conj Hz1 Hz2))
    as (plane & Hp & ->). simpl.
  destruct (shaped_plane grid nz nx ny _ plane Hs Hp) as [Lx Lrows].
  destruct (Z_le_dec (- nx) x) as [Hx1 |];
    [| rewrite getitem_outside by (rewrite Lx; lia); reflexivity].
  destruct (Z_lt_dec x nx) as [Hx2 |];
    [| rewrite getitem_outside by (rewrite Lx; lia); reflexivity].
  destruct (getitem_wrapped plane nx x Lx (conj Hx1 Hx2)) as (row & Hr & ->).
  simpl. apply getitem_outside. rewrite (Lrows _ row Hr). lia.
Qed.

Lemma scan_samples_addressed (env : Double.Env) (nz nx ny : Z)
    (points : list (float * (float * float))) :
  shaped (Double.occ_grid env) nz nx ny ->
  Forall (Double.addressed env nz nx ny) points ->
  exists b,
    Double.scan_samples (Double.env_spec env) (Double.occ_grid env) points
    = Ok b.
Proof.
  intros Hs. induction 1 as [| q rest Hq _ IH]; [exists true; reflexivity |].
  destruct Hq as (x_idx & y_idx & z_idx & Hi & Hz & Hx & Hy).
  destruct (grid_lookup_wrapped _ nz nx ny z_idx x_idx y_idx Hs)
    as (v & _ & Hv); try lia.
  rewrite scan_samples_next. unfold Double.voxel_value. rewrite Hi. simpl.
  rewrite Hv. simpl.
  destruct (v =? 0)%Z; [exact IH | exists false; reflexivity].
Qed.

(** C10 (as the code has it): on a box-shaped grid of [nz] by [nx] by [ny]
    voxels, take the samples of a call of [check_env_for_obstacle3D] and one
    of them, [point], reached by the loop (every sample before it read a
    free voxel), with the indices [x_idx], [y_idx], [z_idx] the code floors
    for it.  The lookup is not guarded.  When the three indices are in
    [[-n, n)] of their axes the lookup succeeds and reads the voxel at the
    wrapped indices, so that a negative index reads from the far end of
    its axis, and the call returns [False] on an occupied voxel and goes on
    with the next sample on a free one.  When an index is at or beyond [n]
    (or below [-n]) the call raises [IndexError].  An index is negative
    whenever the quotient it is floored from, as computed, is negative.
    And when every sample has its indices in [[0, n)] the call returns a
    boolean. *)
Theorem grid_lookup_is_unguarded (P : Double.Platform) (env : Double.Env)
    (start end_ : Double.Vec3) (nz nx ny : Z)
    (before after : list (float * (float * float)))
    (point : float * (float * float)) (x_idx y_idx z_idx : Z) :
  shaped (Double.occ_grid env) nz nx ny ->
  Double.sample_points P (Double.env_spec env) start end_
  = Ok (before ++ point :: after) ->
  Forall (fun q => Double.voxel_value env q = Ok 0%Z) before ->
  Double.indices (Double.env_spec env) point = Ok (x_idx, y_idx, z_idx) ->
  ((- nz <= z_idx < nz)%Z /\ (- nx <= x_idx < nx)%Z /\ (- ny <= y_idx < ny)%Z ->
   exists v,
     Double.voxel_at (Double.occ_grid env) (Double.wrapped nz z_idx)
       (Double.wrapped nx x_idx) (Double.wrapped ny y_idx) = Some v
     /\ Double.voxel_value env point = Ok v
     /\ Double.check_env_for_obstacle3D P env start end_
        = if (v =? 0)%Z
          then Double.scan_samples (Double.env_spec env) (Double.occ_grid env)
                 after
          else Ok false)
  /\ (~ ((- nz <= z_idx < nz)%Z /\ (- nx <= x_idx < nx)%Z
         /\ (- ny <= y_idx < ny)%Z) ->
      Double.check_env_for_obstacle3D P env start end_ = Raise IndexError)
  /\ ((x_idx < 0)%Z -> Double.wrapped nx x_idx = (nx + x_idx)%Z)
  /\ ((Double.quotient (Double.env_spec env) (fst point)
         (Double.c0 (Double.env_min (Double.env_spec env))) <? 0)%float = true ->
      (x_idx < 0)%Z)
  /\ ((Double.quotient (Double.env_spec env) (fst (snd point))
         (Double.c1 (Double.env_min (Double.env_spec env))) <? 0)%float = true ->
      (y_idx < 0)%Z)
  /\ ((Double.quotient (Double.env_spec env) (snd (snd point))
         (Double.c2 (Double.env_min (Double.env_spec env))) <? 0)%float = true ->
      (z_idx < 0)%Z)
  /\ (Forall (Double.addressed env nz nx ny) (before ++ point :: after) ->
      exists b, Double.check_env_for_obstacle3D P env start end_ = Ok b).
Proof.
  intros Hs Hpts Hfree Hidx.
  assert (Hcheck : Double.check_env_for_obstacle3D P env start end_
                   = (v <- Double.voxel_value env point ;;
                      if (v =? 0)%Z
                      then Double.scan_samples (Double.env_spec env)
                             (Double.occ_grid env) after
                      else Ok false)%out).
  { unfold Double.check_env_for_obstacle3D. rewrite Hpts. simpl obind.
    rewrite (scan_samples_free_prefix env before _ Hfree).
    apply scan_samples_next. }
  assert (Hvalue : Double.voxel_value env point
                   = grid_lookup (Double.occ_grid env) z_idx x_idx y_idx).
  { unfold Double.voxel_value. rewrite Hidx. reflexivity. }
  split.
  { intros (Hz & Hx & Hy).
    destruct (grid_lookup_wrapped _ nz nx ny z_idx x_idx y_idx Hs Hz Hx Hy)
      as (v & Hat & Hv).
    exists v. split; [exact Hat |].
    rewrite <- Hvalue in Hv. split; [exact Hv |].
    rewrite Hcheck, Hv. reflexivity. }
  split.
  { intros Hout.
    rewrite Hcheck, Hvalue, (grid_lookup_beyond _ nz nx ny _ _ _ Hs Hout).
    reflexivity. }
  split.
  { intros Hneg. unfold Double.wrapped.
    destruct (x_idx <? 0)%Z eqn:E; [lia | apply Z.ltb_ge in E; lia]. }
  destruct point as [x [y z]].
  unfold Double.indices in Hidx.
  destruct (Double.voxel_index _ x _) as [i |] eqn:Ex; simpl in Hidx;
    [| discriminate].
  destruct (Double.voxel_index _ y _) as [j |] eqn:Ey; simpl in Hidx;
    [| discriminate].
  destruct (Double.voxel_index _ z _) as [k |] eqn:Ez; simpl in Hidx;
    [| discriminate].
  injection Hidx as <- <- <-.
  split; [intros Hq; exact (floor_of_negative _ _ Hq Ex) |].
  split; [intros Hq; exact (floor_of_negative _ _ Hq Ey) |].
  split; [intros Hq; exact (floor_of_negative _ _ Hq Ez) |].
  intros Hall.
  unfold Double.check_env_for_obstacle3D. rewrite Hpts. simpl obind.
  exact (scan_samples_addressed env nz nx ny _ Hs Hall).
Qed.

Lemma grid_lookup_is_unguarded_witness :
  Double.check_env_for_obstacle3D Double.Example.platform Double.Example.row
    Double.Example.left3 Double.Example.left4
  = Ok false.
Proof.
  destruct (grid_lookup_is_unguarded Double.Example.platform Double.Example.row
              Double.Example.left3 Double.Example.left4 1 4 1 []
              [((-0x1.999999999999ap-2)%float, (0%float, 0%float))]
              ((-0x1.3333333333333p-2)%float, (0%float, 0%float))
              (-1) 0 0) as (H & _).
  - split; [reflexivity |]. repeat constructor.
  - vm_compute. reflexivity.
  - constructor.
  - vm_compute. reflexivity.
  - destruct H as (v & Hat & _ & Hc); [lia |].
    vm_compute in Hat. injection Hat as <-. exact Hc.
Defined.

(** C10, as stated, fails at both ends of the negative indices.  A
    coordinate below [env_min] does not always read from the far side: on
    the row of four cells of edge 1/2, the sample at x = -3 has index -6,
    below -4, and the call raises [IndexError] where the claim has a silent
    read.  Nor is its index always negative: the sample at -5e-324 is
    below [env_min = 0], yet with cells of edge 4 its quotient is -0.0 and
    its index 0; the lookup reads the near voxel of the row, which is free,
    and not the occupied voxel at the far end, and the call returns
    [True]. *)
Lemma sample_below_env_min_counterexample :
  (Double.c0 Double.Example.m3
   <? Double.c0 (Double.env_min (Double.env_spec Double.Example.row)))%float
  = true
  /\ Double.indices (Double.env_spec Double.Example.row)
       ((-3)%float, (0%float, 0%float))
     = Ok ((-6)%Z, 0%Z, 0%Z)
  /\ Double.check_env_for_obstacle3D Double.Example.platform
       Double.Example.row Double.Example.m3 Double.Example.m4
     = Raise IndexError
  /\ Double.sample_points Double.Example.platform
       (Double.env_spec Double.Example.coarse) Double.Example.below
       Double.Example.origin
     = Ok [((-0x1p-1074)%float, (0%float, 0%float))]
  /\ (Double.c0 Double.Example.below
      <? Double.c0 (Double.env_min (Double.env_spec Double.Example.coarse)))%float
     = true
  /\ Double.indices (Double.env_spec Double.Example.coarse)
       ((-0x1p-1074)%float, (0%float, 0%float))
     = Ok (0%Z, 0%Z, 0%Z)
  /\ Double.voxel_at (Double.occ_grid Double.Example.coarse) 0 0 0 = Some 0%Z
  /\ Double.voxel_at (Double.occ_grid Double.Example.coarse) 0 3 0 = Some 1%Z
  /\ Double.check_env_for_obstacle3D Double.Example.platform
       Double.Example.coarse Double.Example.below Double.Example.origin
     = Ok true.
Proof. repeat split; vm_compute; reflexivity. Qed.

(** The segment from x = 3 to x = 4, right of the row of four cells of
    edge 1/2, raises at its first sample. *)
Lemma beyond_the_grid_raises :
  Double.check_env_for_obstacle3D Double.Example.platform Double.Example.row
    Double.Example.p3 Double.Example.p4
  = Raise IndexError.
Proof. vm_compute. reflexivity. Qed.

(** The indices are floored from rounded quotients: with cells of edge
    0.1 (the double) the coordinate 0.5 lies below five cell edges, and is
    indexed 5 all the same. *)
Lemma rounded_quotient_reaches_the_extent :
  (Double.exact 0x1p-1 < 5 * Double.exact 0x1.999999999999ap-4)%R
  /\ Double.math_floor (0x1p-1 / 0x1.999999999999ap-4)%float = Ok 5%Z.
Proof.
  split; [| vm_compute; reflexivity].
  assert (E1 : Double.exact 0x1p-1 = (IZR 4503599627370496 / IZR 9007199254740992)%R).
  { unfold Double.exact.
    replace (Prim2SF 0x1p-1) with (S754_finite false 4503599627370496 (-53))
      by (vm_compute; reflexivity).
    reflexivity. }
  assert (E2 : Double.exact 0x1.999999999999ap-4
               = (IZR 7205759403792794 / IZR 72057594037927936)%R).
  { unfold Double.exact.
    replace (Prim2SF 0x1.999999999999ap-4)
      with (S754_finite false 7205759403792794 (-56))
      by (vm_compute; reflexivity).
    reflexivity. }
  rewrite E1, E2. lra.
Qed.

(** ** The range test of the loop over the filaments *)

Lemma failed_test_adds_nothing (P : Double.Platform) (env : Double.Env)
    (loc : Double.Vec3) (head : Double.Header) (fil : Double.Filament.t)
    (gas_conc : float) :
  Double.in_range P loc fil = false ->
  Double.add_filament P env loc head fil gas_conc = (gas_conc, Ok tt).
Proof.
  unfold Double.in_range, Double.add_filament. intros ->. reflexivity.
Qed.

Lemma passed_test_adds (P : Double.Platform) (env : Double.Env)
    (loc : Double.Vec3) (head : Double.Header) (fil : Double.Filament.t)
    (gas_conc ppm : float) :
  Double.in_range P loc fil = true ->
  Double.check_env_for_obstacle3D P env loc (Double.position fil) = Ok true ->
  Double.concentration_from_filament P loc fil head = Ok ppm ->
  Double.add_filament P env loc head fil gas_conc
  = ((gas_conc + ppm)%float, Ok tt).
Proof.
  unfold Double.in_range, Double.add_filament. intros -> -> ->. reflexivity.
Qed.

Lemma for_filaments_skips (P : Double.Platform) (env : Double.Env)
    (loc : Double.Vec3) (head : Double.Header) (fil : Double.Filament.t)
    (before after : list Double.Filament.t) :
  Double.in_range P loc fil = false ->
  forall gas_conc : float,
    Double.for_filaments P env loc head (before ++ fil :: after) gas_conc
    = Double.for_filaments P env loc head (before ++ after) gas_conc.
Proof.
  intros Hout. induction before as [| b rest IH]; intros gas_conc; simpl.
  - rewrite (failed_test_adds_nothing P env loc head fil gas_conc Hout).
    reflexivity.
  - destruct (Double.add_filament P env loc head b gas_conc) as [g [[] | e]];
      [apply IH | reflexivity].
Qed.

(** C7 (as the code has it): a filament whose squared distance to the query
    position, as the code computes it in double precision, is greater than
    or equal to the square it computes of [sigma * 5 / 100] fails the test
    of the loop body (the test is strict on the computed numbers, equality
    included) and adds exactly nothing: the body leaves the concentration
    as it was, raising nothing, and the loop over the filaments ends as it
    does without that filament. *)
Theorem out_of_range_filament_adds_nothing (P : Double.Platform)
    (env : Double.Env) (loc : Double.Vec3) (head : Double.Header)
    (fil : Double.Filament.t) (gas_conc : float)
    (before after : list Double.Filament.t) :
  (Double.libm_pow P (Double.limit_distance fil) 2
   <=? Double.dist_SQR P loc fil)%float = true ->
  Double.in_range P loc fil = false
  /\ Double.add_filament P env loc head fil gas_conc = (gas_conc, Ok tt)
  /\ Double.for_filaments P env loc head (before ++ fil :: after) gas_conc
     = Double.for_filaments P env loc head (before ++ after) gas_conc.
Proof.
  intros Hge.
  assert (Hout : Double.in_range P loc fil = false)
    by (apply leb_not_ltb; exact Hge).
  split; [exact Hout |]. split.
  - apply failed_test_adds_nothing. exact Hout.
  - apply for_filaments_skips. exact Hout.
Qed.

Lemma out_of_range_filament_adds_nothing_witness :
  Double.add_filament Double.Example.platform Double.Example.free
    Double.Example.unit_x Double.Example.head Double.Example.cloud 0%float
  = (0%float, Ok tt).
Proof.
  apply (out_of_range_filament_adds_nothing Double.Example.platform
           Double.Example.free Double.Example.unit_x Double.Example.head
           Double.Example.cloud 0%float [] []).
  vm_compute. reflexivity.
Defined.

(** C7, as stated on the distances themselves, fails on the boundary: for
    the filament at the origin with sigma 2 and the position
    (0.06, 0.08, 0), the squared distance is at least [(sigma * 5 / 100) ^ 2]
    (the two doubles stand for numbers whose squares add up to a little
    more than 0.01), yet the computed squares are 0.01 and
    0.010000000000000002, the test passes, and the filament adds its
    0.0296 ppm. *)
Lemma boundary_filament_counterexample :
  ((Double.exact (Double.Filament.sigma Double.Example.puff) * 5 / 100) ^ 2
   <= (Double.exact (Double.c0 Double.Example.on_limit)
       - Double.exact (Double.Filament.x Double.Example.puff)) ^ 2
      + (Double.exact (Double.c1 Double.Example.on_limit)
         - Double.exact (Double.Filament.y Double.Example.puff)) ^ 2
      + (Double.exact (Double.c2 Double.Example.on_limit)
         - Double.exact (Double.Filament.z Double.Example.puff)) ^ 2)%R
  /\ Double.dist_SQR Double.Example.platform Double.Example.on_limit
       Double.Example.puff
     = 0x1.47ae147ae147bp-7%float
  /\ Double.libm_pow Double.Example.platform
       (Double.limit_distance Double.Example.puff) 2
     = 0x1.47ae147ae147cp-7%float
  /\ Double.in_range Double.Example.platform Double.Example.on_limit
       Double.Example.puff
     = true
  /\ exists ppm : float,
       Double.add_filament Double.Example.platform Double.Example.free
         Double.Example.on_limit Double.Example.head Double.Example.puff
         0%float
       = (ppm, Ok tt)
       /\ (0x1.e353f7ced9168p-6 <? ppm)%float = true
       /\ (ppm <? 0x1.e4f765fd8adacp-6)%float = true.
Proof.
  split.
  { assert (E0 : Double.exact 0 = 0%R).
    { unfold Double.exact. rewrite Prim2SF_zero. reflexivity. }
    assert (E2 : Double.exact 2 = (IZR 4503599627370496 / IZR 2251799813685248)%R).
    { unfold Double.exact.
      replace (Prim2SF 2) with (S754_finite false 4503599627370496 (-51))
        by (vm_compute; reflexivity).
      reflexivity. }
    assert (E6 : Double.exact 0x1.eb851eb851eb8p-5
                 = (IZR 8646911284551352 / IZR 144115188075855872)%R).
    { unfold Double.exact.
      replace (Prim2SF 0x1.eb851eb851eb8p-5)
        with (S754_finite false 8646911284551352 (-57))
        by (vm_compute; reflexivity).
      reflexivity. }
    assert (E8 : Double.exact 0x1.47ae147ae147bp-4
                 = (IZR 5764607523034235 / IZR 72057594037927936)%R).
    { unfold Double.exact.
      replace (Prim2SF 0x1.47ae147ae147bp-4)
        with (S754_finite false 5764607523034235 (-56))
        by (vm_compute; reflexivity).
      reflexivity. }
    simpl Double.Filament.sigma. simpl Double.Filament.x.
    simpl Double.Filament.y. simpl Double.Filament.z.
    simpl Double.c0. simpl Double.c1. simpl Double.c2.
    rewrite E0, E2, E6, E8. lra. }
  split; [vm_compute; reflexivity |].
  split; [vm_compute; reflexivity |].
  split; [vm_compute; reflexivity |].
  eexists. split; [vm_compute; reflexivity |].
  split; vm_compute; reflexivity.
Qed.

(** ** What the visibility check can raise *)

Lemma math_floor_raises (x : float) (e : exn) :
  Double.math_floor x = Raise e -> e = OverflowError \/ e = ValueError.
Proof.
  unfold Double.math_floor.
  destruct (Prim2SF x); intros H; try discriminate;
    injection H as <-; auto.
Qed.

Lemma math_ceil_raises (x : float) (e : exn) :
  Double.math_ceil x = Raise e -> e = OverflowError \/ e = ValueError.
Proof.
  unfold Double.math_ceil.
  destruct (Prim2SF x); intros H; try discriminate;
    injection H as <-; auto.
Qed.

Lemma linspace_refused (P : Double.Platform) (start stop : float) (num : Z)
    (e : exn) :
  Double.linspace P start stop num = Raise e ->
  e = ValueError \/ Double.array_error P num = Some e.
Proof.
  unfold Double.linspace.
  destruct (num <? 0)%Z; [intros H; injection H as <-; auto |].
  destruct (Double.array_error P num) as [e' |]; [| discriminate].
  intros H. injection H as <-. auto.
Qed.

Lemma scan_samples_raises_double (spec : Double.EnvSpec) (grid : OccGrid)
    (points : list (float * (float * float))) (e : exn) :
  Double.scan_samples spec grid points = Raise e ->
  e = IndexError \/ e = OverflowError \/ e = ValueError.
Proof.
  induction points as [| [x [y z]] rest IH]; [discriminate |]. simpl.
  destruct (Double.voxel_index spec x _) as [i |] eqn:Ex; simpl;
    [| intros H; injection H as <-; right;
       exact (math_floor_raises _ _ Ex)].
  destruct (Double.voxel_index spec y _) as [j |] eqn:Ey; simpl;
    [| intros H; injection H as <-; right;
       exact (math_floor_raises _ _ Ey)].
  destruct (Double.voxel_index spec z _) as [k |] eqn:Ez; simpl;
    [| intros H; injection H as <-; right;
       exact (math_floor_raises _ _ Ez)].
  destruct (grid_lookup grid k i j) as [v |] eqn:Ev; simpl;
    [| intros H; injection H as <-; left;
       exact (grid_lookup_raises _ _ _ _ _ Ev)].
  destruct (v =? 0)%Z; [exact IH | discriminate].
Qed.

(** X2: the visibility check can raise an [IndexError], from the lookup of
    a sample outside the grid; an [OverflowError] or a [ValueError], from
    [math.ceil] or [math.floor] of a quotient that is infinite or nan, or
    from [np.linspace] refusing a negative count; and what NumPy raises
    when it cannot hold the samples.  It raises nothing else. *)
Theorem what_check_env_can_raise (P : Double.Platform) (env : Double.Env)
    (start end_ : Double.Vec3) (e : exn) :
  Double.check_env_for_obstacle3D P env start end_ = Raise e ->
  e = IndexError \/ e = OverflowError \/ e = ValueError
  \/ exists n : Z, Double.array_error P n = Some e.
Proof.
  unfold Double.check_env_for_obstacle3D, Double.sample_points, Double.samples.
  destruct (Double.math_ceil _) as [n |] eqn:En; simpl obind.
  2:{ intros H. injection H as <-.
      destruct (math_ceil_raises _ _ En) as [-> | ->]; auto. }
  destruct (Double.linspace P (Double.c0 start) _ _) as [xs |] eqn:Ex;
    simpl obind.
  2:{ intros H. injection H as <-.
      destruct (linspace_refused _ _ _ _ _ Ex) as [-> | Ha]; eauto 6. }
  destruct (Double.linspace P (Double.c1 start) _ _) as [ys |] eqn:Ey;
    simpl obind.
  2:{ intros H. injection H as <-.
      destruct (linspace_refused _ _ _ _ _ Ey) as [-> | Ha]; eauto 6. }
  destruct (Double.linspace P (Double.c2 start) _ _) as [zs |] eqn:Ez;
    simpl obind.
  2:{ intros H. injection H as <-.
      destruct (linspace_refused _ _ _ _ _ Ez) as [-> | Ha]; eauto 6. }
  intros H.
  destruct (scan_samples_raises_double _ _ _ _ H) as [-> | [-> | ->]]; auto.
Qed.

(** A segment that starts 1e155 from the origin: the dot product of the
    stacked points overflows, the norm and the quotient are infinite, and
    [math.ceil] raises. *)
Lemma what_check_env_can_raise_witness :
  Double.check_env_for_obstacle3D Double.Example.platform Double.Example.row
    (Double.mkVec3 0x1.dd55745cbb7edp+514 0 0) Double.Example.origin
  = Raise OverflowError
  /\ (OverflowError = IndexError \/ OverflowError = OverflowError
      \/ OverflowError = ValueError
      \/ exists n : Z,
           Double.array_error Double.Example.platform n = Some OverflowError).
Proof.
  assert (H : Double.check_env_for_obstacle3D Double.Example.platform
                Double.Example.row
                (Double.mkVec3 0x1.dd55745cbb7edp+514 0 0) Double.Example.origin
              = Raise OverflowError) by (vm_compute; reflexivity).
  split; [exact H |].
  exact (what_check_env_can_raise _ _ _ _ _ H).
Defined.

End DoubleFacts.
